(** * The function execution runtime (src/runtime/runtime-app.py)

    A shallow embedding of the runtime's poll loop: the Python values it
    handles, a small monad for its effects (Redis commands, the user
    handler, the clock, the log), the functions [parse_input],
    [load_user_handler] and [main], and the properties of one poll cycle
    and of any number of cycles.  The runtime is embedded twice: first
    on user code that is well behaved (it returns or raises an instance
    of [Exception], and leaves the context alone), then, in the module
    [General], on any user code; the second embedding is the first on
    well-behaved user code ([main_any_host]).  The metric history of the
    dashboard that reads the runtime's output (src/dashboard/app.py)
    comes last. *)

From Stdlib Require Import ZArith Lia String Ascii List.
From Stdlib Require Import DecimalString DecimalPos DecimalZ DecimalFacts.
From stdpp Require Import base option gmap strings list.

Open Scope Z_scope.
Open Scope string_scope.

(** ** Python values and exceptions *)

(** The values that travel through the runtime.  A [str] is kept as the
    UTF-8 encoding of its text (a surrogate, which a [str] may hold, in
    the three-byte form of the same scheme), [bytes] as the bytes
    themselves.  Binary64 arithmetic is not modelled: a [float] is
    carried as its decimal literal.  A [dict] is the list of its items
    in insertion order. *)
#[local] Unset Elimination Schemes.
Inductive PyVal : Type :=
| PyNone
| PyBool (b : bool)
| PyInt (n : Z)
| PyFloat (lit : string)
| PyStr (s : string)
| PyBytes (b : string)
| PyList (items : list PyVal)
| PyTuple (items : list PyVal)
| PyDict (items : list (PyVal * PyVal)).
#[local] Set Elimination Schemes.

(** Induction on a value, with the hypothesis on the elements of a list
    or tuple and on the values of a dict. *)
Section PyVal_induction.
Variable P : PyVal -> Prop.
Hypothesis HNone : P PyNone.
Hypothesis HBool : forall b, P (PyBool b).
Hypothesis HInt : forall n, P (PyInt n).
Hypothesis HFloat : forall lit, P (PyFloat lit).
Hypothesis HStr : forall s, P (PyStr s).
Hypothesis HBytes : forall b, P (PyBytes b).
Hypothesis HList : forall items, Forall P items -> P (PyList items).
Hypothesis HTuple : forall items, Forall P items -> P (PyTuple items).
Hypothesis HDict :
  forall items, Forall (fun kv : PyVal * PyVal => P kv.2) items -> P (PyDict items).

Fixpoint PyVal_values_ind (v : PyVal) : P v :=
  match v with
  | PyNone => HNone
  | PyBool b => HBool b
  | PyInt n => HInt n
  | PyFloat lit => HFloat lit
  | PyStr s => HStr s
  | PyBytes b => HBytes b
  | PyList items =>
    HList items
      ((fix all (l : list PyVal) : Forall P l :=
          match l with
          | [] => @List.Forall_nil _ P
          | x :: r => @List.Forall_cons _ P x r (PyVal_values_ind x) (all r)
          end) items)
  | PyTuple items =>
    HTuple items
      ((fix all (l : list PyVal) : Forall P l :=
          match l with
          | [] => @List.Forall_nil _ P
          | x :: r => @List.Forall_cons _ P x r (PyVal_values_ind x) (all r)
          end) items)
  | PyDict items =>
    HDict items
      ((fix all (l : list (PyVal * PyVal)) : Forall (fun kv => P kv.2) l :=
          match l with
          | [] => @List.Forall_nil _ (fun kv => P kv.2)
          | kv :: r =>
            @List.Forall_cons _ (fun kv => P kv.2) kv r
              (let (k, x) as p return P p.2 := kv in PyVal_values_ind x) (all r)
          end) items)
  end.
End PyVal_induction.

(** An instance of Python's class [Exception], the class every [except]
    clause of the runtime names: its class name and its message.
    [SystemExit] and [KeyboardInterrupt], which stop the interpreter from
    outside the program's logic, are not values of this type. *)
Inductive PyExn : Type :=
| Exn (cls : string) (msg : string).

(** An exception that is no instance of [Exception], which no
    [except Exception] clause catches: [SystemExit], with the exit status
    that the argument of [sys.exit] stands for, or another one
    ([KeyboardInterrupt], [GeneratorExit], a class of the user's own
    derived from [BaseException]). *)
Inductive BaseExn : Type :=
| SystemExit (code : Z)
| OtherBaseException (cls : string) (msg : string).

(** What evaluating a Python expression gives: a value, or a raise. *)
Inductive Outcome (A : Type) : Type :=
| Returns (a : A)
| Raises (e : PyExn).
Arguments Returns {A} a.
Arguments Raises {A} e.

Definition is_None (v : PyVal) : bool :=
  match v with PyNone => true | _ => false end.

(** [isinstance(v, dict)] *)
Definition isinstance_dict (v : PyVal) : bool :=
  match v with PyDict _ => true | _ => false end.

(** ** The standard-library functions the runtime calls

    [int(str)], [json.loads] and [json.dumps] belong to Python, not to the
    repository.  The runtime is embedded over any implementation of them;
    the module [PyJson] below gives an executable one. *)
Class PyStd : Type := {
  (** [int(s)] for a [str]: the integer, or [None] for [ValueError] *)
  py_int : string -> option Z;
  json_loads : string -> Outcome PyVal;
  json_dumps : PyVal -> Outcome string
}.

(** ** UTF-8 *)

Definition byte_in (lo hi : N) (a : ascii) : bool :=
  (lo <=? N_of_ascii a)%N && (N_of_ascii a <=? hi)%N.

(** Well-formed UTF-8 byte sequences (RFC 3629, table 3-7 of Unicode):
    no overlong form, no surrogate, nothing above U+10FFFF. *)
Fixpoint utf8_valid (s : string) : bool :=
  match s with
  | EmptyString => true
  | String a rest =>
    if byte_in 0 127 a then utf8_valid rest
    else match rest with
    | String b rest1 =>
      if byte_in 194 223 a then byte_in 128 191 b && utf8_valid rest1
      else match rest1 with
      | String c rest2 =>
        if byte_in 224 239 a then
          (if byte_in 224 224 a then byte_in 160 191 b
           else if byte_in 237 237 a then byte_in 128 159 b
           else byte_in 128 191 b)
          && byte_in 128 191 c && utf8_valid rest2
        else match rest2 with
        | String d rest3 =>
          byte_in 240 244 a
          && (if byte_in 240 240 a then byte_in 144 191 b
              else if byte_in 244 244 a then byte_in 128 143 b
              else byte_in 128 191 b)
          && byte_in 128 191 c && byte_in 128 191 d && utf8_valid rest3
        | EmptyString => false
        end
      | EmptyString => false
      end
    | EmptyString => false
    end
  end.

(** [raw_value.decode("utf-8")] for a value that is not a [str]: [bytes]
    decode when they are well-formed UTF-8; any other value has no
    [decode] attribute. *)
Definition decode_utf8 (raw_value : PyVal) : Outcome string :=
  match raw_value with
  | PyBytes b =>
    if utf8_valid b then Returns b
    else Raises (Exn "UnicodeDecodeError" "'utf-8' codec can't decode bytes")
  | _ => Raises (Exn "AttributeError" "object has no attribute 'decode'")
  end.

(** ** The runtime context *)

(** [class Context]; timestamps are clock readings. *)
Record Context : Type := mkContext {
  host : string;
  port : Z;
  input_key : string;
  output_key : string;
  function_getmtime : Z;
  last_execution : option Z;
  env : gmap string PyVal
}.

(** [Context.__init__] *)
Definition Context_init (host : string) (port : Z) (input_key output_key : string)
    (function_mtime : Z) : Context :=
  {| host := host; port := port; input_key := input_key;
     output_key := output_key; function_getmtime := function_mtime;
     last_execution := None; env := ∅ |}.

(** [context.last_execution = t] *)
Definition set_last_execution (context : Context) (t : Z) : Context :=
  {| host := host context; port := port context;
     input_key := input_key context; output_key := output_key context;
     function_getmtime := function_getmtime context;
     last_execution := Some t; env := env context |}.

(** The user handler when it is well behaved: called with the payload and
    the context, it returns a value or raises an instance of
    [Exception], and it leaves the context and the store alone.
    [General.Handler] below is the handler without these assumptions. *)
Definition Handler : Type := PyVal -> Context -> Outcome PyVal.

(** ** Effects *)

(** What the runtime does to the outside, in order: one event per call of
    [client.get], [client.set], [parse_input], the handler, [log],
    [traceback.print_exc], [time.time] and [time.sleep].  A call of the
    handler is on record with what it returned or raised ([EvCall]), or
    with the exception that left it when that is no instance of
    [Exception] ([EvLeft]). *)
Inductive Event : Type :=
| EvGet (key : string) (res : Outcome (option string))
| EvSet (key : string) (value : string) (res : Outcome unit)
| EvParse (raw_value : PyVal)
| EvCall (payload : PyVal) (context : Context) (res : Outcome PyVal)
| EvLeft (payload : PyVal) (context : Context) (b : BaseExn)
| EvLog (msg : string)
| EvTraceback (e : PyExn)
| EvTime (t : Z)
| EvSleep (secs : Z).

(** The store as the Redis server holds it, and the number of calls made
    to the outside so far (the logical instant). *)
Record World : Type := mkWorld {
  store : gmap string string;
  instant : nat
}.

(** What the runtime does not decide: whether a GET or a SET issued at an
    instant fails in transport, what the clock reads at an instant, and
    what other clients write to the store between two cycles. *)
Record Env : Type := mkEnv {
  get_fault : nat -> option PyExn;
  set_fault : nat -> option PyExn;
  clock : nat -> Z;
  producer : nat -> gmap string string -> gmap string string
}.

Record Result (A : Type) : Type := mkResult {
  outcome : Outcome A;
  world : World;
  events : list Event
}.
Arguments mkResult {A} _ _ _.
Arguments outcome {A} _.
Arguments world {A} _.
Arguments events {A} _.

(** A computation reads and changes the world, emits events, and returns
    or raises. *)
Definition M (A : Type) : Type := World -> Result A.

#[export] Instance M_ret : MRet M :=
  fun A a w => mkResult (Returns a) w [].

#[export] Instance M_bind : MBind M :=
  fun A B f m w =>
    match m w with
    | mkResult (Returns a) w1 evs1 =>
      match f a w1 with
      | mkResult o w2 evs2 => mkResult o w2 (evs1 ++ evs2)%list
      end
    | mkResult (Raises e) w1 evs1 => mkResult (Raises e) w1 evs1
    end.

(** An expression with no effect other than its possible raise. *)
Definition lift {A : Type} (o : Outcome A) : M A :=
  fun w => mkResult o w [].

(** [try: body / except Exception: handle].  A computation of [M] raises
    instances of [Exception] only, which the clause takes; an exception
    of user code that is none goes past it ([General.cycle]). *)
Definition try_except {A : Type} (body : M A) (handle : PyExn -> M A) : M A :=
  fun w =>
    match body w with
    | mkResult (Returns a) w1 evs1 => mkResult (Returns a) w1 evs1
    | mkResult (Raises e) w1 evs1 =>
      match handle e w1 with
      | mkResult o w2 evs2 => mkResult o w2 (evs1 ++ evs2)%list
      end
    end.

Definition tick (w : World) : World :=
  mkWorld (store w) (S (instant w)).

Definition emit (ev : Event) : M unit :=
  fun w => mkResult (Returns tt) w [ev].

(** [log(msg)]; writing to the standard output is taken not to fail. *)
Definition log (msg : string) : M unit := emit (EvLog msg).

(** [traceback.print_exc()] inside the handler of exception [e] *)
Definition traceback_print_exc (e : PyExn) : M unit := emit (EvTraceback e).

(** [time.sleep(secs)] *)
Definition time_sleep (secs : Z) : M unit :=
  fun w => mkResult (Returns tt) (tick w) [EvSleep secs].

Section Effects.
Variable E : Env.

(** [client.get(key)]: the value under the key, [None] when there is
    none, or a raise when the command does not go through. *)
Definition client_get (key : string) : M (option string) :=
  fun w =>
    match get_fault E (instant w) with
    | Some e => mkResult (Raises e) (tick w) [EvGet key (Raises e)]
    | None =>
      mkResult (Returns (store w !! key)) (tick w)
               [EvGet key (Returns (store w !! key))]
    end.

(** [client.set(key, value)] with a [str] value, which the client sends
    as its UTF-8 encoding. *)
Definition client_set (key value : string) : M unit :=
  fun w =>
    match set_fault E (instant w) with
    | Some e => mkResult (Raises e) (tick w) [EvSet key value (Raises e)]
    | None =>
      mkResult (Returns tt) (tick (mkWorld (<[key := value]> (store w)) (instant w)))
               [EvSet key value (Returns tt)]
    end.

(** [time.time()] *)
Definition time_time : M Z :=
  fun w => mkResult (Returns (clock E (instant w))) (tick w)
                    [EvTime (clock E (instant w))].

(** Other clients of the store act. *)
Definition interfere : M unit :=
  fun w => mkResult (Returns tt)
                    (mkWorld (producer E (instant w) (store w)) (instant w)) [].
End Effects.

(** [handler(payload, context)] *)
Definition call (handler : Handler) (payload : PyVal) (context : Context) : M PyVal :=
  fun w =>
    match handler payload context with
    | Returns result =>
      mkResult (Returns result) (tick w) [EvCall payload context (Returns result)]
    | Raises e => mkResult (Raises e) (tick w) [EvCall payload context (Raises e)]
    end.

(** ** The poll loop *)

Definition USER_MODULE_PATH : string := "/opt/usermodule.py".
Definition POLL_INTERVAL_SECONDS : Z := 5.

(** [str(n)] for an [int] *)
Definition str_of_int (n : Z) : string := NilZero.string_of_int (Z.to_int n).

(** What [client.get] returned, as the Python value it is. *)
Definition raw_of (got : option string) : PyVal :=
  match got with
  | Some b => PyBytes b
  | None => PyNone
  end.

(** Where a step of the loop body leaves the iteration: at the next
    statement, or at [continue]. *)
Inductive Flow (A : Type) : Type :=
| Next (a : A)
| Continue.
Arguments Next {A} a.
Arguments Continue {A}.

(** The variables of [main] that the loop reads and writes. *)
Record Loop : Type := mkLoop {
  loop_input_key : string;
  loop_output_key : string;
  handler : Handler;
  context : Context;
  last_raw_value : option string
}.

Definition with_last_raw_value (l : Loop) (raw_value : option string) : Loop :=
  mkLoop (loop_input_key l) (loop_output_key l) (handler l) (context l) raw_value.

Definition with_context (l : Loop) (c : Context) : Loop :=
  mkLoop (loop_input_key l) (loop_output_key l) (handler l) c (last_raw_value l).

Section Runtime.
Context `{PyStd}.
Variable E : Env.

(** [parse_input] *)
Definition parse_input (raw_value : PyVal) : M PyVal :=
  emit (EvParse raw_value);;
  if is_None raw_value then mret PyNone
  else
    try_except
      (text ← lift (match raw_value with
                    | PyStr s => Returns s
                    | _ => decode_utf8 raw_value
                    end);
       lift (json_loads text))
      (fun e =>
         log "[warn] Failed to parse JSON input from Redis";;
         traceback_print_exc e;;
         mret PyNone).

(** What [parse_input] returns, as a function of its argument: the JSON
    value of the text when the argument is a [str] or well-formed UTF-8
    [bytes] holding JSON, and [None] otherwise. *)
Definition parsed (raw_value : PyVal) : PyVal :=
  match raw_value with
  | PyStr text =>
    match json_loads text with Returns v => v | Raises _ => PyNone end
  | PyBytes b =>
    if utf8_valid b then
      match json_loads b with Returns v => v | Raises _ => PyNone end
    else PyNone
  | _ => PyNone
  end.

(** The last [try] of the loop body: encode, SET, stamp, log. *)
Definition publish (l : Loop) (result : PyVal) : M Loop :=
  try_except
    (output_payload ← lift (json_dumps result);
     client_set E (loop_output_key l) output_payload;;
     now ← time_time E;
     log ("[info] Processed input and wrote output to key '"
            +:+ loop_output_key l +:+ "'");;
     mret (with_context l (set_last_execution (context l) now)))
    (fun e =>
       log "[error] Failed to write handler output to Redis";;
       traceback_print_exc e;;
       mret l).

(** One iteration of [while True] in [main]. *)
Definition cycle (l : Loop) : M Loop :=
  got ← try_except
    (raw_value ← client_get E (loop_input_key l);
     mret (Next raw_value))
    (fun e =>
       log "[error] Failed to read from Redis; retrying after delay";;
       traceback_print_exc e;;
       time_sleep POLL_INTERVAL_SECONDS;;
       mret Continue);
  match got with
  | Continue => mret l
  | Next raw_value =>
    if decide (raw_value = last_raw_value l) then
      time_sleep POLL_INTERVAL_SECONDS;; mret l
    else
      let l := with_last_raw_value l raw_value in
      payload ← parse_input (raw_of raw_value);
      if is_None payload then
        time_sleep POLL_INTERVAL_SECONDS;; mret l
      else
        called ← try_except
          (result ← call (handler l) payload (context l);
           mret (Next result))
          (fun e =>
             log "[error] Exception inside user handler";;
             traceback_print_exc e;;
             time_sleep POLL_INTERVAL_SECONDS;;
             mret Continue);
        match called with
        | Continue => mret l
        | Next result =>
          if negb (isinstance_dict result) then
            log "[warn] Handler return is not a dict; skipping write";;
            time_sleep POLL_INTERVAL_SECONDS;;
            mret l
          else
            l' ← publish l result;
            time_sleep POLL_INTERVAL_SECONDS;;
            mret l'
        end
  end.

(** [n] iterations of the loop; between two of them the other clients of
    the store may have written to it. *)
Fixpoint run (n : nat) (l : Loop) : M Loop :=
  match n with
  | O => mret l
  | S n' => interfere E;; l' ← cycle l; run n' l'
  end.
End Runtime.

(** ** Startup *)

(** What a module attribute holds: something callable, or a plain value. *)
Inductive PyObj : Type :=
| Function (f : Handler)
| Object (v : PyVal).

(** [callable(obj)] *)
Definition callable (obj : PyObj) : bool :=
  match obj with Function _ => true | Object _ => false end.

(** A path of the file system: a regular file, with what executing it as a
    module gives (its namespace, or a raise), or a directory; each with
    its modification time. *)
Inductive Node : Type :=
| RegularFile (exec_module : Outcome (gmap string PyObj)) (mtime : Z)
| Directory (mtime : Z).

(** The machine the process starts on: [os.environ] and the file system. *)
Record Host : Type := mkHost {
  environ : gmap string string;
  files : gmap string Node
}.

(** How startup ends: it goes on with a value, the process exits
    ([sys.exit]), or it dies of an exception nothing catches. *)
Inductive Ending (A : Type) : Type :=
| Goes (a : A)
| Exits (code : Z)
| Dies (e : PyExn).
Arguments Goes {A} a.
Arguments Exits {A} code.
Arguments Dies {A} e.

(** A startup computation: what it logged, and how it ended. *)
Definition Startup (A : Type) : Type := (list Event * Ending A)%type.

#[export] Instance Startup_ret : MRet Startup :=
  fun A a => ([], Goes a).

#[export] Instance Startup_bind : MBind Startup :=
  fun A B f m =>
    match m.2 with
    | Goes a => ((m.1 ++ (f a).1)%list, (f a).2)
    | Exits code => (m.1, Exits code)
    | Dies e => (m.1, Dies e)
    end.

Definition boot_log (msg : string) : Startup unit := ([EvLog msg], Goes tt).
Definition boot_traceback (e : PyExn) : Startup unit := ([EvTraceback e], Goes tt).

(** [sys.exit(code)] *)
Definition sys_exit {A : Type} (code : Z) : Startup A := ([], Exits code).

(** [os.path.isfile(path)] *)
Definition os_path_isfile (h : Host) (path : string) : bool :=
  match files h !! path with
  | Some (RegularFile _ _) => true
  | _ => false
  end.

(** [os.path.getmtime(path)] *)
Definition os_path_getmtime (h : Host) (path : string) : Startup Z :=
  match files h !! path with
  | Some (RegularFile _ mtime) => mret mtime
  | Some (Directory mtime) => mret mtime
  | None => ([], Dies (Exn "FileNotFoundError" path))
  end.

Definition has_suffix (suffix s : string) : bool :=
  String.eqb suffix
    (substring (String.length s - String.length suffix) (String.length suffix) s)
  && (String.length suffix <=? String.length s)%nat.

(** [importlib.util.spec_from_file_location(name, location)]: the loader
    chosen by the suffix of the location (extension module, source,
    bytecode), [None] when no loader takes the suffix. *)
Definition spec_from_file_location (name location : string) : option string :=
  if has_suffix ".so" location then Some "ExtensionFileLoader"
  else if has_suffix ".py" location then Some "SourceFileLoader"
  else if has_suffix ".pyc" location then Some "SourcelessFileLoader"
  else None.

(** [spec.loader.exec_module(module)] followed by the module's namespace *)
Definition loader_exec_module (h : Host) (path : string) : Outcome (gmap string PyObj) :=
  match files h !! path with
  | Some (RegularFile exec_module _) => exec_module
  | Some (Directory _) => Raises (Exn "IsADirectoryError" path)
  | None => Raises (Exn "FileNotFoundError" path)
  end.

(** [load_user_handler] on a module that is well behaved at load: creating
    it does not fail and executing it returns or raises an instance of
    [Exception].  [General.load_user_handler] is the function without
    these assumptions. *)
Definition load_user_handler (h : Host) (path : string) : Startup Handler :=
  if negb (os_path_isfile h path) then
    boot_log ("[error] User module not found at " +:+ path);;
    sys_exit 1
  else
    match spec_from_file_location "usermodule" path with
    | None =>
      boot_log "[error] Failed to create module spec for usermodule";;
      sys_exit 1
    | Some _ =>
      match loader_exec_module h path with
      | Raises e =>
        boot_log "[error] Failed to load user module:";;
        boot_traceback e;;
        sys_exit 1
      | Returns module =>
        match default (Object PyNone) (module !! "handler") with
        | Function handler => mret handler
        | Object _ =>
          boot_log "[error] usermodule.py must define a callable 'handler' function";;
          sys_exit 1
        end
      end
    end.

(** The part of [main] before the loop: configuration from the
    environment, the handler, the context. *)
Definition startup `{PyStd} (h : Host) : Startup Loop :=
  let host := default "localhost" (environ h !! "REDIS_HOST") in
  let port_str := default "6379" (environ h !! "REDIS_PORT") in
  let input_key := default "metrics" (environ h !! "REDIS_INPUT_KEY") in
  match environ h !! "REDIS_OUTPUT_KEY" with
  | None =>
    boot_log "[error] REDIS_OUTPUT_KEY not set; exiting";;
    sys_exit 1
  | Some output_key =>
    match py_int port_str with
    | None =>
      boot_log ("[error] Invalid REDIS_PORT value: " +:+ port_str);;
      sys_exit 1
    | Some port =>
      handler ← load_user_handler h USER_MODULE_PATH;
      function_mtime ← os_path_getmtime h USER_MODULE_PATH;
      let context := Context_init host port input_key output_key function_mtime in
      boot_log ("Runtime started with host=" +:+ host +:+ ", port=" +:+ str_of_int port
                  +:+ ", input_key=" +:+ input_key +:+ ", output_key=" +:+ output_key);;
      mret (mkLoop input_key output_key handler context None)
    end
  end.

(** How the process stands after startup and [n] iterations of the loop. *)
Inductive Process : Type :=
| Exited (code : Z)
| Died (e : PyExn)
| Looping (l : Loop).

(** [main], observed for [n] iterations: everything it did, the world it
    leaves, and how the process stands. *)
Definition main `{PyStd} (E : Env) (h : Host) (n : nat) (w : World)
    : list Event * World * Process :=
  match startup h with
  | (evs, Exits code) => (evs, w, Exited code)
  | (evs, Dies e) => (evs, w, Died e)
  | (evs, Goes l) =>
    let r := run E n l w in
    ((evs ++ events r)%list, world r,
     match outcome r with
     | Returns l' => Looping l'
     | Raises e => Died e
     end)
  end.

(** ** The runtime on any user code

    The definitions above take the user code to be well behaved: the
    handler returns or raises an instance of [Exception], and leaves the
    context as it is.  Here the user code is any: the handler may also
    raise an exception that is no instance of [Exception], which the
    [except Exception] clauses of the runtime let through, it may write
    to the context object, which it is passed by reference, and it may
    keep a state of its own between calls; so may the module at load.
    What user code does to the outside by itself (the store, the log,
    the files and the environment of the machine) is not the runtime's
    doing and is left out, as are the signals that reach the process. *)
Module General.

(** What running user code comes to: a value, an instance of
    [Exception], or an exception that is none. *)
Inductive Reply (A : Type) : Type :=
| Returned (a : A)
| Raised (e : PyExn)
| Left (b : BaseExn).
Arguments Returned {A} a.
Arguments Raised {A} e.
Arguments Left {A} b.

Section UserCode.
(** The state user code keeps between calls: module globals, closures. *)
Variable St : Type.

(** A call of the handler: its reply, the context object as the call
    leaves it, and the state of the user code after it. *)
Record Called : Type := mkCalled {
  reply : Reply PyVal;
  context_after : Context;
  state_after : St
}.

(** The user handler, called on the state of the user code, the payload
    and the context. *)
Definition Handler : Type := St -> PyVal -> Context -> Called.

(** The variables of [main] that the loop reads and writes, with the
    state of the user code. *)
Record Loop : Type := mkLoop {
  loop_input_key : string;
  loop_output_key : string;
  handler : Handler;
  state : St;
  context : Context;
  last_raw_value : option string
}.

Definition with_last_raw_value (l : Loop) (raw_value : option string) : Loop :=
  mkLoop (loop_input_key l) (loop_output_key l) (handler l) (state l) (context l) raw_value.

Definition with_context (l : Loop) (c : Context) : Loop :=
  mkLoop (loop_input_key l) (loop_output_key l) (handler l) (state l) c (last_raw_value l).

(** The loop variables after a call of the handler. *)
Definition after_call (l : Loop) (called : Called) : Loop :=
  mkLoop (loop_input_key l) (loop_output_key l) (handler l) (state_after called)
         (context_after called) (last_raw_value l).

(** How an iteration ends: at the head of the loop again, or with an
    exception on its way out of [main]. *)
Inductive Turn : Type :=
| Again (l : Loop)
| Gone (b : BaseExn).

Section Runtime.
Context `{PyStd}.
Variable E : Env.

(** The last [try] of the loop body: encode, SET, stamp, log. *)
Definition publish (l : Loop) (result : PyVal) : M Loop :=
  try_except
    (output_payload ← lift (json_dumps result);
     client_set E (loop_output_key l) output_payload;;
     now ← time_time E;
     log ("[info] Processed input and wrote output to key '"
            +:+ loop_output_key l +:+ "'");;
     mret (with_context l (set_last_execution (context l) now)))
    (fun e =>
       log "[error] Failed to write handler output to Redis";;
       traceback_print_exc e;;
       mret l).

(** [handler(payload, context)]: the call takes an instant and is put on
    record with what it came to. *)
Definition call (l : Loop) (payload : PyVal) : M Called :=
  fun w =>
    let called := handler l (state l) payload (context l) in
    mkResult (Returns called) (tick w)
      [match reply called with
       | Returned result => EvCall payload (context l) (Returns result)
       | Raised e => EvCall payload (context l) (Raises e)
       | Left b => EvLeft payload (context l) b
       end].

(** One iteration of [while True] in [main].  The [try] around the call
    of the handler has [except Exception]: it takes an instance of
    [Exception] and lets any other exception through. *)
Definition cycle (l : Loop) : M Turn :=
  got ← try_except
    (raw_value ← client_get E (loop_input_key l);
     mret (Next raw_value))
    (fun e =>
       log "[error] Failed to read from Redis; retrying after delay";;
       traceback_print_exc e;;
       time_sleep POLL_INTERVAL_SECONDS;;
       mret Continue);
  match got with
  | Continue => mret (Again l)
  | Next raw_value =>
    if decide (raw_value = last_raw_value l) then
      time_sleep POLL_INTERVAL_SECONDS;; mret (Again l)
    else
      let l := with_last_raw_value l raw_value in
      payload ← parse_input (raw_of raw_value);
      if is_None payload then
        time_sleep POLL_INTERVAL_SECONDS;; mret (Again l)
      else
        called ← call l payload;
        let l := after_call l called in
        match reply called with
        | Left b => mret (Gone b)
        | Raised e =>
          log "[error] Exception inside user handler";;
          traceback_print_exc e;;
          time_sleep POLL_INTERVAL_SECONDS;;
          mret (Again l)
        | Returned result =>
          if negb (isinstance_dict result) then
            log "[warn] Handler return is not a dict; skipping write";;
            time_sleep POLL_INTERVAL_SECONDS;;
            mret (Again l)
          else
            l' ← publish l result;
            time_sleep POLL_INTERVAL_SECONDS;;
            mret (Again l')
        end
  end.

(** [n] iterations of the loop, or fewer when an exception leaves it;
    between two of them the other clients of the store may have written
    to it. *)
Fixpoint run (n : nat) (l : Loop) : M Turn :=
  match n with
  | O => mret (Again l)
  | S n' =>
    interfere E;;
    turn ← cycle l;
    match turn with
    | Again l' => run n' l'
    | Gone b => mret (Gone b)
    end
  end.
End Runtime.

(** *** Startup *)

(** What a module attribute holds: something callable, or a plain value. *)
Inductive PyObj : Type :=
| Function (f : Handler)
| Object (v : PyVal).

(** [callable(obj)] *)
Definition callable (obj : PyObj) : bool :=
  match obj with Function _ => true | Object _ => false end.

(** A path of the file system: a regular file or a directory, each with
    its modification time.  A regular file comes with what creating a
    module from it as an extension module comes to, and with what
    executing it as a module comes to: the module's namespace and the
    state the user code starts from. *)
Inductive Node : Type :=
| RegularFile (create_module : Reply unit)
              (exec_module : Reply (gmap string PyObj * St)) (mtime : Z)
| Directory (mtime : Z).

(** The machine the process starts on: [os.environ] and the file system. *)
Record Host : Type := mkHost {
  environ : gmap string string;
  files : gmap string Node
}.

(** How startup ends: it goes on with a value, the process exits with a
    code, or it dies of an exception nothing catches. *)
Inductive Ending (A : Type) : Type :=
| Goes (a : A)
| Exits (code : Z)
| Dies (e : PyExn + BaseExn).
Arguments Goes {A} a.
Arguments Exits {A} code.
Arguments Dies {A} e.

(** A startup computation: what it logged, and how it ended. *)
Definition Startup (A : Type) : Type := (list Event * Ending A)%type.

#[export] Instance Startup_ret : MRet Startup :=
  fun A a => ([], Goes a).

#[export] Instance Startup_bind : MBind Startup :=
  fun A B f m =>
    match m.2 with
    | Goes a => ((m.1 ++ (f a).1)%list, (f a).2)
    | Exits code => (m.1, Exits code)
    | Dies e => (m.1, Dies e)
    end.

Definition boot_log (msg : string) : Startup unit := ([EvLog msg], Goes tt).
Definition boot_traceback (e : PyExn) : Startup unit := ([EvTraceback e], Goes tt).

(** [sys.exit(code)] *)
Definition sys_exit {A : Type} (code : Z) : Startup A := ([], Exits code).

(** An exception that no clause of the runtime catches: [SystemExit]
    ends the process with its code, any other is what the process dies
    of. *)
Definition propagate {A : Type} (b : BaseExn) : Startup A :=
  match b with
  | SystemExit code => ([], Exits code)
  | OtherBaseException _ _ => ([], Dies (inr b))
  end.

(** [os.path.isfile(path)] *)
Definition os_path_isfile (h : Host) (path : string) : bool :=
  match files h !! path with
  | Some (RegularFile _ _ _) => true
  | _ => false
  end.

(** [os.path.getmtime(path)] *)
Definition os_path_getmtime (h : Host) (path : string) : Startup Z :=
  match files h !! path with
  | Some (RegularFile _ _ mtime) => mret mtime
  | Some (Directory mtime) => mret mtime
  | None => ([], Dies (inl (Exn "FileNotFoundError" path)))
  end.

(** [importlib.util.module_from_spec(spec)]: the loader of an extension
    module creates the module from the file, which may fail; the loaders
    of source and of bytecode leave it to the default, which does not. *)
Definition module_from_spec (h : Host) (loader path : string) : Reply unit :=
  if String.eqb loader "ExtensionFileLoader" then
    match files h !! path with
    | Some (RegularFile create_module _ _) => create_module
    | Some (Directory _) => Raised (Exn "ImportError" path)
    | None => Raised (Exn "ImportError" path)
    end
  else Returned tt.

(** [spec.loader.exec_module(module)] followed by the module's namespace *)
Definition loader_exec_module (h : Host) (path : string)
    : Reply (gmap string PyObj * St) :=
  match files h !! path with
  | Some (RegularFile _ exec_module _) => exec_module
  | Some (Directory _) => Raised (Exn "IsADirectoryError" path)
  | None => Raised (Exn "FileNotFoundError" path)
  end.

(** [load_user_handler]: the handler, and the state the user code starts
    from.  [module_from_spec] is called outside the [try]; the [try]
    around [exec_module] has [except Exception]. *)
Definition load_user_handler (h : Host) (path : string) : Startup (Handler * St) :=
  if negb (os_path_isfile h path) then
    boot_log ("[error] User module not found at " +:+ path);;
    sys_exit 1
  else
    match spec_from_file_location "usermodule" path with
    | None =>
      boot_log "[error] Failed to create module spec for usermodule";;
      sys_exit 1
    | Some loader =>
      match module_from_spec h loader path with
      | Raised e => ([], Dies (inl e))
      | Left b => propagate b
      | Returned _ =>
        match loader_exec_module h path with
        | Raised e =>
          boot_log "[error] Failed to load user module:";;
          boot_traceback e;;
          sys_exit 1
        | Left b => propagate b
        | Returned (module, s) =>
          match default (Object PyNone) (module !! "handler") with
          | Function handler => mret (handler, s)
          | Object _ =>
            boot_log "[error] usermodule.py must define a callable 'handler' function";;
            sys_exit 1
          end
        end
      end
    end.

(** The part of [main] before the loop: configuration from the
    environment, the handler, the context. *)
Definition startup `{PyStd} (h : Host) : Startup Loop :=
  let host := default "localhost" (environ h !! "REDIS_HOST") in
  let port_str := default "6379" (environ h !! "REDIS_PORT") in
  let input_key := default "metrics" (environ h !! "REDIS_INPUT_KEY") in
  match environ h !! "REDIS_OUTPUT_KEY" with
  | None =>
    boot_log "[error] REDIS_OUTPUT_KEY not set; exiting";;
    sys_exit 1
  | Some output_key =>
    match py_int port_str with
    | None =>
      boot_log ("[error] Invalid REDIS_PORT value: " +:+ port_str);;
      sys_exit 1
    | Some port =>
      loaded ← load_user_handler h USER_MODULE_PATH;
      function_mtime ← os_path_getmtime h USER_MODULE_PATH;
      let context := Context_init host port input_key output_key function_mtime in
      boot_log ("Runtime started with host=" +:+ host +:+ ", port=" +:+ str_of_int port
                  +:+ ", input_key=" +:+ input_key +:+ ", output_key=" +:+ output_key);;
      mret (mkLoop input_key output_key loaded.1 loaded.2 context None)
    end
  end.

(** How the process stands after startup and [n] iterations of the loop. *)
Inductive Process : Type :=
| Exited (code : Z)
| Died (e : PyExn + BaseExn)
| Looping (l : Loop).

(** Where an exception that leaves [main] takes the process. *)
Definition left_by (b : BaseExn) : Process :=
  match b with
  | SystemExit code => Exited code
  | OtherBaseException _ _ => Died (inr b)
  end.

(** [main], observed for [n] iterations: everything it did, the world it
    leaves, and how the process stands. *)
Definition main `{PyStd} (E : Env) (h : Host) (n : nat) (w : World)
    : list Event * World * Process :=
  match startup h with
  | (evs, Exits code) => (evs, w, Exited code)
  | (evs, Dies e) => (evs, w, Died e)
  | (evs, Goes l) =>
    let r := run E n l w in
    ((evs ++ events r)%list, world r,
     match outcome r with
     | Returns (Again l') => Looping l'
     | Returns (Gone b) => left_by b
     | Raises e => Died (inl e)
     end)
  end.

(** The startup errors: the handler file is absent, loading the module
    raises an instance of [Exception], the module has no callable
    [handler], [REDIS_OUTPUT_KEY] is not set, [REDIS_PORT] is not an
    integer. *)
Definition startup_error `{PyStd} (h : Host) : Prop :=
  os_path_isfile h USER_MODULE_PATH = false
  \/ (exists e, loader_exec_module h USER_MODULE_PATH = Raised e)
  \/ (exists module s,
        loader_exec_module h USER_MODULE_PATH = Returned (module, s)
        /\ callable (default (Object PyNone) (module !! "handler")) = false)
  \/ environ h !! "REDIS_OUTPUT_KEY" = None
  \/ py_int (default "6379" (environ h !! "REDIS_PORT")) = None.
End UserCode.

Arguments Goes {A} a.
Arguments Exits {A} code.
Arguments Dies {A} e.
Arguments mkCalled {St} _ _ _.
Arguments reply {St} _.
Arguments context_after {St} _.
Arguments state_after {St} _.
Arguments mkLoop {St} _ _ _ _ _ _.
Arguments loop_input_key {St} _.
Arguments loop_output_key {St} _.
Arguments handler {St} _.
Arguments state {St} _.
Arguments context {St} _.
Arguments last_raw_value {St} _.
Arguments with_last_raw_value {St} _ _.
Arguments with_context {St} _ _.
Arguments after_call {St} _ _.
Arguments Again {St} l.
Arguments Gone {St} b.
Arguments publish {St H} E l result.
Arguments call {St} l payload.
Arguments cycle {St H} E l.
Arguments run {St H} E n l.
Arguments Function {St} f.
Arguments Object {St} v.
Arguments callable {St} obj.
Arguments RegularFile {St} _ _ _.
Arguments Directory {St} mtime.
Arguments mkHost {St} _ _.
Arguments environ {St} _.
Arguments files {St} _.
Arguments os_path_isfile {St} h path.
Arguments os_path_getmtime {St} h path.
Arguments module_from_spec {St} h loader path.
Arguments loader_exec_module {St} h path.
Arguments load_user_handler {St} h path.
Arguments startup {St H} h.
Arguments Exited {St} code.
Arguments Died {St} e.
Arguments Looping {St} l.
Arguments left_by {St} b.
Arguments main {St H} E h n w.
Arguments startup_error {St H} h.
End General.

(** Well-behaved user code as user code of the general kind. *)
Definition of_outcome {A : Type} (o : Outcome A) : General.Reply A :=
  match o with
  | Returns a => General.Returned a
  | Raises e => General.Raised e
  end.

Definition any_handler (h : Handler) : General.Handler unit :=
  fun _ payload c => General.mkCalled (of_outcome (h payload c)) c tt.

Definition any_loop (l : Loop) : General.Loop unit :=
  General.mkLoop (loop_input_key l) (loop_output_key l) (any_handler (handler l)) tt
                 (context l) (last_raw_value l).

(** The machine of well-behaved user code as a machine of any user
    code. *)
Definition any_obj (obj : PyObj) : General.PyObj unit :=
  match obj with
  | Function f => General.Function (any_handler f)
  | Object v => General.Object v
  end.

Definition any_node (node : Node) : General.Node unit :=
  match node with
  | RegularFile exec_module mtime =>
    General.RegularFile (General.Returned tt)
      (match exec_module with
       | Returns module => General.Returned (any_obj <$> module, tt)
       | Raises e => General.Raised e
       end)
      mtime
  | Directory mtime => General.Directory mtime
  end.

Definition any_host (h : Host) : General.Host unit :=
  General.mkHost (environ h) (any_node <$> files h).

(** How the process stands, likewise. *)
Definition any_process (p : Process) : General.Process unit :=
  match p with
  | Exited code => General.Exited code
  | Died e => General.Died (inl e)
  | Looping l => General.Looping (any_loop l)
  end.

(** ** A model of Python's [json] and [int]

    [json.dumps] with its default options (separators [", "] and [": "],
    [ensure_ascii]) and [json.loads] with its default decoder, over the
    values of [PyVal]; and [int] on a [str].  Left out: the value of a
    [float] (its literal is kept), Python's limits on nesting depth and on
    the number of digits of an integer, and digits or spaces outside
    ASCII in [int]. *)
Module PyJson.

Definition quote : ascii := "034"%char.
Definition backslash : ascii := "092"%char.

(** *** Encoding *)

Definition hex_digit (n : N) : ascii :=
  match n with
  | 0 => "0" | 1 => "1" | 2 => "2" | 3 => "3" | 4 => "4" | 5 => "5"
  | 6 => "6" | 7 => "7" | 8 => "8" | 9 => "9" | 10 => "a" | 11 => "b"
  | 12 => "c" | 13 => "d" | 14 => "e" | _ => "f"
  end%N%char.

(** ['\\u{0:04x}'.format(n)] *)
Definition escape_u (n : N) : string :=
  String backslash
    (String "u"
       (String (hex_digit (n / 4096 mod 16))
          (String (hex_digit (n / 256 mod 16))
             (String (hex_digit (n / 16 mod 16))
                (String (hex_digit (n mod 16)) EmptyString))))).

(** The escape of a code point that has no short form: one [\uXXXX], or a
    surrogate pair above the basic plane. *)
Definition escape_code_point (n : N) : string :=
  if (n <? 65536)%N then escape_u n
  else escape_u (55296 + (n - 65536) / 1024)
       +:+ escape_u (56320 + (n - 65536) mod 1024).

(** The escape of an ASCII character ([ESCAPE_DCT] and the printable
    range of [ESCAPE_ASCII]). *)
Definition escape_ascii (a : ascii) : string :=
  let n := N_of_ascii a in
  if Ascii.eqb a quote then String backslash (String quote EmptyString)
  else if Ascii.eqb a backslash then String backslash (String backslash EmptyString)
  else if (n =? 10)%N then String backslash "n"
  else if (n =? 13)%N then String backslash "r"
  else if (n =? 9)%N then String backslash "t"
  else if (n =? 8)%N then String backslash "b"
  else if (n =? 12)%N then String backslash "f"
  else if (32 <=? n)%N && (n <=? 126)%N then String a EmptyString
  else escape_u n.

(** The payload bits of a continuation byte. *)
Definition continuation (b : ascii) : N := (N_of_ascii b mod 64)%N.

(** [py_encode_basestring_ascii] without the enclosing quotes, on the
    UTF-8 encoding of the text. *)
Fixpoint escape_text (s : string) : string :=
  match s with
  | EmptyString => EmptyString
  | String a rest =>
    let n := N_of_ascii a in
    if (n <? 128)%N then escape_ascii a +:+ escape_text rest
    else if (n <? 224)%N then
      match rest with
      | String b r1 =>
        escape_code_point (n mod 32 * 64 + continuation b) +:+ escape_text r1
      | _ => escape_code_point n +:+ escape_text rest
      end
    else if (n <? 240)%N then
      match rest with
      | String b (String c r2) =>
        escape_code_point (n mod 16 * 4096 + continuation b * 64 + continuation c)
        +:+ escape_text r2
      | _ => escape_code_point n +:+ escape_text rest
      end
    else
      match rest with
      | String b (String c (String d r3)) =>
        escape_code_point (n mod 8 * 262144 + continuation b * 4096
                           + continuation c * 64 + continuation d)
        +:+ escape_text r3
      | _ => escape_code_point n +:+ escape_text rest
      end
  end.

Definition encode_str (s : string) : string :=
  String quote (escape_text s +:+ String quote EmptyString).

(** The text a dict key is written as: a [str] as it is, the other basic
    types by their JSON form; [None] for the keys [json.dumps] refuses. *)
Definition key_text (k : PyVal) : option string :=
  match k with
  | PyStr s => Some s
  | PyFloat lit => Some lit
  | PyBool true => Some "true"
  | PyBool false => Some "false"
  | PyNone => Some "null"
  | PyInt n => Some (str_of_int n)
  | _ => None
  end.

Section Traverse.
Context {A B : Type}.
Variable f : A -> option B.

(** The results of [f] on the elements of a list, when it has one on
    each. *)
Fixpoint traverse (l : list A) : option (list B) :=
  match l with
  | [] => Some []
  | x :: r =>
    match f x, traverse r with
    | Some y, Some ys => Some (y :: ys)
    | _, _ => None
    end
  end.
End Traverse.

(** The JSON text of a value, [None] when some part of it is not JSON
    serializable. *)
Fixpoint encode (v : PyVal) : option string :=
  match v with
  | PyNone => Some "null"
  | PyBool true => Some "true"
  | PyBool false => Some "false"
  | PyInt n => Some (str_of_int n)
  | PyFloat lit => Some lit
  | PyStr s => Some (encode_str s)
  | PyBytes _ => None
  | PyList items | PyTuple items =>
    match traverse encode items with
    | Some texts => Some ("[" +:+ String.concat ", " texts +:+ "]")
    | None => None
    end
  | PyDict items =>
    match traverse (fun kv : PyVal * PyVal =>
                      let (k, x) := kv in
                      match key_text k, encode x with
                      | Some kt, Some text => Some (encode_str kt +:+ ": " +:+ text)
                      | _, _ => None
                      end) items with
    | Some texts => Some ("{" +:+ String.concat ", " texts +:+ "}")
    | None => None
    end
  end.

(** [json.dumps(v)] *)
Definition dumps (v : PyVal) : Outcome string :=
  match encode v with
  | Some s => Returns s
  | None => Raises (Exn "TypeError" "Object is not JSON serializable")
  end.
(** *** Decoding *)

(** [WHITESPACE]: space, tab, line feed, carriage return *)
Definition is_ws (a : ascii) : bool :=
  match N_of_ascii a with
  | 32 | 9 | 10 | 13 => true
  | _ => false
  end%N.

Fixpoint skip_ws (s : string) : string :=
  match s with
  | String a r => if is_ws a then skip_ws r else s
  | EmptyString => EmptyString
  end.

Definition is_digit (a : ascii) : bool :=
  (48 <=? N_of_ascii a)%N && (N_of_ascii a <=? 57)%N.

(** The longest prefix of digits, and what follows it. *)
Fixpoint span_digits (s : string) : string * string :=
  match s with
  | String a r =>
    if is_digit a then
      match span_digits r with
      | (digits, rest) => (String a digits, rest)
      end
    else (EmptyString, s)
  | EmptyString => (EmptyString, EmptyString)
  end.

(** The digits of the integer part of [NUMBER_RE]: a single zero, or a
    digit other than zero followed by digits. *)
Definition scan_uint (s : string) : option (string * string) :=
  match s with
  | String a r =>
    if Ascii.eqb a "0" then Some ("0", r)
    else if is_digit a then Some (span_digits s)
    else None
  | EmptyString => None
  end.

(** The integer part of [NUMBER_RE]: an optional minus sign, then the
    digits. *)
Definition scan_int (s : string) : option (string * string) :=
  match s with
  | String a r =>
    if Ascii.eqb a "-" then
      match scan_uint r with
      | Some (digits, rest) => Some (String a digits, rest)
      | None => None
      end
    else scan_uint s
  | EmptyString => None
  end.

(** The fraction of [NUMBER_RE]: a point and at least one digit, or
    nothing. *)
Definition scan_frac (s : string) : string * string :=
  match s with
  | String p (String d r) =>
    if Ascii.eqb p "." && is_digit d then
      match span_digits (String d r) with
      | (digits, rest) => (String p digits, rest)
      end
    else (EmptyString, s)
  | _ => (EmptyString, s)
  end.

(** The exponent of [NUMBER_RE]: [e] or [E], an optional sign and at
    least one digit, or nothing. *)
Definition scan_exp (s : string) : string * string :=
  match s with
  | String e (String x r) =>
    if Ascii.eqb e "e" || Ascii.eqb e "E" then
      if is_digit x then
        match span_digits (String x r) with
        | (digits, rest) => (String e digits, rest)
        end
      else if Ascii.eqb x "+" || Ascii.eqb x "-" then
        match r with
        | String d _ =>
          if is_digit d then
            match span_digits r with
            | (digits, rest) => (String e (String x digits), rest)
            end
          else (EmptyString, s)
        | EmptyString => (EmptyString, s)
        end
      else (EmptyString, s)
    else (EmptyString, s)
  | _ => (EmptyString, s)
  end.

(** The number a string of digits writes. *)
Definition uint_value (digits : string) : Z :=
  match NilEmpty.uint_of_string digits with
  | Some d => Z.of_uint d
  | None => 0
  end.

(** [int(lexeme)] for the integer part of a number. *)
Definition int_value (lexeme : string) : Z :=
  match lexeme with
  | String a r => if Ascii.eqb a "-" then - uint_value r else uint_value lexeme
  | EmptyString => 0
  end.

(** A number: an [int] when it has neither fraction nor exponent, a
    [float] otherwise. *)
Definition parse_number (s : string) : option (PyVal * string) :=
  match scan_int s with
  | None => None
  | Some (i, r1) =>
    let f := scan_frac r1 in
    let e := scan_exp f.2 in
    match f.1 +:+ e.1 with
    | EmptyString => Some (PyInt (int_value i), e.2)
    | fe => Some (PyFloat (i +:+ fe), e.2)
    end
  end.

(** What follows the [prefix] at the head of [s], if [s] starts with it. *)
Fixpoint after_prefix (prefix s : string) : option string :=
  match prefix, s with
  | EmptyString, _ => Some s
  | String a p, String b r => if Ascii.eqb a b then after_prefix p r else None
  | String _ _, EmptyString => None
  end.

Definition hex_value (a : ascii) : option N :=
  let n := N_of_ascii a in
  if (48 <=? n)%N && (n <=? 57)%N then Some (n - 48)%N
  else if (97 <=? n)%N && (n <=? 102)%N then Some (n - 87)%N
  else if (65 <=? n)%N && (n <=? 70)%N then Some (n - 55)%N
  else None.

(** [_decode_uXXXX]: the number four hexadecimal digits write. *)
Definition hex4_value (a b c d : ascii) : option N :=
  match hex_value a, hex_value b, hex_value c, hex_value d with
  | Some x, Some y, Some z, Some t => Some (((x * 16 + y) * 16 + z) * 16 + t)%N
  | _, _, _, _ => None
  end.

(** [chr(n)], as the UTF-8 encoding of the code point (a lone surrogate
    takes the three-byte form). *)
Definition chr (n : N) : string :=
  if (n <? 128)%N then String (ascii_of_N n) EmptyString
  else if (n <? 2048)%N then
    String (ascii_of_N (192 + n / 64))
      (String (ascii_of_N (128 + n mod 64)) EmptyString)
  else if (n <? 65536)%N then
    String (ascii_of_N (224 + n / 4096))
      (String (ascii_of_N (128 + n / 64 mod 64))
         (String (ascii_of_N (128 + n mod 64)) EmptyString))
  else
    String (ascii_of_N (240 + n / 262144))
      (String (ascii_of_N (128 + n / 4096 mod 64))
         (String (ascii_of_N (128 + n / 64 mod 64))
            (String (ascii_of_N (128 + n mod 64)) EmptyString))).

(** [BACKSLASH]: the character a one-letter escape stands for. *)
Definition unescape (e : ascii) : option ascii :=
  if Ascii.eqb e quote then Some quote
  else if Ascii.eqb e backslash then Some backslash
  else if Ascii.eqb e "/" then Some "/"%char
  else if Ascii.eqb e "b" then Some "008"%char
  else if Ascii.eqb e "f" then Some "012"%char
  else if Ascii.eqb e "n" then Some "010"%char
  else if Ascii.eqb e "r" then Some "013"%char
  else if Ascii.eqb e "t" then Some "009"%char
  else None.

Definition is_high_surrogate (n : N) : bool := (55296 <=? n)%N && (n <=? 56319)%N.
Definition is_low_surrogate (n : N) : bool := (56320 <=? n)%N && (n <=? 57343)%N.

(** Put [chunk] in front of the text parsed after it. *)
Definition chunk_then (chunk : string) (parsed : option (string * string))
    : option (string * string) :=
  match parsed with
  | Some (body, rest) => Some (chunk +:+ body, rest)
  | None => None
  end.

(** [py_scanstring] in strict mode, from after the opening quote: the
    text of the string, and what follows the closing quote. *)
Fixpoint scanstring (s : string) : option (string * string) :=
  match s with
  | EmptyString => None
  | String a rest =>
    if Ascii.eqb a quote then Some (EmptyString, rest)
    else if Ascii.eqb a backslash then
      match rest with
      | EmptyString => None
      | String e r1 =>
        if Ascii.eqb e "u" then
          match r1 with
          | String h1 (String h2 (String h3 (String h4 r2))) =>
            match hex4_value h1 h2 h3 h4 with
            | None => None
            | Some uni =>
              match r2 with
              | String b (String u (String g1 (String g2 (String g3 (String g4 r3))))) =>
                if is_high_surrogate uni && Ascii.eqb b backslash && Ascii.eqb u "u" then
                  match hex4_value g1 g2 g3 g4 with
                  | None => None
                  | Some uni2 =>
                    if is_low_surrogate uni2 then
                      chunk_then (chr (65536 + ((uni - 55296) * 1024 + (uni2 - 56320))))
                                 (scanstring r3)
                    else chunk_then (chr uni) (scanstring r2)
                  end
                else chunk_then (chr uni) (scanstring r2)
              | _ => chunk_then (chr uni) (scanstring r2)
              end
            end
          | _ => None
          end
        else
          match unescape e with
          | Some c => chunk_then (String c EmptyString) (scanstring r1)
          | None => None
          end
      end
    else if (N_of_ascii a <? 32)%N then None
    else chunk_then (String a EmptyString) (scanstring rest)
  end.

(** [d[k] = v] on the items of a dict whose keys are strings: a key that
    is there keeps its place and takes the new value. *)
Fixpoint dict_set (items : list (PyVal * PyVal)) (k : string) (v : PyVal)
    : list (PyVal * PyVal) :=
  match items with
  | [] => [(PyStr k, v)]
  | (k', v') :: rest =>
    if match k' with PyStr s => String.eqb s k | _ => false end
    then (k', v) :: rest
    else (k', v') :: dict_set rest k v
  end.

(** [dict(pairs)] *)
Definition dict_of (pairs : list (string * PyVal)) : list (PyVal * PyVal) :=
  fold_left (fun items kv => dict_set items kv.1 kv.2) pairs [].

(** [scan_once], [JSONArray] and [JSONObject]: a value at the head of the
    text and what follows it; the elements of an array from its first
    element on; the members of an object from its first key on.  [fuel]
    bounds the nesting. *)
Fixpoint scan_once (fuel : nat) (s : string) : option (PyVal * string) :=
  match fuel with
  | O => None
  | S fuel' =>
    match s with
    | EmptyString => None
    | String a rest =>
      if Ascii.eqb a quote then
        match scanstring rest with
        | Some (text, r) => Some (PyStr text, r)
        | None => None
        end
      else if Ascii.eqb a "{" then
        match skip_ws rest with
        | String c r =>
          if Ascii.eqb c "}" then Some (PyDict [], r)
          else
            match members fuel' (skip_ws rest) with
            | Some (pairs, r') => Some (PyDict (dict_of pairs), r')
            | None => None
            end
        | EmptyString => None
        end
      else if Ascii.eqb a "[" then
        match skip_ws rest with
        | String c r =>
          if Ascii.eqb c "]" then Some (PyList [], r)
          else
            match elements fuel' (skip_ws rest) with
            | Some (values, r') => Some (PyList values, r')
            | None => None
            end
        | EmptyString => None
        end
      else
        match after_prefix "null" s, after_prefix "true" s, after_prefix "false" s with
        | Some r, _, _ => Some (PyNone, r)
        | _, Some r, _ => Some (PyBool true, r)
        | _, _, Some r => Some (PyBool false, r)
        | None, None, None =>
          match parse_number s with
          | Some res => Some res
          | None =>
            match after_prefix "NaN" s, after_prefix "Infinity" s,
                  after_prefix "-Infinity" s with
            | Some r, _, _ => Some (PyFloat "NaN", r)
            | _, Some r, _ => Some (PyFloat "Infinity", r)
            | _, _, Some r => Some (PyFloat "-Infinity", r)
            | None, None, None => None
            end
          end
        end
    end
  end
with elements (fuel : nat) (s : string) : option (list PyVal * string) :=
  match fuel with
  | O => None
  | S fuel' =>
    match scan_once fuel' s with
    | None => None
    | Some (v, r) =>
      match skip_ws r with
      | String c r' =>
        if Ascii.eqb c "]" then Some ([v], r')
        else if Ascii.eqb c "," then
          match elements fuel' (skip_ws r') with
          | Some (vs, r'') => Some (v :: vs, r'')
          | None => None
          end
        else None
      | EmptyString => None
      end
    end
  end
with members (fuel : nat) (s : string) : option (list (string * PyVal) * string) :=
  match fuel with
  | O => None
  | S fuel' =>
    match s with
    | EmptyString => None
    | String o r0 =>
      if Ascii.eqb o quote then
        match scanstring r0 with
        | None => None
        | Some (k, r1) =>
          match skip_ws r1 with
          | String c r2 =>
            if Ascii.eqb c ":" then
              match scan_once fuel' (skip_ws r2) with
              | None => None
              | Some (v, r3) =>
                match skip_ws r3 with
                | String d r4 =>
                  if Ascii.eqb d "}" then Some ([(k, v)], r4)
                  else if Ascii.eqb d "," then
                    match members fuel' (skip_ws r4) with
                    | Some (kvs, r5) => Some ((k, v) :: kvs, r5)
                    | None => None
                    end
                  else None
                | EmptyString => None
                end
              end
            else None
          | EmptyString => None
          end
        end
      else None
    end
  end.

(** [JSONDecoder.decode]: one value, with white space around it and
    nothing else. *)
Definition decode (s : string) : option PyVal :=
  match scan_once (S (String.length s)) (skip_ws s) with
  | Some (v, rest) =>
    match skip_ws rest with
    | EmptyString => Some v
    | String _ _ => None
    end
  | None => None
  end.

(** [json.loads(s)] for a [str] *)
Definition loads (s : string) : Outcome PyVal :=
  match decode s with
  | Some v => Returns v
  | None => Raises (Exn "JSONDecodeError" "Expecting value")
  end.
(** *** [int] *)

(** The white space [int] strips from both ends: the characters 9 to 13
    and the space. *)
Definition is_space (a : ascii) : bool :=
  let n := N_of_ascii a in
  (9 <=? n)%N && (n <=? 13)%N || (n =? 32)%N.

Fixpoint lstrip (s : string) : string :=
  match s with
  | String a r => if is_space a then lstrip r else s
  | EmptyString => EmptyString
  end.

(** [s.strip()] *)
Definition strip (s : string) : string :=
  String.rev (lstrip (String.rev (lstrip s))).

(** The digits of a decimal literal, its underscores removed: digits,
    with single underscores only between two digits. *)
Fixpoint digit_groups (after_digit : bool) (s : string) : option string :=
  match s with
  | EmptyString => if after_digit then Some EmptyString else None
  | String a r =>
    if is_digit a then
      match digit_groups true r with
      | Some ds => Some (String a ds)
      | None => None
      end
    else if Ascii.eqb a "_" && after_digit then digit_groups false r
    else None
  end.

(** [int(s)] for a [str], base ten: [None] where Python raises
    [ValueError]. *)
Definition int (s : string) : option Z :=
  match strip s with
  | EmptyString => None
  | String a r =>
    if Ascii.eqb a "-" then
      match digit_groups false r with
      | Some ds => Some (- uint_value ds)
      | None => None
      end
    else
      match digit_groups false (if Ascii.eqb a "+" then r else String a r) with
      | Some ds => Some (uint_value ds)
      | None => None
      end
  end.
End PyJson.

(** Python's own [int], [json.loads] and [json.dumps]. *)
#[export] Instance python : PyStd :=
  {| py_int := PyJson.int; json_loads := PyJson.loads; json_dumps := PyJson.dumps |}.

(** ** The values [json] writes and reads back *)

(** A text of ASCII characters only. *)
Fixpoint ascii_text (s : string) : bool :=
  match s with
  | EmptyString => true
  | String a r => (N_of_ascii a <? 128)%N && ascii_text r
  end.

Fixpoint distinct (l : list string) : bool :=
  match l with
  | [] => true
  | x :: r => negb (existsb (String.eqb x) r) && distinct r
  end.

(** The text of a key that is a [str]. *)
Definition str_key (kv : PyVal * PyVal) : string :=
  match kv.1 with
  | PyStr s => s
  | _ => EmptyString
  end.

(** A key that is an ASCII [str]. *)
Definition ascii_key (k : PyVal) : bool :=
  match k with
  | PyStr s => ascii_text s
  | _ => false
  end.

(** A value made of [None], booleans, integers, ASCII strings, lists,
    and dicts whose keys are distinct ASCII strings. *)
Fixpoint json_native (v : PyVal) : bool :=
  match v with
  | PyNone | PyBool _ | PyInt _ => true
  | PyStr s => ascii_text s
  | PyList items => forallb json_native items
  | PyDict items =>
    forallb (fun kv : PyVal * PyVal => let (k, x) := kv in ascii_key k && json_native x)
            items
    && distinct (map str_key items)
  | PyFloat _ | PyBytes _ | PyTuple _ => false
  end.

(** The texts [json.loads] reads back from what [json.dumps] writes for
    them: the code points of a [str], a surrogate in the three-byte form,
    with no high surrogate directly followed by a low one (the two are
    written as two escapes, which are read as the one character they
    make in UTF-16).  [after_high] tells that the code point before the
    text is a high surrogate. *)
Fixpoint text_exact (after_high : bool) (s : string) : bool :=
  match s with
  | EmptyString => true
  | String a rest =>
    if byte_in 0 127 a then text_exact false rest
    else match rest with
    | String b rest1 =>
      if byte_in 194 223 a then byte_in 128 191 b && text_exact false rest1
      else match rest1 with
      | String c rest2 =>
        if byte_in 224 239 a then
          (if byte_in 224 224 a then byte_in 160 191 b else byte_in 128 191 b)
          && byte_in 128 191 c
          && negb (after_high && byte_in 237 237 a && byte_in 176 191 b)
          && text_exact (byte_in 237 237 a && byte_in 160 175 b) rest2
        else match rest2 with
        | String d rest3 =>
          byte_in 240 244 a
          && (if byte_in 240 240 a then byte_in 144 191 b
              else if byte_in 244 244 a then byte_in 128 143 b
              else byte_in 128 191 b)
          && byte_in 128 191 c && byte_in 128 191 d && text_exact false rest3
        | EmptyString => false
        end
      | EmptyString => false
      end
    | EmptyString => false
    end
  end.

(** The text does not start with the escape of a low surrogate. *)
Definition no_low_head (tail : string) : bool :=
  match tail with
  | String b (String u (String g1 (String g2 (String g3 (String g4 _))))) =>
    negb (Ascii.eqb b PyJson.backslash && Ascii.eqb u "u")
    || match PyJson.hex4_value g1 g2 g3 g4 with
       | Some uni2 => negb (PyJson.is_low_surrogate uni2)
       | None => false
       end
  | _ => true
  end.

(** What follows the digits at the head of a text. *)
Fixpoint drop_digits (s : string) : string :=
  match s with
  | String a r => if PyJson.is_digit a then drop_digits r else s
  | EmptyString => EmptyString
  end.

(** An exponent up to the end of the text: [e] or [E], an optional
    sign, and digits. *)
Definition exponent (s : string) : bool :=
  match s with
  | String e (String x r) =>
    (Ascii.eqb e "e" || Ascii.eqb e "E")
    && (if Ascii.eqb x "+" || Ascii.eqb x "-"
        then match r with
             | String d r' => PyJson.is_digit d && String.eqb (drop_digits r') EmptyString
             | EmptyString => false
             end
        else PyJson.is_digit x && String.eqb (drop_digits r) EmptyString)
  | _ => false
  end.

(** What makes a number a float, up to the end of the text: a fraction
    (a point and digits), an exponent, or both. *)
Definition fraction_or_exponent (s : string) : bool :=
  match s with
  | String p (String d r) =>
    if Ascii.eqb p "."
    then PyJson.is_digit d
         && (String.eqb (drop_digits r) EmptyString || exponent (drop_digits r))
    else exponent s
  | _ => false
  end.

(** The literal [json.dumps] writes for a [float] other than NaN: the
    one [float.__repr__] gives, an optional minus sign, digits without a
    leading zero, and a fraction or an exponent or both; or an
    infinity. *)
Definition float_literal (lit : string) : bool :=
  String.eqb lit "Infinity" || String.eqb lit "-Infinity"
  || match (match lit with
            | String a r => if Ascii.eqb a "-" then r else lit
            | EmptyString => lit
            end) with
     | String a r =>
       if Ascii.eqb a "0" then fraction_or_exponent r
       else PyJson.is_digit a && fraction_or_exponent (drop_digits r)
     | EmptyString => false
     end.

(** A key that is a [str] which is read back. *)
Definition exact_key (k : PyVal) : bool :=
  match k with
  | PyStr s => text_exact false s
  | _ => false
  end.

(** The values [json.loads] reads back from what [json.dumps] writes for
    them: [None], booleans, integers, floats other than NaN (which is
    written and read, but is not equal to itself), strings in which no
    high surrogate is directly followed by a low one, lists of such
    values, and dicts of such values under keys that are such strings.
    Left out: [bytes], which are not written; tuples, which are read
    back as lists; keys that are no [str], which are read back as
    strings. *)
Fixpoint json_exact (v : PyVal) : bool :=
  match v with
  | PyNone | PyBool _ | PyInt _ => true
  | PyFloat lit => float_literal lit
  | PyStr s => text_exact false s
  | PyList items => forallb json_exact items
  | PyDict items =>
    forallb (fun kv : PyVal * PyVal => let (k, x) := kv in exact_key k && json_exact x)
            items
    && distinct (map str_key items)
  | PyBytes _ | PyTuple _ => false
  end.

(** The nesting a decoder goes through to read a value back. *)
Fixpoint size (v : PyVal) : nat :=
  match v with
  | PyList items | PyTuple items => S (list_sum (map (fun x => S (size x)) items))
  | PyDict items =>
    S (list_sum (map (fun kv : PyVal * PyVal => let (_, x) := kv in S (size x)) items))
  | _ => 1%nat
  end.

(** A text that starts with a character a value can start with: no white
    space, no closing bracket or brace. *)
Definition starts_value (text : string) : bool :=
  match text with
  | String a _ => negb (PyJson.is_ws a) && negb (Ascii.eqb a "]") && negb (Ascii.eqb a "}")
  | EmptyString => false
  end.

(** What may follow a value in a text [json.dumps] wrote: nothing, a
    comma, or a closing bracket or brace. *)
Definition delimited (rest : string) : bool :=
  match rest with
  | EmptyString => true
  | String c _ => Ascii.eqb c "," || Ascii.eqb c "]" || Ascii.eqb c "}"
  end.

(** The startup errors: the handler file is absent, loading the module
    raises, the module has no callable [handler], [REDIS_OUTPUT_KEY] is
    not set, [REDIS_PORT] is not an integer. *)
Definition startup_error `{PyStd} (h : Host) : Prop :=
  os_path_isfile h USER_MODULE_PATH = false
  \/ (exists e, loader_exec_module h USER_MODULE_PATH = Raises e)
  \/ (exists module,
        loader_exec_module h USER_MODULE_PATH = Returns module
        /\ callable (default (Object PyNone) (module !! "handler")) = false)
  \/ environ h !! "REDIS_OUTPUT_KEY" = None
  \/ py_int (default "6379" (environ h !! "REDIS_PORT")) = None.

(** An event of the log, as opposed to a command to the store, a decode,
    a handler call, a clock reading or a sleep. *)
Definition is_log (ev : Event) : bool :=
  match ev with
  | EvLog _ | EvTraceback _ => true
  | _ => false
  end.

(** A store command is a GET of [input] or a SET of [output]. *)
Definition commands_on (input output : string) (ev : Event) : Prop :=
  match ev with
  | EvGet k _ => k = input
  | EvSet k _ _ => k = output
  | _ => True
  end.

(** The text [t] is a JSON text of [v]: it starts as a value does, and
    is read back as [v] in front of any delimited rest. *)
Definition reads_back (v : PyVal) (t : string) : Prop :=
  starts_value t = true
  /\ (size v <= String.length t)%nat
  /\ forall fuel rest,
      (size v <= fuel)%nat -> delimited rest = true ->
      PyJson.scan_once fuel (t +:+ rest) = Some (v, rest).

(** The text [t] is the member of an object for the item [kv]: its key is
    a [str] that is read back, written first, and its value is read
    back. *)
Definition member_reads_back (kv : PyVal * PyVal) (t : string) : Prop :=
  exists k tv,
    kv.1 = PyStr k /\ text_exact false k = true /\ reads_back kv.2 tv
    /\ t = PyJson.encode_str k +:+ ": " +:+ tv.

(** ** A machine, a store and handlers to run the runtime on *)

(** A JSON string literal for a text that needs no escape. *)
Definition jstr (s : string) : string :=
  String PyJson.quote (s +:+ String PyJson.quote EmptyString).

(** No transport fault, a clock that advances by one at each instant, no
    other client writing to the store. *)
Definition steady : Env :=
  {| get_fault := fun _ => None;
     set_fault := fun _ => None;
     clock := fun i => 1000 + Z.of_nat i;
     producer := fun _ st => st |}.

(** The handler that returns [result] whatever it is given. *)
Definition returning (result : PyVal) : Handler := fun _ _ => Returns result.

(** The handler that raises [e] whatever it is given. *)
Definition raising (e : PyExn) : Handler := fun _ _ => Raises e.

(** The loop variables as [main] sets them for the input key [metrics]
    and the output key [out]. *)
Definition fresh_loop (h : Handler) : Loop :=
  mkLoop "metrics" "out" h (Context_init "localhost" 6379 "metrics" "out" 0) None.

(** A store that holds [input] under [metrics], at instant 0. *)
Definition world_with (input : string) : World :=
  mkWorld {[ "metrics" := input ]} 0.

(** A machine with the handler file in place and the output key set. *)
Definition machine (h : Handler) (input_key output_key : string) : Host :=
  {| environ := {[ "REDIS_INPUT_KEY" := input_key; "REDIS_OUTPUT_KEY" := output_key ]};
     files := {[ USER_MODULE_PATH :=
                   RegularFile (Returns {[ "handler" := Function h ]}) 0 ]} |}.

(** The JSON texts of the examples: an object with [x] at 1, an object
    with [y] at 2, an object with the key [1] at 2, an array. *)
Definition text_x1 : string := "{" +:+ jstr "x" +:+ ": 1}".
Definition text_y2 : string := "{" +:+ jstr "y" +:+ ": 2}".
Definition text_key1 : string := "{" +:+ jstr "1" +:+ ": 2}".
Definition text_array : string := "[1, 2]".

(** ** Reading a run of events *)

(** The raw value the latest successful GET returned, given the one seen
    before the event. *)
Definition observe (seen : option string) (ev : Event) : option string :=
  match ev with
  | EvGet _ (Returns raw_value) => raw_value
  | _ => seen
  end.

(** A decode, a handler call or a store write. *)
Definition is_work (ev : Event) : bool :=
  match ev with
  | EvParse _ | EvCall _ _ _ | EvSet _ _ _ => true
  | _ => false
  end.

(** The fields of the context fixed at construction agree. *)
Definition same_config (c c' : Context) : Prop :=
  host c' = host c /\ port c' = port c /\ input_key c' = input_key c
  /\ output_key c' = output_key c
  /\ function_getmtime c' = function_getmtime c /\ env c' = env c.

(** ** Counting what a run did *)

Definition is_get (ev : Event) : bool :=
  match ev with EvGet _ _ => true | _ => false end.

Definition is_set (ev : Event) : bool :=
  match ev with EvSet _ _ _ => true | _ => false end.

Definition is_parse (ev : Event) : bool :=
  match ev with EvParse _ => true | _ => false end.

Definition is_call (ev : Event) : bool :=
  match ev with EvCall _ _ _ => true | _ => false end.

Definition is_time (ev : Event) : bool :=
  match ev with EvTime _ => true | _ => false end.

Definition is_sleep (ev : Event) : bool :=
  match ev with EvSleep _ => true | _ => false end.

(** The number of events of a kind. *)
Fixpoint count (kind : Event -> bool) (evs : list Event) : nat :=
  match evs with
  | [] => 0
  | ev :: rest => ((if kind ev then 1 else 0) + count kind rest)%nat
  end.

(** The number of successful reads that returned something else than the
    read before them did, [seen] being what was read before the first. *)
Fixpoint changes (seen : option string) (evs : list Event) : nat :=
  match evs with
  | [] => 0
  | ev :: rest =>
    ((match ev with
      | EvGet _ (Returns raw_value) => if decide (raw_value = seen) then 0 else 1
      | _ => 0
      end) + changes (observe seen ev) rest)%nat
  end.

(** The latest clock reading, given the one before the event. *)
Definition stamp (seen : option Z) (ev : Event) : option Z :=
  match ev with
  | EvTime t => Some t
  | _ => seen
  end.

(** The context with [last_execution] replaced. *)
Definition with_last_execution (context : Context) (t : option Z) : Context :=
  {| host := host context; port := port context;
     input_key := input_key context; output_key := output_key context;
     function_getmtime := function_getmtime context;
     last_execution := t; env := env context |}.

(** Every handler call of a run of events is given the context [c0] with
    the latest clock reading before the call as its [last_execution],
    [seen] being the reading before the first event. *)
Fixpoint calls_with (c0 : Context) (seen : option Z) (evs : list Event) : Prop :=
  match evs with
  | [] => True
  | ev :: rest =>
    match ev with
    | EvCall _ c _ => c = with_last_execution c0 seen
    | _ => True
    end
    /\ calls_with c0 (stamp seen ev) rest
  end.

(** An event of a cycle whose read failed. *)
Definition outage_event (key : string) (ev : Event) : Prop :=
  match ev with
  | EvGet k (Raises _) => k = key
  | EvLog msg => msg = "[error] Failed to read from Redis; retrying after delay"
  | EvTraceback _ => True
  | EvSleep secs => secs = POLL_INTERVAL_SECONDS
  | _ => False
  end.

(** A transport that is down: every GET raises. *)
Definition down : Env :=
  {| get_fault := fun _ => Some (Exn "ConnectionError" "Connection refused");
     set_fault := fun _ => None;
     clock := fun i => 1000 + Z.of_nat i;
     producer := fun _ st => st |}.


(** The raw value holds a text that [json.loads] reads: it is a [str], or
    [bytes] that are well-formed UTF-8, and the text is JSON. *)
Definition decodes `{PyStd} (raw_value : PyVal) : Prop :=
  exists text v,
    (raw_value = PyStr text \/ (raw_value = PyBytes text /\ utf8_valid text = true))
    /\ json_loads text = Returns v.

(** A machine whose environment sets the output key and the port, with
    the handler file in place. *)
Definition machine_on_port (h : Handler) (output_key port : string) : Host :=
  {| environ := {[ "REDIS_OUTPUT_KEY" := output_key; "REDIS_PORT" := port ]};
     files := {[ USER_MODULE_PATH :=
                   RegularFile (Returns {[ "handler" := Function h ]}) 0 ]} |}.

(** No character of the text is white space for [int]. *)
Fixpoint no_space (s : string) : bool :=
  match s with
  | EmptyString => true
  | String a r => negb (PyJson.is_space a) && no_space r
  end.

(** ** The dashboard's metric history and its read of the output key
       (src/dashboard/app.py) *)

Module Dashboard.
Section History.
Context {V : Type}.

(** A point of a series: the dict with [ts] and [value]. *)
Record Point : Type := mkPoint {
  ts : Z;
  value : V
}.

(** [l[-n:]] for a positive [n]: the last [n] elements, the whole list
    when it has no more. *)
Definition last_n {A : Type} (n : nat) (l : list A) : list A :=
  drop (length l - n) l.

(** [update_history(key, value)], on the entry [history] of
    [st.session_state] ([None] when the session has none yet), at the time
    [utcnow].  The list under the key is the one the append mutates. *)
Definition update_history (utcnow : Z) (key : string) (value : option V)
    (session_history : option (gmap string (list Point)))
    : option (gmap string (list Point)) :=
  let histories := default ∅ session_history in
  let history := default [] (histories !! key) in
  let histories := <[key := history]> histories in
  match value with
  | None => Some histories
  | Some v =>
    let history := (history ++ [mkPoint utcnow v])%list in
    if (500 <? length history)%nat then Some (<[key := last_n 500 history]> histories)
    else Some (<[key := history]> histories)
  end.

(** The series of a key, empty when the session has none. *)
Definition series (session_history : option (gmap string (list Point))) (key : string)
    : list Point :=
  default [] (default ∅ session_history !! key).

(** One refresh of the page, as far as a series goes: the time, the key,
    and the value there may be. *)
Definition Update : Type := (Z * string * option V)%type.

(** The calls of [update_history] of a run of refreshes, in order. *)
Definition update_all (updates : list Update)
    (session_history : option (gmap string (list Point)))
    : option (gmap string (list Point)) :=
  fold_left (fun st (u : Update) => update_history u.1.1 u.1.2 u.2 st)
            updates session_history.

(** The points a run of refreshes gives to the series of a key. *)
Fixpoint pushed (key : string) (updates : list Update) : list Point :=
  match updates with
  | [] => []
  | (utcnow, k, Some v) :: rest =>
    if String.eqb k key then mkPoint utcnow v :: pushed key rest else pushed key rest
  | (_, _, None) :: rest => pushed key rest
  end.
End History.
Arguments Point V : clear implicits.
Arguments Update V : clear implicits.

(** [redis.Redis(host=host, port=port, db=db, decode_responses=True)]: the
    client is made without a connection. *)
Record Client : Type := mkClient {
  client_host : string;
  client_port : Z;
  client_db : Z
}.

(** [get_redis_client], which [cached_client] memoizes: [int] raises
    [ValueError] on a text that is no integer. *)
Definition get_redis_client `{PyStd} (environ : gmap string string) : Outcome Client :=
  let host := default "localhost" (environ !! "REDIS_HOST") in
  match py_int (default "6379" (environ !! "REDIS_PORT")) with
  | None => Raises (Exn "ValueError" "invalid literal for int() with base 10")
  | Some port =>
    match py_int (default "0" (environ !! "REDIS_DB")) with
    | None => Raises (Exn "ValueError" "invalid literal for int() with base 10")
    | Some db => Returns (mkClient host port db)
    end
  end.

(** What the server a client talks to answers to a GET of a key: the
    bytes under the key, nothing, or a failure of the transport. *)
Definition Server : Type := Client -> string -> Outcome (option string).

(** [client.get(key)] with [decode_responses=True]: the reply, decoded as
    UTF-8. *)
Definition client_get_decoded (server : Server) (client : Client) (key : string)
    : Outcome (option string) :=
  match server client key with
  | Returns (Some b) =>
    if utf8_valid b then Returns (Some b)
    else Raises (Exn "UnicodeDecodeError" "'utf-8' codec can't decode bytes")
  | Returns None => Returns None
  | Raises e => Raises e
  end.

(** [read_metrics_from_redis]: the client is made before the [try]. *)
Definition read_metrics_from_redis `{PyStd} (environ : gmap string string)
    (server : Server) (key : string) : Outcome PyVal :=
  match get_redis_client environ with
  | Raises e => Raises e
  | Returns client =>
    match client_get_decoded server client key with
    | Raises _ => Returns PyNone
    | Returns None => Returns PyNone
    | Returns (Some raw_value) =>
      match json_loads raw_value with
      | Returns data => Returns data
      | Raises _ => Returns PyNone
      end
    end
  end.
End Dashboard.

(** ** Any user code: machines, handlers and readings of events *)

(** The handler that ends the process: it calls [sys.exit(code)]. *)
Definition exiting (code : Z) : General.Handler unit :=
  fun s _ c => General.mkCalled (General.Left (SystemExit code)) c s.

(** The handler that stamps the context itself and then raises. *)
Definition stamping_then_raising (t : Z) (e : PyExn) : General.Handler unit :=
  fun s _ c => General.mkCalled (General.Raised e) (set_last_execution c t) s.

(** The loop variables as [main] sets them for the input key [metrics]
    and the output key [out], for any user code without a state. *)
Definition fresh_any_loop (h : General.Handler unit) : General.Loop unit :=
  General.mkLoop "metrics" "out" h tt (Context_init "localhost" 6379 "metrics" "out" 0) None.

(** A machine whose handler file holds the given module-level behaviour. *)
Definition machine_loading (exec_module : General.Reply (gmap string (General.PyObj unit) * unit))
    : General.Host unit :=
  General.mkHost {[ "REDIS_OUTPUT_KEY" := "out" ]}
    {[ USER_MODULE_PATH := General.RegularFile (General.Returned tt) exec_module 0 ]}.

(** A machine whose user module defines the given handler. *)
Definition machine_with (h : General.Handler unit) : General.Host unit :=
  machine_loading (General.Returned ({[ "handler" := General.Function h ]}, tt)).


(** The environment gives the output key and a port that is an integer. *)
Definition environ_ok `{PyStd} {St : Type} (h : General.Host St) (output_key : string)
    (port : Z) : Prop :=
  General.environ h !! "REDIS_OUTPUT_KEY" = Some output_key
  /\ py_int (default "6379" (General.environ h !! "REDIS_PORT")) = Some port.

(** A machine whose handler file is an extension module at [path]. *)
Definition machine_with_extension (path : string) (create_module : General.Reply unit)
    : General.Host unit :=
  General.mkHost {[ "REDIS_OUTPUT_KEY" := "out" ]}
    {[ path := General.RegularFile create_module
                 (General.Returned ({[ "handler" := General.Function (exiting 0) ]}, tt)) 0 ]}.

(** Every call of the handler in a run of events, returned from or left,
    is given the context [c0] with the latest clock reading before the
    call as its [last_execution], [seen] being the reading before the
    first event. *)
Fixpoint given_context (c0 : Context) (seen : option Z) (evs : list Event) : Prop :=
  match evs with
  | [] => True
  | ev :: rest =>
    match ev with
    | EvCall _ c _ => c = with_last_execution c0 seen
    | EvLeft _ c _ => c = with_last_execution c0 seen
    | _ => True
    end
    /\ given_context c0 (stamp seen ev) rest
  end.

(** The handler writes to no field of the context. *)
Definition leaves_context {St : Type} (f : General.Handler St) : Prop :=
  forall s payload c, General.context_after (f s payload c) = c.

(** The call of the handler that an event records: the payload, the
    context given, and what the call came to. *)
Definition call_of (ev : Event) : option (PyVal * Context * General.Reply PyVal) :=
  match ev with
  | EvCall payload c (Returns result) => Some (payload, c, General.Returned result)
  | EvCall payload c (Raises e) => Some (payload, c, General.Raised e)
  | EvLeft payload c b => Some (payload, c, General.Left b)
  | _ => None
  end.

(** The handler writes to none of the fields of the context that are
    fixed at construction. *)
Definition keeps_config {St : Type} (f : General.Handler St) : Prop :=
  forall s payload c, same_config c (General.context_after (f s payload c)).


(** The two bytes of U+00E9 in UTF-8. *)
Definition e_acute : string := String "195" (String "169" EmptyString).

(** The surrogates U+D83D and U+DE00, each in the three-byte form, and
    the four bytes of U+1F600, the character the two make in UTF-16. *)
Definition high_surrogate : string := String "237" (String "160" (String "189" EmptyString)).
Definition low_surrogate : string := String "237" (String "184" (String "128" EmptyString)).



(** * Properties of the poll loop *)

(** Evaluate the monadic code of a cycle one layer at a time. *)
Ltac step :=
  cbv beta iota zeta delta
    [cycle publish parse_input call client_get client_set time_time
     time_sleep log traceback_print_exc emit try_except lift interfere tick
     mbind M_bind mret M_ret raw_of decode_utf8] in *;
  cbn [outcome world events store instant app negb is_None isinstance_dict
       loop_input_key loop_output_key handler context last_raw_value
       with_last_raw_value with_context] in *.

(** Split on whatever the code branches on next. *)
Ltac branch :=
  match goal with
  | |- context [match get_fault ?E ?i with _ => _ end] =>
    destruct (get_fault E i) eqn:?
  | |- context [match set_fault ?E ?i with _ => _ end] =>
    destruct (set_fault E i) eqn:?
  | |- context [match decide ?P with _ => _ end] => destruct (decide P)
  | |- context [match ?m !! ?k with _ => _ end] => destruct (m !! k) eqn:?
  | |- context [if utf8_valid ?b then _ else _] => destruct (utf8_valid b) eqn:?
  | |- context [match json_loads ?s with _ => _ end] => destruct (json_loads s) eqn:?
  | |- context [match json_dumps ?v with _ => _ end] => destruct (json_dumps v) eqn:?
  | |- context [is_None ?v] => destruct (is_None v) eqn:?
  | |- context [isinstance_dict ?v] => destruct (isinstance_dict v) eqn:?
  | |- context [match ?h ?payload ?c with Returns _ => _ | Raises _ => _ end] =>
    destruct (h payload c) eqn:?
  end.

Ltac paths := step; repeat (branch; step).

(** Go through the members of an explicit list of events. *)
Ltac members :=
  cbn [In] in *;
  repeat match goal with
         | Hor : _ \/ _ |- _ => destruct Hor
         | Hf : False |- _ => destruct Hf
         | Heq : @eq Event ?a ?b |- _ =>
           first [ discriminate Heq
                 | is_var b; subst b
                 | is_var a; subst a
                 | injection Heq; clear Heq; intros; subst ]
         end.

Section Cycle.
Context `{PyStd}.
Variable E : Env.

(** The decode stage returns; it never raises. *)
Lemma parse_input_returns (raw_value : PyVal) (w : World) :
  exists v, outcome (parse_input raw_value w) = Returns v.
Proof.
  step. destruct raw_value; cbn [is_None]; step; eauto.
  - destruct (json_loads s); step; eauto.
  - destruct (utf8_valid b); step; eauto.
    destruct (json_loads b); step; eauto.
Qed.

(** An iteration ends by returning to the head of the loop, never by an
    exception that leaves [main]. *)
Lemma cycle_returns (l : Loop) (w : World) :
  exists l', outcome (cycle E l w) = Returns l'.
Proof. paths; eauto. Qed.

(** An iteration changes neither the keys nor the handler. *)
Lemma cycle_frame (l l' : Loop) (w : World) :
  outcome (cycle E l w) = Returns l' ->
  loop_input_key l' = loop_input_key l
  /\ loop_output_key l' = loop_output_key l
  /\ handler l' = handler l.
Proof. paths; intros [= <-]; auto. Qed.

Lemma run_returns (n : nat) (l : Loop) (w : World) :
  exists l', outcome (run E n l w) = Returns l'.
Proof.
  revert l w. induction n as [|n IH]; intros l w; cbn [run].
  - eexists. reflexivity.
  - cbv beta delta [mbind M_bind interfere]. cbn [world outcome events].
    destruct (cycle_returns l (mkWorld (producer E (instant w) (store w)) (instant w)))
      as [l' Hl'].
    destruct (cycle E l _) as [o w1 evs1]. cbn in Hl'. subst o.
    destruct (IH l' w1) as [l'' Hl''].
    destruct (run E n l' w1) as [o w2 evs2]. cbn in Hl''. subst o.
    eexists. reflexivity.
Qed.

Lemma run_S (n : nat) (l l1 : Loop) (w w1 : World) (evs1 : list Event) :
  cycle E l (world (interfere E w)) = mkResult (Returns l1) w1 evs1 ->
  run E (S n) l w =
  mkResult (outcome (run E n l1 w1)) (world (run E n l1 w1))
           (evs1 ++ events (run E n l1 w1))%list.
Proof.
  intros Hc. cbn [run]. cbv beta delta [mbind M_bind].
  cbv beta iota delta [interfere] in *. cbn [world] in Hc. rewrite Hc.
  destruct (run E n l1 w1); reflexivity.
Qed.

(** The loop's change marker is the value of the latest successful read. *)
Lemma cycle_observed (l l' : Loop) (w : World) :
  outcome (cycle E l w) = Returns l' ->
  last_raw_value l' = fold_left observe (events (cycle E l w)) (last_raw_value l).
Proof. paths; intros [= <-]; cbn; congruence. Qed.

Lemma run_observed (n : nat) (l l' : Loop) (w : World) :
  outcome (run E n l w) = Returns l' ->
  last_raw_value l' = fold_left observe (events (run E n l w)) (last_raw_value l).
Proof.
  revert l w. induction n as [|n IH]; intros l w.
  - cbn. intros [= <-]. reflexivity.
  - destruct (cycle_returns l (world (interfere E w))) as [l1 Hl1].
    pose proof (cycle_observed _ _ _ Hl1) as Hobs.
    destruct (cycle E l (world (interfere E w))) as [o w1 evs1] eqn:Hc.
    cbn in Hl1. subst o. rewrite (run_S n _ _ _ _ _ Hc). cbn [outcome events].
    intros Hr. rewrite fold_left_app. cbn [events] in Hobs. rewrite <- Hobs.
    apply IH, Hr.
Qed.

(** A cycle whose read gives the value already seen does no work and
    changes nothing. *)
Lemma cycle_unchanged (l : Loop) (w : World) :
  get_fault E (instant w) = None ->
  store w !! loop_input_key l = last_raw_value l ->
  cycle E l w =
  mkResult (Returns l) (tick (tick w))
    [EvGet (loop_input_key l) (Returns (store w !! loop_input_key l));
     EvSleep POLL_INTERVAL_SECONDS].
Proof.
  intros Hg Hs. step. rewrite Hg. step.
  destruct (decide _) as [_|Hne]; [reflexivity | contradiction].
Qed.

(** A cycle whose read gives the value already seen, or no value for a
    failed read, leaves the loop variables as they were and does no work. *)
Lemma cycle_quiet (l : Loop) (w : World) :
  (forall k v, In (EvGet k (Returns v)) (events (cycle E l w)) -> v = last_raw_value l) ->
  outcome (cycle E l w) = Returns l
  /\ forall ev, In ev (events (cycle E l w)) -> is_work ev = false.
Proof.
  paths; intros Hget;
    try (exfalso; match goal with Hne : _ <> _ |- _ => apply Hne end;
         eapply Hget; cbn [In]; eauto; fail).
  all: split; [reflexivity|].
  all: cbn [In]; intros ev Hin; intuition (subst; reflexivity).
Qed.

Lemma run_quiet (n : nat) (l : Loop) (w : World) :
  (forall k v, In (EvGet k (Returns v)) (events (run E n l w)) -> v = last_raw_value l) ->
  forall ev, In ev (events (run E n l w)) -> is_work ev = false.
Proof.
  revert l w. induction n as [|n IH]; intros l w.
  - cbn. tauto.
  - destruct (cycle E l (world (interfere E w))) as [o w1 evs1] eqn:Hc.
    destruct (cycle_returns l (world (interfere E w))) as [l1 Hl1].
    rewrite Hc in Hl1. cbn in Hl1. subst o.
    rewrite (run_S n _ _ _ _ _ Hc). cbn [events]. intros Hget ev Hin.
    destruct (cycle_quiet l (world (interfere E w))) as [Hl Hq].
    { rewrite Hc. cbn [events]. intros k v Hk. eapply Hget, in_or_app. eauto. }
    rewrite Hc in Hl, Hq. cbn in Hl, Hq. injection Hl as ->.
    apply in_app_or in Hin as [Hin|Hin]; [auto|].
    eapply IH; [|exact Hin]. intros k v Hk. eapply Hget, in_or_app. eauto.
Qed.

(** A changed value becomes the change marker whatever the cycle then
    does with it. *)
Lemma cycle_records (l : Loop) (w : World) :
  get_fault E (instant w) = None ->
  exists l', outcome (cycle E l w) = Returns l'
             /\ last_raw_value l' = store w !! loop_input_key l.
Proof.
  paths; intros Hg; try discriminate; eexists; split; try reflexivity;
    cbn [last_raw_value]; congruence.
Qed.

(** C3: a value read from the input key that differs from the change
    marker is recorded as the new marker in that same cycle, whether the
    decode, the handler or the publish then fails or not; and in the
    cycles that follow, as long as every successful read returns that same
    value, nothing is decoded, the handler is not called and nothing is
    written. *)
Theorem C3_observed_input_is_never_retried (l : Loop) (w : World) (V : option string) :
  get_fault E (instant w) = None ->
  store w !! loop_input_key l = V ->
  V <> last_raw_value l ->
  exists l',
    outcome (cycle E l w) = Returns l'
    /\ last_raw_value l' = V
    /\ forall n,
        (forall k v, In (EvGet k (Returns v)) (events (run E n l' (world (cycle E l w))))
                     -> v = V) ->
        forall ev, In ev (events (run E n l' (world (cycle E l w)))) ->
                   is_work ev = false.
Proof.
  intros Hg Hs _. destruct (cycle_records l w Hg) as [l' [Hl' Hlast]].
  exists l'. rewrite Hs in Hlast. repeat split; auto.
  intros n Hget. apply run_quiet. rewrite Hlast. exact Hget.
Qed.


Lemma cycle_same_config (l l' : Loop) (w : World) :
  outcome (cycle E l w) = Returns l' -> same_config (context l) (context l').
Proof. paths; intros [= <-]; repeat split. Qed.



(** C10: [parse_input] returns for every argument and never raises: it
    returns the value [json.loads] gives for the text when the argument
    is a [str], or [bytes] that are well-formed UTF-8, holding valid
    JSON, and [None] in every other case ([None] itself, bytes that are
    not UTF-8, text that is not JSON, a value of another type); it leaves
    the world as it is, and the poll cycle that calls it ends normally
    whatever the store holds. *)
Theorem C10_parse_input_total (raw_value : PyVal) (w : World) :
  outcome (parse_input raw_value w) = Returns (parsed raw_value)
  /\ world (parse_input raw_value w) = w
  /\ (parsed raw_value = PyNone
      \/ exists text,
          (raw_value = PyStr text \/ (raw_value = PyBytes text /\ utf8_valid text = true))
          /\ json_loads text = Returns (parsed raw_value))
  /\ (forall l w', exists l', outcome (cycle E l w') = Returns l').
Proof.
  split; [|split; [|split]].
  - step. destruct raw_value; cbn [is_None parsed]; step; try reflexivity.
    + destruct (json_loads s); reflexivity.
    + destruct (utf8_valid b); step; [|reflexivity].
      destruct (json_loads b); reflexivity.
  - step. destruct raw_value; cbn [is_None]; step; try reflexivity.
    + destruct (json_loads s); reflexivity.
    + destruct (utf8_valid b); step; [|reflexivity].
      destruct (json_loads b); reflexivity.
  - destruct raw_value; cbn [parsed]; auto.
    + destruct (json_loads s) eqn:Hj; [right|left; reflexivity].
      exists s. split; [left; reflexivity|exact Hj].
    + destruct (utf8_valid b) eqn:Hu; auto.
      destruct (json_loads b) eqn:Hj; [right|left; reflexivity].
      exists b. split; [right; split; [reflexivity|exact Hu]|exact Hj].
  - intros l w'. apply cycle_returns.
Qed.
Lemma cycle_commands (l : Loop) (w : World) (ev : Event) :
  In ev (events (cycle E l w)) ->
  commands_on (loop_input_key l) (loop_output_key l) ev.
Proof. paths; intros Hin; members; exact I || reflexivity. Qed.

Lemma run_commands (n : nat) (l : Loop) (w : World) (ev : Event) :
  In ev (events (run E n l w)) ->
  commands_on (loop_input_key l) (loop_output_key l) ev.
Proof.
  revert l w. induction n as [|n IH]; intros l w.
  - cbn. tauto.
  - destruct (cycle E l (world (interfere E w))) as [o w1 evs1] eqn:Hc.
    destruct (cycle_returns l (world (interfere E w))) as [l1 Hl1].
    destruct (cycle_frame _ _ _ Hl1) as [Hin [Hout _]].
    rewrite Hc in Hl1. cbn in Hl1. subst o.
    rewrite (run_S n _ _ _ _ _ Hc). cbn [events]. intros Hev.
    apply in_app_or in Hev as [Hev|Hev].
    + pose proof (cycle_commands l (world (interfere E w)) ev) as Hk.
      rewrite Hc in Hk. auto.
    + rewrite <- Hin, <- Hout. eapply IH, Hev.
Qed.
(** A cycle in which the handler returns a value that [json.dumps]
    encodes and whose SET goes through leaves the encoding under the
    output key and stamps the context with the clock reading taken after
    the SET. *)
Lemma cycle_publishes (l : Loop) (w : World) (payload result : PyVal) (c : Context)
    (output_payload : string) :
  In (EvCall payload c (Returns result)) (events (cycle E l w)) ->
  json_dumps result = Returns output_payload ->
  In (EvSet (loop_output_key l) output_payload (Returns tt)) (events (cycle E l w)) ->
  exists l',
    outcome (cycle E l w) = Returns l'
    /\ store (world (cycle E l w)) !! loop_output_key l = Some output_payload
    /\ last_execution (context l') = Some (clock E (3 + instant w))
    /\ events (cycle E l w) =
       [EvGet (loop_input_key l) (Returns (store w !! loop_input_key l));
        EvParse (raw_of (store w !! loop_input_key l));
        EvCall payload c (Returns result);
        EvSet (loop_output_key l) output_payload (Returns tt);
        EvTime (clock E (3 + instant w));
        EvLog ("[info] Processed input and wrote output to key '"
                 +:+ loop_output_key l +:+ "'");
        EvSleep POLL_INTERVAL_SECONDS].
Proof.
  paths; intros Hcall Hdumps Hset; members; try congruence.
  all: match goal with
       | Hd : json_dumps ?r = Returns ?a, Hd' : json_dumps ?r = Returns ?b |- _ =>
         assert (a = b) by congruence; subst
       end.
  all: eexists; split; [reflexivity|]; split; [apply lookup_insert_eq|].
  all: split; reflexivity.
Qed.
(** The handler is only called on a value that differs from the change
    marker, with what [parse_input] made of it, which is not [None], and
    with the context of the loop. *)
Lemma cycle_call_payload (l : Loop) (w : World) (payload : PyVal) (c : Context)
    (res : Outcome PyVal) :
  In (EvCall payload c res) (events (cycle E l w)) ->
  store w !! loop_input_key l <> last_raw_value l
  /\ payload = parsed (raw_of (store w !! loop_input_key l))
  /\ is_None payload = false
  /\ c = context l
  /\ res = handler l payload c.
Proof.
  paths; intros Hin; members; try congruence; cbn [parsed raw_of];
    repeat match goal with
           | Hx : utf8_valid _ = _ |- _ => rewrite Hx; clear Hx
           | Hx : json_loads _ = _ |- _ => rewrite Hx; clear Hx
           | Hx : handler _ _ _ = _ |- _ => rewrite Hx; clear Hx
           end; auto.
Qed.

(** When the GET returns nothing the handler is not called and nothing is
    written: the cycle ends in the sleep. *)
Lemma cycle_without_value (l : Loop) (w : World) :
  get_fault E (instant w) = None ->
  store w !! loop_input_key l = None ->
  outcome (cycle E l w) = Returns (with_last_raw_value l None)
  /\ (forall payload c res, ~ In (EvCall payload c res) (events (cycle E l w)))
  /\ (forall k v res, ~ In (EvSet k v res) (events (cycle E l w)))
  /\ exists pre, events (cycle E l w) = (pre ++ [EvSleep POLL_INTERVAL_SECONDS])%list.
Proof.
  intros Hg Hs. step. rewrite Hg, Hs. step.
  destruct (decide (None = last_raw_value l)) as [Heq|Hne]; step.
  - split; [destruct l; cbn in *; rewrite <- Heq; reflexivity|].
    split; [intros payload c res Hin; members|].
    split; [intros k v res Hin; members|]. eexists [_]. reflexivity.
  - split; [reflexivity|].
    split; [intros payload c res Hin; members|].
    split; [intros k v res Hin; members|]. eexists [_; _]. reflexivity.
Qed.
End Cycle.

(** * Properties of startup and of the whole process *)

Ltac boot :=
  cbv beta iota zeta delta
    [startup load_user_handler os_path_getmtime os_path_isfile loader_exec_module
     boot_log boot_traceback sys_exit mbind Startup_bind mret Startup_ret] in *;
  cbn [fst snd app negb callable from_option id] in *.

Section Process.
Context `{PyStd}.

Lemma spec_user_module :
  spec_from_file_location "usermodule" USER_MODULE_PATH = Some "SourceFileLoader".
Proof. vm_compute. reflexivity. Qed.

(** How startup ends, case by case. *)
Lemma startup_cases (h : Host) :
  (startup_error h /\ (startup h).2 = Exits 1
   /\ forall ev, In ev (startup h).1 -> is_log ev = true)
  \/ (~ startup_error h
      /\ exists output_key port handler mtime,
          environ h !! "REDIS_OUTPUT_KEY" = Some output_key
          /\ (startup h).2 =
             Goes (mkLoop (default "metrics" (environ h !! "REDIS_INPUT_KEY"))
                          output_key handler
                          (Context_init (default "localhost" (environ h !! "REDIS_HOST"))
                                        port
                                        (default "metrics" (environ h !! "REDIS_INPUT_KEY"))
                                        output_key mtime)
                          None)
          /\ forall ev, In ev (startup h).1 -> is_log ev = true).
Proof.
  unfold startup_error. boot. rewrite spec_user_module.
  destruct (environ h !! "REDIS_OUTPUT_KEY") as [output_key|] eqn:Hout; boot.
  2:{ left. split; [auto|]. split; [reflexivity|]. intros ev Hin. members; reflexivity. }
  destruct (py_int (default "6379" (environ h !! "REDIS_PORT"))) as [port|] eqn:Hport; boot.
  2:{ left. split; [auto 6|]. split; [reflexivity|]. intros ev Hin. members; reflexivity. }
  destruct (files h !! USER_MODULE_PATH) as [[[module|e] mtime|mtime]|] eqn:Hf; boot.
  - destruct (module !! "handler") as [[f|v]|] eqn:Hh; boot.
    + right. split.
      * intros [Hc|[[e Hc]|[[m [Hm Hc]]|[Hc|Hc]]]]; try discriminate.
        injection Hm as <-. rewrite Hh in Hc. discriminate.
      * exists output_key, port, f, mtime. split; [reflexivity|]. split; [reflexivity|].
        intros ev Hin. members; reflexivity.
    + left. split.
      * right. right. left. exists module. rewrite Hh. auto.
      * split; [reflexivity|]. intros ev Hin. members; reflexivity.
    + left. split.
      * right. right. left. exists module. rewrite Hh. auto.
      * split; [reflexivity|]. intros ev Hin. members; reflexivity.
  - left. split; [right; left; eauto|]. split; [reflexivity|].
    intros ev Hin. members; reflexivity.
  - left. split; [auto|]. split; [reflexivity|]. intros ev Hin. members; reflexivity.
  - left. split; [auto|]. split; [reflexivity|]. intros ev Hin. members; reflexivity.
Qed.

Lemma observe_logs (evs : list Event) (seen : option string) :
  (forall ev, In ev evs -> is_log ev = true) -> fold_left observe evs seen = seen.
Proof.
  revert seen. induction evs as [|ev evs IH]; intros seen Hlog; [reflexivity|].
  cbn [fold_left]. rewrite IH by (intros; apply Hlog; right; assumption).
  specialize (Hlog ev (or_introl eq_refl)). destruct ev; try discriminate; reflexivity.
Qed.

(** C2: when the value a successful GET returns equals the value the
    latest earlier successful GET of the process returned (no value, when
    there was none or it returned none), the cycle is that GET followed by
    the sleep and nothing else: no decode, no handler call, no SET, no
    log; the loop variables and the store are as before. *)
Theorem C2_unchanged_value_is_not_processed (E : Env) (h : Host) (n : nat)
    (w0 w1 : World) (evs : list Event) (l : Loop) :
  main E h n w0 = (evs, w1, Looping l) ->
  get_fault E (instant (world (interfere E w1))) = None ->
  store (world (interfere E w1)) !! loop_input_key l = fold_left observe evs None ->
  cycle E l (world (interfere E w1)) =
  mkResult (Returns l) (tick (tick (world (interfere E w1))))
    [EvGet (loop_input_key l) (Returns (fold_left observe evs None));
     EvSleep POLL_INTERVAL_SECONDS].
Proof.
  unfold main.
  destruct (startup_cases h) as [[Herr [Hend Hlog]]|[Hok [out [p [f [mt [Hout [Hend Hlog]]]]]]]];
    destruct (startup h) as [evs0 e]; cbn in Hend, Hlog; subst e; [discriminate|].
  cbv zeta.
  match goal with
  | |- context [run E n ?l0 w0] => destruct (run_returns E n l0 w0) as [l' Hl']
  end.
  pose proof (run_observed E n _ _ _ Hl') as Hobs. cbn [last_raw_value] in Hobs.
  rewrite Hl'. intros [= <- <- <-] Hg Hs.
  rewrite fold_left_app, (observe_logs evs0 None Hlog) in Hs |- *.
  rewrite <- Hs. apply cycle_unchanged; [exact Hg|]. congruence.
Qed.

(** C8 as amended: every GET the process issues is for the input key and
    every SET for the output key; and when the two configured key names
    differ, no GET is for the output key and no SET is for the input
    key. *)
Theorem C8_store_commands_by_key (E : Env) (h : Host) (n : nat) (w : World) :
  (forall ev, In ev (main E h n w).1.1 ->
     match ev with
     | EvGet k _ => k = default "metrics" (environ h !! "REDIS_INPUT_KEY")
     | EvSet k _ _ => environ h !! "REDIS_OUTPUT_KEY" = Some k
     | _ => True
     end)
  /\ (environ h !! "REDIS_OUTPUT_KEY"
        <> Some (default "metrics" (environ h !! "REDIS_INPUT_KEY")) ->
      forall ev, In ev (main E h n w).1.1 ->
        match ev with
        | EvGet k _ => environ h !! "REDIS_OUTPUT_KEY" <> Some k
        | EvSet k _ _ => k <> default "metrics" (environ h !! "REDIS_INPUT_KEY")
        | _ => True
        end).
Proof.
  assert (Hall : forall ev, In ev (main E h n w).1.1 ->
     match ev with
     | EvGet k _ => k = default "metrics" (environ h !! "REDIS_INPUT_KEY")
     | EvSet k _ _ => environ h !! "REDIS_OUTPUT_KEY" = Some k
     | _ => True
     end).
  { unfold main.
    destruct (startup_cases h) as [[Herr [Hend Hlog]]|[Hok [out [p [f [mt [Hout [Hend Hlog]]]]]]]];
      destruct (startup h) as [evs0 e]; cbn in Hend, Hlog; subst e; cbn [fst].
    - intros ev Hin. apply Hlog in Hin. destruct ev; try discriminate; exact I.
    - intros ev Hin. apply in_app_or in Hin as [Hin|Hin].
      + apply Hlog in Hin. destruct ev; try discriminate; exact I.
      + apply run_commands in Hin. cbn [loop_input_key loop_output_key] in Hin.
        destruct ev; cbn in Hin; try exact I; congruence. }
  split; [exact Hall|]. intros Hne ev Hin. specialize (Hall ev Hin).
  destruct ev; try exact I; congruence.
Qed.
End Process.

(** * The runtime on any user code *)

(** Evaluate the monadic code of a general cycle one layer at a time. *)
Ltac gstep :=
  cbv beta iota zeta delta
    [General.cycle General.publish General.call
     cycle publish parse_input call client_get client_set time_time
     time_sleep log traceback_print_exc emit try_except lift interfere tick
     mbind M_bind mret M_ret raw_of decode_utf8 any_loop any_handler of_outcome] in *;
  cbn [outcome world events store instant app negb is_None isinstance_dict
       loop_input_key loop_output_key handler context last_raw_value
       with_last_raw_value with_context
       General.loop_input_key General.loop_output_key General.handler General.state
       General.context General.last_raw_value General.with_last_raw_value
       General.with_context General.after_call General.reply General.context_after
       General.state_after] in *.

(** Split on whatever the code branches on next. *)
Ltac gbranch :=
  match goal with
  | |- context [match get_fault ?E ?i with _ => _ end] =>
    destruct (get_fault E i) eqn:?
  | |- context [match set_fault ?E ?i with _ => _ end] =>
    destruct (set_fault E i) eqn:?
  | |- context [match decide ?P with _ => _ end] => destruct (decide P)
  | |- context [match ?m !! ?k with _ => _ end] => destruct (m !! k) eqn:?
  | |- context [if utf8_valid ?b then _ else _] => destruct (utf8_valid b) eqn:?
  | |- context [match json_loads ?s with _ => _ end] => destruct (json_loads s) eqn:?
  | |- context [match json_dumps ?v with _ => _ end] => destruct (json_dumps v) eqn:?
  | |- context [is_None ?v] => destruct (is_None v) eqn:?
  | |- context [isinstance_dict ?v] => destruct (isinstance_dict v) eqn:?
  | |- context [match ?h ?payload ?c with Returns _ => _ | Raises _ => _ end] =>
    destruct (h payload c) eqn:?
  | |- context [General.reply (?h ?s ?payload ?c)] =>
    destruct (h s payload c) as [[?|?|?] ? ?] eqn:?
  end.

Ltac gpaths := gstep; repeat (gbranch; gstep).

(** Two splits on what the same call came to agree. *)
Ltac same_call :=
  repeat match goal with
         | H1 : ?x = General.mkCalled _ _ _, H2 : ?x = General.mkCalled _ _ _ |- _ =>
           rewrite H1 in H2;
           first [ discriminate H2
                 | injection H2; clear H2; intros; subst ]
         end.

(** Evaluate the code of startup. *)
Ltac gboot :=
  cbv beta iota zeta delta
    [General.startup General.load_user_handler General.os_path_getmtime
     General.os_path_isfile General.loader_exec_module General.module_from_spec
     General.propagate General.boot_log General.boot_traceback General.sys_exit
     mbind General.Startup_bind mret General.Startup_ret] in *;
  cbn [fst snd app negb General.callable from_option id] in *.


Section Refinement.
Context `{PyStd}.
Variable E : Env.

(** On well-behaved user code the general iteration is the iteration of
    the definitions above. *)
Lemma cycle_any_loop (l : Loop) (w : World) :
  General.cycle E (any_loop l) w
  = mkResult
      (match outcome (cycle E l w) with
       | Returns l' => Returns (General.Again (any_loop l'))
       | Raises e => Raises e
       end)
      (world (cycle E l w)) (events (cycle E l w)).
Proof. gpaths; reflexivity. Qed.
End Refinement.

Section Any.
Context `{PyStd}.
Context {St : Type}.
Variable E : Env.

Lemma cycle_any_returns (l : General.Loop St) (w : World) :
  exists turn, outcome (General.cycle E l w) = Returns turn.
Proof. gpaths; eauto. Qed.

(** C4 as amended: when the handler raises an instance of [Exception],
    the exception is caught: the iteration ends at the head of the loop,
    the error line and the traceback are logged, no SET is issued and
    the clock is not read; the runtime leaves the context as the call
    left it, so that [last_execution] is as before the iteration when
    the handler has not written to the context. *)
Theorem C4_handler_exception_skips_cycle (l : General.Loop St) (w : World)
    (payload : PyVal) (c : Context) (e : PyExn) :
  In (EvCall payload c (Raises e)) (events (General.cycle E l w)) ->
  General.reply (General.handler l (General.state l) payload c) = General.Raised e
  /\ c = General.context l
  /\ exists l',
       outcome (General.cycle E l w) = Returns (General.Again l')
       /\ (exists pre,
             events (General.cycle E l w) =
             (pre ++ [EvCall payload c (Raises e);
                      EvLog "[error] Exception inside user handler";
                      EvTraceback e;
                      EvSleep POLL_INTERVAL_SECONDS])%list)
       /\ (forall k v res, ~ In (EvSet k v res) (events (General.cycle E l w)))
       /\ (forall t, ~ In (EvTime t) (events (General.cycle E l w)))
       /\ General.context l'
          = General.context_after (General.handler l (General.state l) payload c)
       /\ (General.context_after (General.handler l (General.state l) payload c) = c ->
           General.context l' = General.context l).
Proof.
  gpaths; intros Hin; members; same_call.
  all: split; [reflexivity|]; split; [reflexivity|].
  all: eexists; split; [reflexivity|]; split; [eexists [_; _]; reflexivity|].
  all: split; [intros k v res Hset; members|].
  all: split; [intros t Ht; members|].
  all: split; [reflexivity|]; intros ->; reflexivity.
Qed.
End Any.

(** C4 as stated fails on two counts.  A handler that calls [sys.exit(3)]
    raises [SystemExit], which [except Exception] does not catch: nothing
    is logged, and the exception leaves the iteration, and with it the
    loop and [main].  And a handler that sets [last_execution] itself
    before it raises leaves it updated. *)
Lemma C4_system_exit_is_not_caught :
  General.cycle steady (fresh_any_loop (exiting 3)) (world_with text_x1)
  = mkResult (Returns (General.Gone (SystemExit 3)))
      (mkWorld {[ "metrics" := text_x1 ]} 2)
      [EvGet "metrics" (Returns (Some text_x1));
       EvParse (PyBytes text_x1);
       EvLeft (PyDict [(PyStr "x", PyInt 1)])
              (Context_init "localhost" 6379 "metrics" "out" 0) (SystemExit 3)]
  /\ (exists l',
        outcome (General.cycle steady
                   (fresh_any_loop (stamping_then_raising 5 (Exn "KeyError" "x")))
                   (world_with text_x1)) = Returns (General.Again l')
        /\ last_execution (General.context l') = Some 5
        /\ last_execution
             (General.context (fresh_any_loop (stamping_then_raising 5 (Exn "KeyError" "x"))))
           = None).
Proof.
  split; [vm_compute; reflexivity|].
  eexists. split; [vm_compute; reflexivity|]. split; reflexivity.
Qed.

(** The handler raises [KeyError]: the iteration is skipped. *)
Lemma C4_witness :
  exists l',
    outcome (General.cycle steady
               (fresh_any_loop (any_handler (raising (Exn "KeyError" "x"))))
               (world_with text_x1)) = Returns (General.Again l')
    /\ General.context l'
       = General.context (fresh_any_loop (any_handler (raising (Exn "KeyError" "x")))).
Proof.
  destruct (C4_handler_exception_skips_cycle steady
              (fresh_any_loop (any_handler (raising (Exn "KeyError" "x"))))
              (world_with text_x1)
              (PyDict [(PyStr "x", PyInt 1)])
              (Context_init "localhost" 6379 "metrics" "out" 0)
              (Exn "KeyError" "x"))
    as [_ [_ [l' [Hl' [_ [_ [_ [_ Hctx]]]]]]]].
  - vm_compute. auto 10.
  - exists l'. split; [exact Hl'|]. apply Hctx. reflexivity.
Defined.

Section AnyProcess.
Context `{PyStd}.
Context {St : Type}.
Variable E : Env.

Lemma run_any_S (n : nat) (l : General.Loop St) (w w1 : World) (turn : General.Turn St)
    (evs1 : list Event) :
  General.cycle E l (world (interfere E w)) = mkResult (Returns turn) w1 evs1 ->
  General.run E (S n) l w =
  match turn with
  | General.Again l1 =>
    mkResult (outcome (General.run E n l1 w1)) (world (General.run E n l1 w1))
             (evs1 ++ events (General.run E n l1 w1))%list
  | General.Gone b => mkResult (Returns (General.Gone b)) w1 evs1
  end.
Proof.
  intros Hc. cbn [General.run]. cbv beta delta [mbind M_bind].
  cbv beta iota delta [interfere] in *. cbn [world] in Hc. rewrite Hc.
  cbn [outcome world events app]. destruct turn as [l1|b].
  - destruct (General.run E n l1 w1); reflexivity.
  - cbv beta delta [mret M_ret]. cbn. rewrite app_nil_r. reflexivity.
Qed.



(** How startup ends on any user code, case by case. *)
Lemma startup_any_cases (h : General.Host St) :
  (General.startup_error h
   /\ (exists ev evs, General.startup h = (ev :: evs, General.Exits 1))
   /\ forall ev, In ev (General.startup h).1 -> is_log ev = true)
  \/ (~ General.startup_error h
      /\ exists b,
          General.loader_exec_module h USER_MODULE_PATH = General.Left b
          /\ General.startup h = General.propagate b)
  \/ (~ General.startup_error h
      /\ exists output_key port create module s f mtime,
          environ_ok h output_key port
          /\ General.files h !! USER_MODULE_PATH
             = Some (General.RegularFile create (General.Returned (module, s)) mtime)
          /\ module !! "handler" = Some (General.Function f)
          /\ General.startup h
             = ([EvLog ("Runtime started with host="
                          +:+ default "localhost" (General.environ h !! "REDIS_HOST")
                          +:+ ", port=" +:+ str_of_int port
                          +:+ ", input_key="
                          +:+ default "metrics" (General.environ h !! "REDIS_INPUT_KEY")
                          +:+ ", output_key=" +:+ output_key)],
                General.Goes
                  (General.mkLoop
                     (default "metrics" (General.environ h !! "REDIS_INPUT_KEY"))
                     output_key f s
                     (Context_init
                        (default "localhost" (General.environ h !! "REDIS_HOST")) port
                        (default "metrics" (General.environ h !! "REDIS_INPUT_KEY"))
                        output_key mtime)
                     None))).
Proof.
  unfold General.startup_error, environ_ok. gboot. rewrite spec_user_module.
  cbn [String.eqb Ascii.eqb Bool.eqb].
  destruct (General.environ h !! "REDIS_OUTPUT_KEY") as [output_key|] eqn:Hout; gboot.
  2:{ left. split; [auto|]. split; [eauto|]. intros ev Hin. members; reflexivity. }
  destruct (py_int (default "6379" (General.environ h !! "REDIS_PORT"))) as [port|] eqn:Hport;
    gboot.
  2:{ left. split; [auto 6|]. split; [eauto|]. intros ev Hin. members; reflexivity. }
  destruct (General.files h !! USER_MODULE_PATH)
    as [[create [[module s]|e|b] mtime|mtime]|] eqn:Hf; gboot.
  - destruct (module !! "handler") as [[f|v]|] eqn:Hh; gboot.
    + right. right. split.
      * intros [Hc|[[e Hc]|[[m [s' [Hm Hc]]]|[Hc|Hc]]]]; try discriminate.
        injection Hm as <- <-. rewrite Hh in Hc. discriminate.
      * exists output_key, port, create, module, s, f, mtime. auto.
    + left. split.
      * right. right. left. exists module, s. rewrite Hh. auto.
      * split; [eauto|]. intros ev Hin. members; reflexivity.
    + left. split.
      * right. right. left. exists module, s. rewrite Hh. auto.
      * split; [eauto|]. intros ev Hin. members; reflexivity.
  - left. split; [right; left; eauto|]. split; [eauto|].
    intros ev Hin. members; reflexivity.
  - right. left. split.
    + intros [Hc|[[e Hc]|[[m [s' [Hm Hc]]]|[Hc|Hc]]]]; discriminate.
    + exists b. split; [reflexivity|]. destruct b; reflexivity.
  - left. split; [auto|]. split; [eauto|]. intros ev Hin. members; reflexivity.
  - left. split; [auto|]. split; [eauto|]. intros ev Hin. members; reflexivity.
Qed.

End AnyProcess.


Section AnyStamps.
Context `{PyStd}.
Context {St : Type}.
Variable E : Env.

Lemma given_context_app (c0 : Context) (seen : option Z) (evs evs' : list Event) :
  given_context c0 seen (evs ++ evs')
  <-> given_context c0 seen evs /\ given_context c0 (fold_left stamp evs seen) evs'.
Proof.
  revert seen. induction evs as [|ev evs IH]; intros seen;
    cbn [given_context app fold_left]; [tauto|].
  rewrite IH. tauto.
Qed.

Lemma given_context_base (c : Context) (s seen : option Z) (evs : list Event) :
  given_context (with_last_execution c s) seen evs -> given_context c seen evs.
Proof.
  revert seen. induction evs as [|ev evs IH]; intros seen; cbn [given_context]; [tauto|].
  intros [Hev Hrest]. split; [|apply IH, Hrest]. destruct ev; auto.
Qed.

Lemma stamped_same (c : Context) : with_last_execution c (last_execution c) = c.
Proof. destruct c; reflexivity. Qed.

(** An iteration changes neither the keys nor the handler. *)
Lemma cycle_any_frame (l l' : General.Loop St) (w : World) :
  outcome (General.cycle E l w) = Returns (General.Again l') ->
  General.loop_input_key l' = General.loop_input_key l
  /\ General.loop_output_key l' = General.loop_output_key l
  /\ General.handler l' = General.handler l.
Proof. gpaths; intros [= <-]; auto. Qed.

(** In one iteration the handler is given the context of the loop; when
    the handler leaves the context alone, the context afterwards is the
    one before with the latest clock reading. *)
Lemma cycle_any_stamps (l : General.Loop St) (w : World) :
  leaves_context (General.handler l) ->
  given_context (General.context l) (last_execution (General.context l))
    (events (General.cycle E l w))
  /\ forall l', outcome (General.cycle E l w) = Returns (General.Again l') ->
       General.context l'
       = with_last_execution (General.context l)
           (fold_left stamp (events (General.cycle E l w))
              (last_execution (General.context l))).
Proof.
  intros Hquiet. gpaths;
    repeat match goal with
           | Hc : General.handler l ?s ?p ?c = General.mkCalled _ ?c' _ |- _ =>
             let Hq := fresh in
             pose proof (Hquiet s p c) as Hq; rewrite Hc in Hq;
             cbn [General.context_after] in Hq; subst c'; clear Hc
           end;
    cbn [given_context fold_left stamp]; rewrite ?stamped_same;
    (split; [repeat split; reflexivity|]); intros l' [= <-];
    cbn [General.context]; rewrite ?stamped_same; reflexivity.
Qed.

Lemma run_any_stamps (n : nat) (l : General.Loop St) (w : World) :
  leaves_context (General.handler l) ->
  given_context (General.context l) (last_execution (General.context l))
    (events (General.run E n l w))
  /\ forall l', outcome (General.run E n l w) = Returns (General.Again l') ->
       General.context l'
       = with_last_execution (General.context l)
           (fold_left stamp (events (General.run E n l w))
              (last_execution (General.context l))).
Proof.
  revert l w. induction n as [|n IH]; intros l w Hquiet.
  - cbn. split; [exact I|]. intros l' [= <-]. rewrite stamped_same. reflexivity.
  - destruct (cycle_any_stamps l (world (interfere E w)) Hquiet) as [Hcalls Hctx].
    destruct (cycle_any_returns E l (world (interfere E w))) as [turn Hturn].
    pose proof (cycle_any_frame l) as Hframe.
    destruct (General.cycle E l (world (interfere E w))) as [o w1 evs1] eqn:Hc.
    cbn [outcome events] in *. subst o. rewrite (run_any_S E n _ _ _ _ _ Hc).
    destruct turn as [l1|b]; cbn [outcome events]; [|split; [exact Hcalls|discriminate]].
    destruct (Hframe l1 (world (interfere E w))) as [_ [_ Hh]];
      [rewrite Hc; reflexivity|].
    destruct (IH l1 w1) as [IHcalls IHctx]; [rewrite Hh; exact Hquiet|].
    rewrite (Hctx l1 eq_refl) in IHcalls, IHctx.
    cbn [with_last_execution last_execution] in IHcalls, IHctx.
    rewrite given_context_app, fold_left_app. split.
    + split; [exact Hcalls|]. eapply given_context_base, IHcalls.
    + intros l' Hl'. rewrite (IHctx l' Hl'). reflexivity.
Qed.

(** X3: when the handler writes to no field of the context, then after
    any number of iterations the context's [last_execution] is the
    latest reading of the clock taken so far (the runtime reads the clock
    only to stamp a publish) and its other fields are as they were; and
    each call of the handler is given exactly that context: the
    configuration of the start, and as [last_execution] the latest clock
    reading before the call. *)
Theorem X3_context_carries_the_latest_clock_reading (n : nat) (l : General.Loop St)
    (w : World) :
  leaves_context (General.handler l) ->
  (forall l', outcome (General.run E n l w) = Returns (General.Again l') ->
     General.context l'
     = with_last_execution (General.context l)
         (fold_left stamp (events (General.run E n l w))
            (last_execution (General.context l))))
  /\ (forall pre payload c res post,
        events (General.run E n l w) = (pre ++ EvCall payload c res :: post)%list ->
        c = with_last_execution (General.context l)
              (fold_left stamp pre (last_execution (General.context l))))
  /\ (forall pre payload c b post,
        events (General.run E n l w) = (pre ++ EvLeft payload c b :: post)%list ->
        c = with_last_execution (General.context l)
              (fold_left stamp pre (last_execution (General.context l)))).
Proof.
  intros Hquiet. destruct (run_any_stamps n l w Hquiet) as [Hcalls Hctx].
  split; [exact Hctx|].
  split; intros pre payload c res post Hev; rewrite Hev in Hcalls;
    apply given_context_app in Hcalls as [_ [Hcall _]]; exact Hcall.
Qed.
End AnyStamps.

Section AnyStartup.
Context `{PyStd}.
Context {St : Type}.
Variable E : Env.

Lemma same_config_refl (c : Context) : same_config c c.
Proof. repeat split. Qed.

Lemma same_config_trans (c1 c2 c3 : Context) :
  same_config c1 c2 -> same_config c2 c3 -> same_config c1 c3.
Proof. unfold same_config. intuition congruence. Qed.

Lemma same_config_stamped (c : Context) (t : Z) : same_config c (set_last_execution c t).
Proof. repeat split. Qed.

(** A call on record in an iteration is the call of the loop's handler
    at the state of the user code, on the context of the loop. *)
Lemma cycle_any_calls (l : General.Loop St) (w : World) (ev : Event) (payload : PyVal)
    (c : Context) (r : General.Reply PyVal) :
  In ev (events (General.cycle E l w)) ->
  call_of ev = Some (payload, c, r) ->
  c = General.context l
  /\ General.reply (General.handler l (General.state l) payload c) = r.
Proof.
  gpaths; intros Hin; members; cbn [call_of]; (intros [= <- <- <-] || intros [=]);
    same_call; auto.
Qed.

Lemma cycle_any_config (l l' : General.Loop St) (w : World) :
  keeps_config (General.handler l) ->
  outcome (General.cycle E l w) = Returns (General.Again l') ->
  same_config (General.context l) (General.context l').
Proof.
  intros Hkeep. gpaths; intros [= <-]; cbn [General.context];
    try apply same_config_refl;
    match goal with
    | Hc : General.handler l ?s ?p ?c = General.mkCalled _ ?c' _ |- _ =>
      let Hq := fresh in
      pose proof (Hkeep s p c) as Hq; rewrite Hc in Hq; cbn [General.context_after] in Hq
    end; assumption.
Qed.

Lemma run_any_calls (n : nat) (l : General.Loop St) (w : World) (ev : Event)
    (payload : PyVal) (c : Context) (r : General.Reply PyVal) :
  In ev (events (General.run E n l w)) ->
  call_of ev = Some (payload, c, r) ->
  (exists s, General.reply (General.handler l s payload c) = r)
  /\ (keeps_config (General.handler l) -> same_config (General.context l) c).
Proof.
  revert l w. induction n as [|n IH]; intros l w; [cbn; tauto|].
  destruct (cycle_any_returns E l (world (interfere E w))) as [turn Hturn].
  pose proof (cycle_any_frame E l) as Hframe.
  pose proof (cycle_any_config l) as Hcfg.
  pose proof (cycle_any_calls l (world (interfere E w)) ev payload c r) as Hcall.
  destruct (General.cycle E l (world (interfere E w))) as [o w1 evs1] eqn:Hc.
  cbn [outcome events] in *. subst o. rewrite (run_any_S E n _ _ _ _ _ Hc).
  assert (Hfirst : In ev evs1 -> call_of ev = Some (payload, c, r) ->
            (exists s, General.reply (General.handler l s payload c) = r)
            /\ (keeps_config (General.handler l) -> same_config (General.context l) c)).
  { intros Hin Hev. destruct (Hcall Hin Hev) as [-> Hr].
    split; [eauto|]. intros _. apply same_config_refl. }
  destruct turn as [l1|b]; cbn [events]; [|exact Hfirst].
  intros [Hin|Hin]%in_app_or Hev; [auto|].
  destruct (Hframe l1 (world (interfere E w))) as [_ [_ Hh]]; [rewrite Hc; reflexivity|].
  destruct (IH _ _ Hin Hev) as [Hs Hk]. rewrite Hh in Hs, Hk. split; [exact Hs|].
  intros Hkeep. eapply same_config_trans; [|apply Hk, Hkeep].
  eapply Hcfg; [exact Hkeep|]. rewrite Hc. reflexivity.
Qed.

(** X14: every call of the handler in the life of the process, whether
    it returned, raised or was left, is a call of the function the
    module file held under [handler] when it was loaded at startup;
    and when that function writes to none of the configuration fields
    of the context, the context it is given holds the host and the keys
    of the environment (or their defaults), the integer of [REDIS_PORT],
    the modification time the module file had at startup, and an empty
    [env]. *)
Theorem X14_handler_and_configuration_are_those_of_startup (h : General.Host St) (n : nat)
    (w : World) (ev : Event) (payload : PyVal) (c : Context) (r : General.Reply PyVal) :
  In ev (General.main E h n w).1.1 ->
  call_of ev = Some (payload, c, r) ->
  exists create module s0 mtime f,
    General.files h !! USER_MODULE_PATH
    = Some (General.RegularFile create (General.Returned (module, s0)) mtime)
    /\ module !! "handler" = Some (General.Function f)
    /\ (exists s, General.reply (f s payload c) = r)
    /\ (keeps_config f ->
        host c = default "localhost" (General.environ h !! "REDIS_HOST")
        /\ py_int (default "6379" (General.environ h !! "REDIS_PORT")) = Some (port c)
        /\ input_key c = default "metrics" (General.environ h !! "REDIS_INPUT_KEY")
        /\ General.environ h !! "REDIS_OUTPUT_KEY" = Some (output_key c)
        /\ function_getmtime c = mtime
        /\ env c = ∅).
Proof.
  unfold General.main.
  destruct (startup_any_cases h)
    as [[Herr [[ev0 [evs0 Hs]] Hlog]]
       |[[Hok [b [Hb Hs]]]
        |[Hok [out [p [cr [m [s0 [f [mt [[Hout Hport] [Hf [Hh Hs]]]]]]]]]]]]];
    rewrite Hs in *; cbn [fst snd] in *.
  - intros Hin Hev. apply Hlog in Hin. destruct ev; discriminate.
  - destruct b; cbn; intros [].
  - cbv zeta. cbn [fst]. intros [Hin|Hin]%in_app_or Hev; [members; discriminate|].
    destruct (run_any_calls _ _ _ _ _ _ _ Hin Hev) as [Hcall Hcfg].
    cbn [General.handler General.context] in *.
    exists cr, m, s0, mt, f. split; [exact Hf|]. split; [exact Hh|]. split; [exact Hcall|].
    intros Hkeep. destruct (Hcfg Hkeep) as [Hhost [Hp [Hin' [Hout' [Hmt Henv]]]]].
    cbn in *. repeat split; congruence.
Qed.

End AnyStartup.

(** The handler publishes once: the context then carries the reading of
    the clock taken after the SET. *)
Lemma X3_witness :
  exists l',
    outcome (General.run steady 1
               (fresh_any_loop (any_handler (returning (PyDict [(PyStr "y", PyInt 2)]))))
               (world_with text_x1)) = Returns (General.Again l')
    /\ General.context l'
       = with_last_execution (Context_init "localhost" 6379 "metrics" "out" 0) (Some 1003).
Proof.
  destruct (X3_context_carries_the_latest_clock_reading steady 1
              (fresh_any_loop (any_handler (returning (PyDict [(PyStr "y", PyInt 2)]))))
              (world_with text_x1)) as [Hctx _].
  - intros s payload c. reflexivity.
  - exists (General.mkLoop "metrics" "out"
              (any_handler (returning (PyDict [(PyStr "y", PyInt 2)]))) tt
              (set_last_execution (Context_init "localhost" 6379 "metrics" "out" 0) 1003)
              (Some text_x1)).
    split; [vm_compute; reflexivity|].
    etransitivity; [apply Hctx; vm_compute; reflexivity|vm_compute; reflexivity].
Defined.

Lemma X14_witness :
  exists create module s0 mtime f,
    General.files (machine_with (any_handler (returning (PyDict [(PyStr "y", PyInt 2)]))))
      !! USER_MODULE_PATH
    = Some (General.RegularFile create (General.Returned (module, s0)) mtime)
    /\ module !! "handler" = Some (General.Function f)
    /\ (exists s,
          General.reply (f s (PyDict [(PyStr "x", PyInt 1)])
                           (Context_init "localhost" 6379 "metrics" "out" 0))
          = General.Returned (PyDict [(PyStr "y", PyInt 2)]))
    /\ mtime = 0.
Proof.
  destruct (X14_handler_and_configuration_are_those_of_startup steady
              (machine_with (any_handler (returning (PyDict [(PyStr "y", PyInt 2)])))) 1
              (world_with text_x1)
              (EvCall (PyDict [(PyStr "x", PyInt 1)])
                      (Context_init "localhost" 6379 "metrics" "out" 0)
                      (Returns (PyDict [(PyStr "y", PyInt 2)])))
              (PyDict [(PyStr "x", PyInt 1)])
              (Context_init "localhost" 6379 "metrics" "out" 0)
              (General.Returned (PyDict [(PyStr "y", PyInt 2)])))
    as [create [module [s0 [mtime [f [Hf [Hh [Hcall Hcfg]]]]]]]].
  - vm_compute. auto 10.
  - reflexivity.
  - exists create, module, s0, mtime, f. split; [exact Hf|]. split; [exact Hh|].
    split; [exact Hcall|].
    assert (Hkeep : keeps_config f).
    { vm_compute in Hf. injection Hf as _ Hm _. subst module.
      vm_compute in Hh. injection Hh as <-. intros s payload c. repeat split. }
    destruct (Hcfg Hkeep) as [_ [_ [_ [_ [Hmt _]]]]]. symmetry. exact Hmt.
Defined.

(** An extension file that is no shared object: creating the module
    raises [ImportError] outside the [try], and the exception escapes. *)
Example load_user_handler_import_error_escapes :
  General.load_user_handler
    (machine_with_extension "/opt/usermodule.so"
       (General.Raised (Exn "ImportError" "invalid ELF header")))
    "/opt/usermodule.so"
  = ([], General.Dies (inl (Exn "ImportError" "invalid ELF header"))).
Proof. vm_compute. reflexivity. Qed.

Section RefinementOfMain.
Context `{PyStd}.
Variable E : Env.

Lemma run_any_loop (n : nat) (l : Loop) (w : World) :
  General.run E n (any_loop l) w
  = mkResult
      (match outcome (run E n l w) with
       | Returns l' => Returns (General.Again (any_loop l'))
       | Raises e => Raises e
       end)
      (world (run E n l w)) (events (run E n l w)).
Proof.
  revert l w. induction n as [|n IH]; intros l w; [reflexivity|].
  destruct (cycle_returns E l (world (interfere E w))) as [l1 Hl1].
  pose proof (cycle_any_loop E l (world (interfere E w))) as Hany.
  destruct (cycle E l (world (interfere E w))) as [o w1 evs1] eqn:Hc.
  cbn [outcome world events] in *. subst o.
  rewrite (run_S E n _ _ _ _ _ Hc), (run_any_S E n _ _ _ _ _ Hany), IH. reflexivity.
Qed.

Lemma startup_any_host (h : Host) :
  General.startup (any_host h)
  = ((startup h).1,
     match (startup h).2 with
     | Goes l => General.Goes (any_loop l)
     | Exits code => General.Exits code
     | Dies e => General.Dies (inl e)
     end).
Proof.
  boot. gboot. rewrite spec_user_module. cbn [String.eqb Ascii.eqb Bool.eqb].
  unfold any_host. cbn [General.environ General.files]. rewrite lookup_fmap.
  destruct (environ h !! "REDIS_OUTPUT_KEY") as [output_key|]; boot; [|reflexivity].
  destruct (py_int (default "6379" (environ h !! "REDIS_PORT"))) as [port|]; boot;
    [|reflexivity].
  destruct (files h !! USER_MODULE_PATH) as [[[module|e] mtime|mtime]|];
    cbn [fmap option_fmap option_map any_node]; boot; try reflexivity.
  rewrite lookup_fmap.
  destruct (module !! "handler") as [[f|v]|]; cbn [fmap option_fmap option_map any_obj];
    boot; reflexivity.
Qed.

(** On well-behaved user code, [main] on any user code is the [main] of
    the definitions above. *)
Lemma main_any_host (h : Host) (n : nat) (w : World) :
  General.main E (any_host h) n w
  = ((main E h n w).1.1, (main E h n w).1.2, any_process (main E h n w).2).
Proof.
  unfold General.main, main. rewrite startup_any_host.
  destruct (startup h) as [evs [l|code|e]]; cbn [fst snd]; try reflexivity.
  cbv zeta. rewrite run_any_loop. cbn [outcome world events fst snd].
  destruct (run_returns E n l w) as [l' Hl']. rewrite Hl'. reflexivity.
Qed.
End RefinementOfMain.

(** * The JSON model reads back what it writes *)

Module PyJsonFacts.
Import PyJson.

Lemma app_cons (a : ascii) (s t : string) : String a s +:+ t = String a (s +:+ t).
Proof. reflexivity. Qed.

Lemma app_char (a : ascii) (t : string) : String a EmptyString +:+ t = String a t.
Proof. reflexivity. Qed.

Lemma app_assoc (s t u : string) : (s +:+ t) +:+ u = s +:+ (t +:+ u).
Proof. induction s as [|a s IH]; [reflexivity|]. rewrite !app_cons. now f_equal. Qed.

Lemma app_nil_r (s : string) : s +:+ EmptyString = s.
Proof. induction s as [|a s IH]; [reflexivity|]. rewrite app_cons. now f_equal. Qed.

Lemma app_length (s t : string) :
  String.length (s +:+ t) = (String.length s + String.length t)%nat.
Proof.
  induction s as [|a s IH]; [reflexivity|]. rewrite app_cons. cbn [String.length].
  now rewrite IH.
Qed.

(** The escape of an ASCII character reads back as that character. *)
Lemma scanstring_escape_ascii (a : ascii) (tail : string) :
  (N_of_ascii a <? 128)%N = true ->
  scanstring (escape_ascii a +:+ tail) = chunk_then (String a EmptyString) (scanstring tail).
Proof.
  destruct a as [b0 b1 b2 b3 b4 b5 b6 b7].
  destruct b7; [destruct b0, b1, b2, b3, b4, b5, b6; discriminate|].
  intros _.
  destruct b0, b1, b2, b3, b4, b5, b6; try reflexivity.
  all: destruct tail as [|? [|? [|? [|? [|? [|? ?]]]]]]; reflexivity.
Qed.

Lemma escape_text_ascii (a : ascii) (s : string) :
  (N_of_ascii a <? 128)%N = true ->
  escape_text (String a s) = escape_ascii a +:+ escape_text s.
Proof.
  intros Ha. cbn -[N.ltb N_of_ascii escape_ascii append N.mul N.add N.modulo].
  rewrite Ha. reflexivity.
Qed.

Lemma scanstring_escape_text (s rest : string) :
  ascii_text s = true ->
  scanstring (escape_text s +:+ String quote rest) = Some (s, rest).
Proof.
  induction s as [|a s IH]; intros Hs.
  - reflexivity.
  - cbn [ascii_text] in Hs. apply andb_prop in Hs as [Ha Hs].
    rewrite (escape_text_ascii a s Ha), app_assoc, scanstring_escape_ascii by exact Ha.
    rewrite IH by exact Hs. reflexivity.
Qed.

(** ** Strings outside ASCII *)

Ltac bytes := zify; Z.to_euclidean_division_equations; lia.

Lemma byte_in_spec (lo hi : N) (a : ascii) :
  byte_in lo hi a = true <-> (lo <= N_of_ascii a <= hi)%N.
Proof.
  unfold byte_in. rewrite andb_true_iff, !N.leb_le. tauto.
Qed.

Lemma byte_in_false (lo hi : N) (a : ascii) :
  byte_in lo hi a = false <-> (N_of_ascii a < lo \/ hi < N_of_ascii a)%N.
Proof.
  unfold byte_in. rewrite andb_false_iff, !N.leb_gt. tauto.
Qed.

Lemma ascii_of_byte (a : ascii) (n : N) : n = N_of_ascii a -> ascii_of_N n = a.
Proof. intros ->. apply ascii_N_embedding. Qed.

Lemma append_nil_l (s : string) : EmptyString +:+ s = s.
Proof. reflexivity. Qed.

Lemma hex_value_hex_digit (d : N) : (d < 16)%N -> hex_value (hex_digit d) = Some d.
Proof.
  intros Hd. destruct d as [|p]; [reflexivity|].
  destruct p as [p|p|]; [| |reflexivity];
    (destruct p as [p|p|]; [| |reflexivity]);
    (destruct p as [p|p|]; [| |reflexivity]);
    (destruct p as [p|p|]; [| |reflexivity]); exfalso; lia.
Qed.

Lemma hex4_value_escape (n : N) :
  (n < 65536)%N ->
  hex4_value (hex_digit (n / 4096 mod 16)) (hex_digit (n / 256 mod 16))
             (hex_digit (n / 16 mod 16)) (hex_digit (n mod 16)) = Some n.
Proof.
  intros Hn. unfold hex4_value.
  rewrite !hex_value_hex_digit by bytes. f_equal. bytes.
Qed.

(** An escape of four hexadecimal digits that is no high surrogate reads
    as its code point. *)
Lemma scanstring_u (h1 h2 h3 h4 : ascii) (uni : N) (tail : string) :
  hex4_value h1 h2 h3 h4 = Some uni ->
  is_high_surrogate uni = false ->
  scanstring (String backslash (String "u" (String h1 (String h2 (String h3 (String h4 tail))))))
  = chunk_then (chr uni) (scanstring tail).
Proof.
  intros Hh Hs.
  cbn -[hex4_value chr is_high_surrogate is_low_surrogate chunk_then].
  rewrite Hh, Hs.
  destruct tail as [|b [|u [|g1 [|g2 [|g3 [|g4 r3]]]]]]; reflexivity.
Qed.

(** A high surrogate followed by a low one reads as the code point of the
    pair. *)
Lemma scanstring_pair (h1 h2 h3 h4 g1 g2 g3 g4 : ascii) (hi lo : N) (tail : string) :
  hex4_value h1 h2 h3 h4 = Some hi ->
  hex4_value g1 g2 g3 g4 = Some lo ->
  is_high_surrogate hi = true ->
  is_low_surrogate lo = true ->
  scanstring
    (String backslash (String "u" (String h1 (String h2 (String h3 (String h4
       (String backslash (String "u" (String g1 (String g2 (String g3 (String g4 tail))))))))))))
  = chunk_then (chr (65536 + ((hi - 55296) * 1024 + (lo - 56320)))) (scanstring tail).
Proof.
  intros Hh Hg Hhi Hlo.
  cbn -[hex4_value chr is_high_surrogate is_low_surrogate chunk_then N.add N.mul N.sub].
  rewrite Hh, Hhi. cbn -[hex4_value chr is_high_surrogate is_low_surrogate chunk_then N.add N.mul N.sub].
  rewrite Hg, Hlo. reflexivity.
Qed.

Lemma scanstring_escape_u (n : N) (tail : string) :
  (n < 65536)%N ->
  is_high_surrogate n = false ->
  scanstring (escape_u n +:+ tail) = chunk_then (chr n) (scanstring tail).
Proof.
  intros Hn Hs. unfold escape_u. rewrite !app_cons, !append_nil_l.
  apply scanstring_u; [apply hex4_value_escape, Hn|exact Hs].
Qed.

Lemma scanstring_escape_code_point (n : N) (tail : string) :
  (n < 1114112)%N ->
  is_high_surrogate n = false ->
  scanstring (escape_code_point n +:+ tail) = chunk_then (chr n) (scanstring tail).
Proof.
  intros Hn Hs. unfold escape_code_point.
  destruct (n <? 65536)%N eqn:Hlt.
  - apply N.ltb_lt in Hlt. apply scanstring_escape_u; assumption.
  - apply N.ltb_ge in Hlt. rewrite app_assoc. unfold escape_u. rewrite !app_cons, !append_nil_l.
    rewrite (scanstring_pair _ _ _ _ _ _ _ _
               (55296 + (n - 65536) / 1024) (56320 + (n - 65536) mod 1024)).
    + f_equal. f_equal. bytes.
    + apply hex4_value_escape. bytes.
    + apply hex4_value_escape. bytes.
    + unfold is_high_surrogate. apply andb_true_intro. split; apply N.leb_le; bytes.
    + unfold is_low_surrogate. apply andb_true_intro. split; apply N.leb_le; bytes.
Qed.

Lemma ltb_false (n m : N) : (m <= n)%N -> (n <? m)%N = false.
Proof. intros Hn. apply N.ltb_ge, Hn. Qed.

Lemma ltb_true (n m : N) : (n < m)%N -> (n <? m)%N = true.
Proof. intros Hn. apply N.ltb_lt, Hn. Qed.

Lemma not_high_surrogate (n : N) :
  (n < 55296 \/ 56319 < n)%N -> is_high_surrogate n = false.
Proof.
  intros Hn. unfold is_high_surrogate. apply andb_false_iff. rewrite !N.leb_gt. lia.
Qed.

(** The escaped text, by the length of the UTF-8 sequence at its head. *)
Lemma escape_text_2 (a b : ascii) (r : string) :
  (128 <= N_of_ascii a < 224)%N ->
  escape_text (String a (String b r))
  = escape_code_point (N_of_ascii a mod 32 * 64 + continuation b) +:+ escape_text r.
Proof.
  intros Ha. cbn -[N.ltb N_of_ascii escape_ascii escape_code_point append N.mul N.add
                   N.modulo continuation].
  rewrite (ltb_false _ 128), (ltb_true _ 224) by lia. reflexivity.
Qed.

Lemma escape_text_3 (a b c : ascii) (r : string) :
  (224 <= N_of_ascii a < 240)%N ->
  escape_text (String a (String b (String c r)))
  = escape_code_point (N_of_ascii a mod 16 * 4096 + continuation b * 64 + continuation c)
    +:+ escape_text r.
Proof.
  intros Ha. cbn -[N.ltb N_of_ascii escape_ascii escape_code_point append N.mul N.add
                   N.modulo continuation].
  rewrite (ltb_false _ 128), (ltb_false _ 224), (ltb_true _ 240) by lia. reflexivity.
Qed.

Lemma escape_text_4 (a b c d : ascii) (r : string) :
  (240 <= N_of_ascii a)%N ->
  escape_text (String a (String b (String c (String d r))))
  = escape_code_point (N_of_ascii a mod 8 * 262144 + continuation b * 4096
                       + continuation c * 64 + continuation d)
    +:+ escape_text r.
Proof.
  intros Ha. cbn -[N.ltb N_of_ascii escape_ascii escape_code_point append N.mul N.add
                   N.modulo continuation].
  rewrite (ltb_false _ 128), (ltb_false _ 224), (ltb_false _ 240) by lia. reflexivity.
Qed.

(** [chr] of the code point of a UTF-8 sequence is the sequence. *)
Lemma chr_2 (a b : ascii) :
  (194 <= N_of_ascii a <= 223)%N -> (128 <= N_of_ascii b <= 191)%N ->
  chr (N_of_ascii a mod 32 * 64 + continuation b) = String a (String b EmptyString).
Proof.
  intros Ha Hb. unfold chr, continuation.
  rewrite (ltb_false _ 128), (ltb_true _ 2048) by bytes.
  f_equal; [|f_equal]; apply ascii_of_byte; bytes.
Qed.

Lemma chr_3 (a b c : ascii) :
  (224 <= N_of_ascii a <= 239)%N -> (128 <= N_of_ascii b <= 191)%N ->
  (128 <= N_of_ascii c <= 191)%N ->
  (N_of_ascii a = 224 -> 160 <= N_of_ascii b)%N ->
  chr (N_of_ascii a mod 16 * 4096 + continuation b * 64 + continuation c)
  = String a (String b (String c EmptyString)).
Proof.
  intros Ha Hb Hc Hmin. unfold chr, continuation.
  rewrite (ltb_false _ 128), (ltb_false _ 2048), (ltb_true _ 65536) by bytes.
  f_equal; [|f_equal; [|f_equal]]; apply ascii_of_byte; bytes.
Qed.

Lemma chr_4 (a b c d : ascii) :
  (240 <= N_of_ascii a <= 244)%N -> (128 <= N_of_ascii b <= 191)%N ->
  (128 <= N_of_ascii c <= 191)%N -> (128 <= N_of_ascii d <= 191)%N ->
  (N_of_ascii a = 240 -> 144 <= N_of_ascii b)%N ->
  chr (N_of_ascii a mod 8 * 262144 + continuation b * 4096
       + continuation c * 64 + continuation d)
  = String a (String b (String c (String d EmptyString))).
Proof.
  intros Ha Hb Hc Hd Hmin. unfold chr, continuation.
  rewrite (ltb_false _ 128), (ltb_false _ 2048), (ltb_false _ 65536) by bytes.
  f_equal; [|f_equal; [|f_equal; [|f_equal]]]; apply ascii_of_byte; bytes.
Qed.

(** The escaped form of a well-formed UTF-8 text reads back as the
    text. *)
Lemma scanstring_escape_utf8 (s rest : string) :
  utf8_valid s = true ->
  scanstring (escape_text s +:+ String quote rest) = Some (s, rest).
Proof.
  assert (Hall : forall n s, (String.length s <= n)%nat -> utf8_valid s = true ->
                 scanstring (escape_text s +:+ String quote rest) = Some (s, rest)).
  { clear s. induction n as [|n IH]; intros s Hlen Hv.
    - destruct s; [reflexivity|cbn in Hlen; lia].
    - destruct s as [|a r]; [reflexivity|]. cbn [String.length] in Hlen.
      cbn [utf8_valid] in Hv. destruct (byte_in 0 127 a) eqn:H1.
      { apply byte_in_spec in H1.
        assert (Ha : (N_of_ascii a <? 128)%N = true) by (apply N.ltb_lt; lia).
        rewrite (escape_text_ascii a r Ha), app_assoc, scanstring_escape_ascii by exact Ha.
        rewrite IH by (assumption || lia). reflexivity. }
      apply byte_in_false in H1.
      destruct r as [|b r1]; [discriminate|]. cbn [String.length] in Hlen.
      destruct (byte_in 194 223 a) eqn:H2.
      { apply byte_in_spec in H2. apply andb_prop in Hv as [Hb Hv].
        apply byte_in_spec in Hb.
        rewrite escape_text_2 by lia. rewrite app_assoc.
        rewrite scanstring_escape_code_point;
          [|unfold continuation; bytes|apply not_high_surrogate; unfold continuation; bytes].
        rewrite IH by (assumption || lia). rewrite chr_2 by assumption. reflexivity. }
      apply byte_in_false in H2.
      destruct r1 as [|c r2]; [discriminate|]. cbn [String.length] in Hlen.
      destruct (byte_in 224 239 a) eqn:H3.
      { apply byte_in_spec in H3. apply andb_prop in Hv as [Hv Hv2].
        apply andb_prop in Hv as [Hb Hc]. apply byte_in_spec in Hc.
        assert (Hb' : (128 <= N_of_ascii b <= 191)%N
                      /\ (N_of_ascii a = 224 -> 160 <= N_of_ascii b)%N
                      /\ (N_of_ascii a = 237 -> N_of_ascii b <= 159)%N).
        { destruct (byte_in 224 224 a) eqn:He0.
          - apply byte_in_spec in He0, Hb. lia.
          - apply byte_in_false in He0. destruct (byte_in 237 237 a) eqn:Hed.
            + apply byte_in_spec in Hed, Hb. lia.
            + apply byte_in_false in Hed. apply byte_in_spec in Hb. lia. }
        destruct Hb' as [Hb1 [Hb2 Hb3]].
        rewrite escape_text_3 by lia. rewrite app_assoc.
        rewrite scanstring_escape_code_point;
          [|unfold continuation; bytes|apply not_high_surrogate; unfold continuation; bytes].
        rewrite IH by (assumption || lia). rewrite chr_3 by assumption. reflexivity. }
      apply byte_in_false in H3.
      destruct r2 as [|d r3]; [discriminate|]. cbn [String.length] in Hlen.
      apply andb_prop in Hv as [Hv Hv3]. apply andb_prop in Hv as [Hv Hd].
      apply andb_prop in Hv as [Hv Hc]. apply andb_prop in Hv as [Ha Hb].
      apply byte_in_spec in Ha, Hc, Hd.
      assert (Hb' : (128 <= N_of_ascii b <= 191)%N
                    /\ (N_of_ascii a = 240 -> 144 <= N_of_ascii b)%N
                    /\ (N_of_ascii a = 244 -> N_of_ascii b <= 143)%N).
      { destruct (byte_in 240 240 a) eqn:Hf0.
        - apply byte_in_spec in Hf0, Hb. lia.
        - apply byte_in_false in Hf0. destruct (byte_in 244 244 a) eqn:Hf4.
          + apply byte_in_spec in Hf4, Hb. lia.
          + apply byte_in_false in Hf4. apply byte_in_spec in Hb. lia. }
      destruct Hb' as [Hb1 [Hb2 Hb3]].
      rewrite escape_text_4 by lia. rewrite app_assoc.
      rewrite scanstring_escape_code_point;
        [|unfold continuation; bytes|apply not_high_surrogate; unfold continuation; bytes].
      rewrite IH by (assumption || lia). rewrite chr_4 by assumption. reflexivity. }
  intros Hv. apply (Hall (String.length s)); [lia|exact Hv].
Qed.

(** An escape of four hexadecimal digits that no escape of a low
    surrogate follows reads as its code point. *)
Lemma scanstring_u_alone (h1 h2 h3 h4 : ascii) (uni : N) (tail : string) :
  hex4_value h1 h2 h3 h4 = Some uni ->
  no_low_head tail = true ->
  scanstring (String backslash (String "u" (String h1 (String h2 (String h3 (String h4 tail))))))
  = chunk_then (chr uni) (scanstring tail).
Proof.
  intros Hh Hs.
  cbn -[hex4_value chr is_high_surrogate is_low_surrogate chunk_then].
  rewrite Hh.
  destruct tail as [|b [|u [|g1 [|g2 [|g3 [|g4 r3]]]]]]; try reflexivity.
  unfold no_low_head in Hs.
  destruct (is_high_surrogate uni); [|reflexivity].
  destruct (Ascii.eqb b backslash); [|reflexivity].
  destruct (Ascii.eqb u "u"); [|reflexivity].
  cbn [andb negb orb] in Hs |- *.
  destruct (hex4_value g1 g2 g3 g4) as [uni2|]; [|discriminate].
  apply negb_true_iff in Hs. rewrite Hs. reflexivity.
Qed.

Lemma scanstring_escape_u_alone (n : N) (tail : string) :
  (n < 65536)%N ->
  no_low_head tail = true ->
  scanstring (escape_u n +:+ tail) = chunk_then (chr n) (scanstring tail).
Proof.
  intros Hn Hs. unfold escape_u. rewrite !app_cons, !append_nil_l.
  apply scanstring_u_alone; [apply hex4_value_escape, Hn|exact Hs].
Qed.

Lemma no_low_head_quote (rest : string) : no_low_head (String quote rest) = true.
Proof. destruct rest as [|u [|g1 [|g2 [|g3 [|g4 r]]]]]; reflexivity. Qed.

Lemma no_low_head_escape_u (n : N) (tail : string) :
  (n < 65536)%N -> is_low_surrogate n = false ->
  no_low_head (escape_u n +:+ tail) = true.
Proof.
  intros Hn Hlow. unfold escape_u. rewrite !app_cons, !append_nil_l.
  unfold no_low_head. rewrite hex4_value_escape by exact Hn. rewrite Hlow.
  apply orb_true_r.
Qed.

Lemma no_low_head_escape_code_point (n : N) (tail : string) :
  (n < 1114112)%N -> is_low_surrogate n = false ->
  no_low_head (escape_code_point n +:+ tail) = true.
Proof.
  intros Hn Hlow. unfold escape_code_point. destruct (n <? 65536)%N eqn:Hlt.
  - apply N.ltb_lt in Hlt. apply no_low_head_escape_u; assumption.
  - apply N.ltb_ge in Hlt. rewrite app_assoc. apply no_low_head_escape_u; [bytes|].
    unfold is_low_surrogate. apply andb_false_iff. rewrite !N.leb_gt. bytes.
Qed.

Lemma no_low_head_escape_ascii (a : ascii) (tail : string) :
  (N_of_ascii a <? 128)%N = true -> no_low_head (escape_ascii a +:+ tail) = true.
Proof.
  destruct a as [b0 b1 b2 b3 b4 b5 b6 b7].
  destruct b7; [destruct b0, b1, b2, b3, b4, b5, b6; discriminate|].
  intros _.
  destruct b0, b1, b2, b3, b4, b5, b6;
    destruct tail as [|? [|? [|? [|? [|? [|? ?]]]]]]; reflexivity.
Qed.

Lemma not_low_surrogate (n : N) :
  (n < 56320 \/ 57343 < n)%N -> is_low_surrogate n = false.
Proof.
  intros Hn. unfold is_low_surrogate. apply andb_false_iff. rewrite !N.leb_gt. lia.
Qed.

Lemma is_high_surrogate_spec (n : N) :
  is_high_surrogate n = true <-> (55296 <= n <= 56319)%N.
Proof. unfold is_high_surrogate. rewrite andb_true_iff, !N.leb_le. tauto. Qed.

(** The escaped form of such a text reads back as the text. *)
Lemma scanstring_escape_exact_from (rest : string) (n : nat) :
  forall (s : string) (after_high : bool),
    (String.length s <= n)%nat -> text_exact after_high s = true ->
    scanstring (escape_text s +:+ String quote rest) = Some (s, rest)
    /\ (after_high = true -> no_low_head (escape_text s +:+ String quote rest) = true).
Proof.
  induction n as [|n IH]; intros s ah Hlen Hv.
  - destruct s; [|cbn in Hlen; lia]. split; [reflexivity|].
    intros _. apply no_low_head_quote.
  - destruct s as [|a r]; [split; [reflexivity|intros _; apply no_low_head_quote]|].
    cbn [String.length] in Hlen.
    cbn [text_exact] in Hv. destruct (byte_in 0 127 a) eqn:H1.
    { apply byte_in_spec in H1.
      assert (Ha : (N_of_ascii a <? 128)%N = true) by (apply N.ltb_lt; lia).
      rewrite (escape_text_ascii a r Ha), app_assoc.
      split; [|intros _; apply no_low_head_escape_ascii, Ha].
      rewrite scanstring_escape_ascii by exact Ha.
      destruct (IH r false) as [-> _]; [lia|assumption|]. reflexivity. }
    apply byte_in_false in H1.
    destruct r as [|b r1]; [discriminate|]. cbn [String.length] in Hlen.
    destruct (byte_in 194 223 a) eqn:H2.
    { apply byte_in_spec in H2. apply andb_prop in Hv as [Hb Hv].
      apply byte_in_spec in Hb.
      rewrite escape_text_2 by lia. rewrite app_assoc.
      split.
      - rewrite scanstring_escape_code_point;
          [|unfold continuation; bytes|apply not_high_surrogate; unfold continuation; bytes].
        destruct (IH r1 false) as [-> _]; [lia|assumption|].
        rewrite chr_2 by assumption. reflexivity.
      - intros _. apply no_low_head_escape_code_point;
          [unfold continuation; bytes|apply not_low_surrogate; unfold continuation; bytes]. }
    apply byte_in_false in H2.
    destruct r1 as [|c r2]; [discriminate|]. cbn [String.length] in Hlen.
    destruct (byte_in 224 239 a) eqn:H3.
    { apply byte_in_spec in H3. apply andb_prop in Hv as [Hv Hv2].
      apply andb_prop in Hv as [Hv Hpair]. apply andb_prop in Hv as [Hb Hc].
      apply byte_in_spec in Hc.
      assert (Hb' : (128 <= N_of_ascii b <= 191)%N
                    /\ (N_of_ascii a = 224 -> 160 <= N_of_ascii b)%N).
      { destruct (byte_in 224 224 a) eqn:He0.
        - apply byte_in_spec in He0, Hb. lia.
        - apply byte_in_false in He0. apply byte_in_spec in Hb. lia. }
      destruct Hb' as [Hb1 Hb2].
      rewrite escape_text_3 by lia. rewrite app_assoc.
      assert (Hcp : (N_of_ascii a mod 16 * 4096 + continuation b * 64 + continuation c
                     < 65536)%N) by (unfold continuation; bytes).
      unfold escape_code_point. rewrite (ltb_true _ 65536) by exact Hcp.
      destruct (IH r2 (byte_in 237 237 a && byte_in 160 175 b)) as [Hread Hhead];
        [lia|assumption|].
      split.
      - destruct (byte_in 237 237 a && byte_in 160 175 b) eqn:Hhigh.
        + rewrite scanstring_escape_u_alone by auto.
          rewrite Hread, chr_3 by assumption. reflexivity.
        + rewrite scanstring_escape_u; [| exact Hcp |].
          * rewrite Hread, chr_3 by assumption. reflexivity.
          * apply not_high_surrogate. apply andb_false_iff in Hhigh as [Hh|Hh];
              apply byte_in_false in Hh; unfold continuation; bytes.
      - intros ->. apply no_low_head_escape_u; [exact Hcp|].
        apply not_low_surrogate. cbn [andb] in Hpair. apply negb_true_iff in Hpair.
        apply andb_false_iff in Hpair as [Hh|Hh]; apply byte_in_false in Hh;
          unfold continuation; bytes. }
    apply byte_in_false in H3.
    destruct r2 as [|d r3]; [discriminate|]. cbn [String.length] in Hlen.
    apply andb_prop in Hv as [Hv Hv3]. apply andb_prop in Hv as [Hv Hd].
    apply andb_prop in Hv as [Hv Hc]. apply andb_prop in Hv as [Ha Hb].
    apply byte_in_spec in Ha, Hc, Hd.
    assert (Hb' : (128 <= N_of_ascii b <= 191)%N
                  /\ (N_of_ascii a = 240 -> 144 <= N_of_ascii b)%N
                  /\ (N_of_ascii a = 244 -> N_of_ascii b <= 143)%N).
    { destruct (byte_in 240 240 a) eqn:Hf0.
      - apply byte_in_spec in Hf0, Hb. lia.
      - apply byte_in_false in Hf0. destruct (byte_in 244 244 a) eqn:Hf4.
        + apply byte_in_spec in Hf4, Hb. lia.
        + apply byte_in_false in Hf4. apply byte_in_spec in Hb. lia. }
    destruct Hb' as [Hb1 [Hb2 Hb3]].
    rewrite escape_text_4 by lia. rewrite app_assoc.
    split.
    + rewrite scanstring_escape_code_point;
        [|unfold continuation; bytes|apply not_high_surrogate; unfold continuation; bytes].
      destruct (IH r3 false) as [-> _]; [lia|assumption|].
      rewrite chr_4 by assumption. reflexivity.
    + intros _. apply no_low_head_escape_code_point;
        [unfold continuation; bytes|apply not_low_surrogate; unfold continuation; bytes].
Qed.

Lemma scanstring_escape_exact (s rest : string) :
  text_exact false s = true ->
  scanstring (escape_text s +:+ String quote rest) = Some (s, rest).
Proof.
  intros Hv. apply (scanstring_escape_exact_from rest (String.length s) s false); auto.
Qed.

(** Well-formed UTF-8 holds no surrogate. *)
Lemma utf8_valid_exact (s : string) : utf8_valid s = true -> text_exact false s = true.
Proof.
  assert (Hall : forall n s, (String.length s <= n)%nat -> utf8_valid s = true ->
                 text_exact false s = true).
  { clear s. induction n as [|n IH]; intros s Hlen Hv.
    - destruct s; [reflexivity|cbn in Hlen; lia].
    - destruct s as [|a r]; [reflexivity|]. cbn [String.length] in Hlen.
      cbn [utf8_valid] in Hv. cbn [text_exact].
      destruct (byte_in 0 127 a); [apply IH; [lia|assumption]|].
      destruct r as [|b r1]; [discriminate|]. cbn [String.length] in Hlen.
      destruct (byte_in 194 223 a).
      { apply andb_prop in Hv as [-> Hv]. apply IH; [lia|assumption]. }
      destruct r1 as [|c r2]; [discriminate|]. cbn [String.length] in Hlen.
      destruct (byte_in 224 239 a).
      { apply andb_prop in Hv as [Hv Hv2]. apply andb_prop in Hv as [Hb ->].
        cbn [andb negb].
        destruct (byte_in 224 224 a) eqn:He0.
        { apply byte_in_spec in He0. rewrite (proj2 (byte_in_false 237 237 a)) by lia.
          rewrite Hb. apply IH; [lia|assumption]. }
        destruct (byte_in 237 237 a) eqn:Hed.
        - apply byte_in_spec in Hb.
          rewrite (proj2 (byte_in_spec 128 191 b)) by lia.
          rewrite (proj2 (byte_in_false 160 175 b)) by lia.
          apply IH; [lia|assumption].
        - rewrite Hb. apply IH; [lia|assumption]. }
      destruct r2 as [|d r3]; [discriminate|]. cbn [String.length] in Hlen.
      apply andb_prop in Hv as [-> Hv]. apply IH; [lia|assumption]. }
  intros Hv. apply (Hall (String.length s)); [lia|exact Hv].
Qed.

(** ** The model on examples *)

Example utf8_valid_examples :
  utf8_valid "abc" = true
  /\ utf8_valid (String "195" (String "169" EmptyString)) = true
  /\ utf8_valid (String "226" (String "130" (String "172" EmptyString))) = true
  /\ utf8_valid (String "240" (String "159" (String "152" (String "128" EmptyString)))) = true
  /\ utf8_valid (String "195" EmptyString) = false
  /\ utf8_valid (String "255" EmptyString) = false
  /\ utf8_valid (String "192" (String "128" EmptyString)) = false
  /\ utf8_valid (String "237" (String "160" (String "128" EmptyString))) = false
  /\ utf8_valid (String "244" (String "144" (String "128" (String "128" EmptyString)))) = false.
Proof. vm_compute. repeat split. Qed.

Example dumps_examples :
  dumps (PyDict [(PyStr "y", PyInt 2)]) = Returns text_y2
  /\ dumps (PyDict [(PyInt 1, PyInt 2)]) = Returns text_key1
  /\ dumps (PyList [PyNone; PyBool true; PyInt (-15); PyTuple []])
     = Returns "[null, true, -15, []]"
  /\ dumps (PyStr (String "195" (String "169" (String "010" EmptyString))))
     = Returns (jstr (String backslash "u00e9" +:+ String backslash "n"))
  /\ dumps (PyStr (String "240" (String "159" (String "152" (String "128" EmptyString)))))
     = Returns (jstr (String backslash "ud83d" +:+ String backslash "ude00"))
  /\ dumps (PyDict [(PyStr "a", PyBytes "x")])
     = Raises (Exn "TypeError" "Object is not JSON serializable")
  /\ dumps (PyDict [(PyTuple [], PyInt 1)])
     = Raises (Exn "TypeError" "Object is not JSON serializable").
Proof. vm_compute. repeat split. Qed.

Example loads_examples :
  loads text_x1 = Returns (PyDict [(PyStr "x", PyInt 1)])
  /\ loads text_array = Returns (PyList [PyInt 1; PyInt 2])
  /\ loads " [ 0 , -0, 1.5e3, null, true, false, {}, [] ] "
     = Returns (PyList [PyInt 0; PyInt 0; PyFloat "1.5e3"; PyNone; PyBool true;
                        PyBool false; PyDict []; PyList []])
  /\ loads ("{" +:+ jstr "a" +:+ ": 1, " +:+ jstr "b" +:+ ": 2, " +:+ jstr "a" +:+ ": 3}")
     = Returns (PyDict [(PyStr "a", PyInt 3); (PyStr "b", PyInt 2)])
  /\ loads (jstr (String backslash "u00e9" +:+ String backslash "n"))
     = Returns (PyStr (String "195" (String "169" (String "010" EmptyString))))
  /\ loads "null" = Returns PyNone
  /\ loads "01" = Raises (Exn "JSONDecodeError" "Expecting value")
  /\ loads "[1,]" = Raises (Exn "JSONDecodeError" "Expecting value")
  /\ loads "{x: 1}" = Raises (Exn "JSONDecodeError" "Expecting value")
  /\ loads EmptyString = Raises (Exn "JSONDecodeError" "Expecting value").
Proof. vm_compute. repeat split. Qed.

Example int_examples :
  map PyJson.int ["6379"; " 12 "; "+5"; "-5"; "5_0"; "007"]
  = [Some 6379; Some 12; Some 5; Some (-5); Some 50; Some 7]
  /\ map PyJson.int ["_5"; "5_"; "5__0"; "0x10"; "1e3"; "+-5"; "- 5"; "-"; "6379a"; "six";
                     EmptyString; String "028" "5"]
     = [None; None; None; None; None; None; None; None; None; None; None; None].
Proof. vm_compute. repeat split. Qed.

(** ** Integers *)

Lemma digit_cases (a : ascii) :
  is_digit a = true ->
  a = "0"%char \/ a = "1"%char \/ a = "2"%char \/ a = "3"%char \/ a = "4"%char
  \/ a = "5"%char \/ a = "6"%char \/ a = "7"%char \/ a = "8"%char \/ a = "9"%char.
Proof.
  destruct a as [b0 b1 b2 b3 b4 b5 b6 b7].
  destruct b0, b1, b2, b3, b4, b5, b6, b7; cbv; intros Hd; try discriminate Hd; tauto.
Qed.

Lemma delimited_cases (rest : string) :
  delimited rest = true ->
  rest = EmptyString
  \/ exists c r, rest = String c r /\ (c = ","%char \/ c = "]"%char \/ c = "}"%char).
Proof.
  destruct rest as [|c r]; [auto|]. cbn [delimited]. intros Hd. right. exists c, r.
  split; [reflexivity|].
  destruct (Ascii.eqb_spec c ","); [auto|].
  destruct (Ascii.eqb_spec c "]"); [auto|].
  destruct (Ascii.eqb_spec c "}"); [auto|]. discriminate.
Qed.

Lemma span_digits_uint (d : Decimal.uint) (rest : string) :
  delimited rest = true ->
  span_digits (NilEmpty.string_of_uint d +:+ rest) = (NilEmpty.string_of_uint d, rest).
Proof.
  intros Hd. induction d; cbn [NilEmpty.string_of_uint];
    rewrite ?app_cons; try (cbn [span_digits]; rewrite IHd; reflexivity).
  apply delimited_cases in Hd as [->|[c [r [-> [->|[->| ->]]]]]]; reflexivity.
Qed.

Lemma nzhead_not_D0 (d d' : Decimal.uint) : Decimal.nzhead d <> Decimal.D0 d'.
Proof. induction d; cbn; try discriminate. exact IHd. Qed.

Lemma to_uint_head (p : positive) :
  exists a r, NilEmpty.string_of_uint (Pos.to_uint p) = String a r
              /\ is_digit a = true /\ Ascii.eqb a "0" = false.
Proof.
  pose proof (DecimalPos.Unsigned.to_of (Pos.to_uint p)) as Hn.
  rewrite DecimalPos.Unsigned.of_to in Hn. cbn [N.to_uint] in Hn.
  pose proof (DecimalPos.Unsigned.to_uint_nonzero p) as Hz.
  unfold Decimal.unorm in Hn.
  pose proof (nzhead_not_D0 (Pos.to_uint p)) as Hh.
  destruct (Decimal.nzhead (Pos.to_uint p)) eqn:Hnz; rewrite Hn in *;
    try (eexists _, _; split; [reflexivity|split; reflexivity]).
  - exfalso. apply Hz. reflexivity.
  - exfalso. eapply Hh. reflexivity.
Qed.

Lemma uint_value_to_uint (p : positive) :
  uint_value (NilEmpty.string_of_uint (Pos.to_uint p)) = Z.pos p.
Proof.
  unfold uint_value. rewrite NilEmpty.usu. unfold Z.of_uint.
  rewrite DecimalPos.Unsigned.of_to. reflexivity.
Qed.

Lemma str_of_int_pos (p : positive) :
  str_of_int (Z.pos p) = NilEmpty.string_of_uint (Pos.to_uint p).
Proof.
  unfold str_of_int. cbn [Z.to_int NilZero.string_of_int]. unfold NilZero.string_of_uint.
  pose proof (DecimalPos.Unsigned.to_uint_nonnil p) as Hn.
  destruct (Pos.to_uint p); [contradiction|reflexivity..].
Qed.

Lemma str_of_int_neg (p : positive) :
  str_of_int (Z.neg p) = String "-" (NilEmpty.string_of_uint (Pos.to_uint p)).
Proof.
  unfold str_of_int. cbn [Z.to_int NilZero.string_of_int]. unfold NilZero.string_of_uint.
  pose proof (DecimalPos.Unsigned.to_uint_nonnil p) as Hn.
  destruct (Pos.to_uint p); [contradiction|reflexivity..].
Qed.

Lemma scan_frac_delimited (rest : string) :
  delimited rest = true -> scan_frac rest = (EmptyString, rest).
Proof.
  intros Hd. apply delimited_cases in Hd as [->|[c [r [-> [->|[->| ->]]]]]];
    try reflexivity; destruct r; reflexivity.
Qed.

Lemma scan_exp_delimited (rest : string) :
  delimited rest = true -> scan_exp rest = (EmptyString, rest).
Proof.
  intros Hd. apply delimited_cases in Hd as [->|[c [r [-> [->|[->| ->]]]]]];
    try reflexivity; destruct r; reflexivity.
Qed.

(** The digits of a positive number are scanned whole. *)
Lemma scan_uint_to_uint (p : positive) (rest : string) :
  delimited rest = true ->
  scan_uint (NilEmpty.string_of_uint (Pos.to_uint p) +:+ rest)
  = Some (NilEmpty.string_of_uint (Pos.to_uint p), rest).
Proof.
  intros Hd. pose proof (span_digits_uint (Pos.to_uint p) rest Hd) as Hspan.
  destruct (to_uint_head p) as [a [r [Hs [Hdig Hz]]]]. rewrite Hs in *.
  rewrite app_cons in *. unfold scan_uint. rewrite Hz, Hdig, Hspan. reflexivity.
Qed.

Lemma digit_not_minus (a : ascii) : is_digit a = true -> Ascii.eqb a "-" = false.
Proof. intros Hd. apply digit_cases in Hd. decompose [or] Hd; subst; reflexivity. Qed.

Lemma scan_int_str_of_int (n : Z) (rest : string) :
  delimited rest = true ->
  scan_int (str_of_int n +:+ rest) = Some (str_of_int n, rest).
Proof.
  intros Hd. destruct n as [|p|p].
  - reflexivity.
  - rewrite str_of_int_pos. pose proof (scan_uint_to_uint p rest Hd) as Hscan.
    destruct (to_uint_head p) as [a [r [Hs [Hdig Hz]]]]. rewrite Hs in *.
    rewrite app_cons in *. unfold scan_int. rewrite (digit_not_minus a Hdig). exact Hscan.
  - rewrite str_of_int_neg, app_cons. unfold scan_int. cbn [Ascii.eqb Bool.eqb].
    rewrite (scan_uint_to_uint p rest Hd). reflexivity.
Qed.

Lemma int_value_str_of_int (n : Z) : int_value (str_of_int n) = n.
Proof.
  destruct n as [|p|p].
  - reflexivity.
  - rewrite str_of_int_pos. pose proof (uint_value_to_uint p) as Hv.
    destruct (to_uint_head p) as [a [r [Hs [Hdig Hz]]]]. rewrite Hs in *.
    unfold int_value. rewrite (digit_not_minus a Hdig). exact Hv.
  - rewrite str_of_int_neg. unfold int_value. cbn [Ascii.eqb Bool.eqb].
    rewrite uint_value_to_uint. reflexivity.
Qed.

Lemma parse_number_str_of_int (n : Z) (rest : string) :
  delimited rest = true ->
  parse_number (str_of_int n +:+ rest) = Some (PyInt n, rest).
Proof.
  intros Hd. unfold parse_number. rewrite (scan_int_str_of_int n rest Hd).
  cbv beta iota zeta. rewrite (scan_frac_delimited rest Hd). cbn [fst snd].
  rewrite (scan_exp_delimited rest Hd). cbn [fst snd append].
  rewrite int_value_str_of_int. reflexivity.
Qed.

(** The text of an integer starts with a minus sign or a digit. *)
Lemma str_of_int_head (n : Z) :
  exists a r, str_of_int n = String a r /\ (a = "-"%char \/ is_digit a = true).
Proof.
  destruct n as [|p|p].
  - exists "0"%char, EmptyString. split; [reflexivity|right; reflexivity].
  - rewrite str_of_int_pos. destruct (to_uint_head p) as [a [r [Hs [Hdig Hz]]]].
    exists a, r. auto.
  - rewrite str_of_int_neg. eexists _, _. split; [reflexivity|left; reflexivity].
Qed.

(** A text that starts like a number and is one is scanned as it. *)
Lemma scan_once_number (fuel : nat) (a : ascii) (r : string) (res : PyVal * string) :
  a = "-"%char \/ is_digit a = true ->
  parse_number (String a r) = Some res ->
  scan_once (S fuel) (String a r) = Some res.
Proof.
  intros Ha Hp.
  assert (Hc : a = "-"%char \/ a = "0"%char \/ a = "1"%char \/ a = "2"%char
               \/ a = "3"%char \/ a = "4"%char \/ a = "5"%char \/ a = "6"%char
               \/ a = "7"%char \/ a = "8"%char \/ a = "9"%char).
  { destruct Ha as [Ha|Ha]; [auto|]. right. apply digit_cases, Ha. }
  decompose [or] Hc; subst a;
    cbn -[parse_number]; rewrite Hp; reflexivity.
Qed.

Lemma scan_once_int (fuel : nat) (n : Z) (rest : string) :
  delimited rest = true ->
  scan_once (S fuel) (str_of_int n +:+ rest) = Some (PyInt n, rest).
Proof.
  intros Hd. pose proof (parse_number_str_of_int n rest Hd) as Hp.
  destruct (str_of_int_head n) as [a [r [Hs Ha]]]. rewrite Hs in *.
  rewrite app_cons in *. apply scan_once_number; assumption.
Qed.

(** ** Values *)

Lemma skip_ws_starts (t : string) : starts_value t = true -> skip_ws t = t.
Proof.
  destruct t as [|a r]; [discriminate|]. cbn [starts_value skip_ws].
  destruct (is_ws a); [discriminate|reflexivity].
Qed.

Lemma skip_ws_comma (t : string) :
  skip_ws (", " +:+ t) = String "," (String " " t).
Proof. reflexivity. Qed.

Lemma skip_ws_colon (t : string) :
  skip_ws (": " +:+ t) = String ":" (String " " t).
Proof. reflexivity. Qed.

Lemma skip_ws_space (t : string) : skip_ws (String " " t) = skip_ws t.
Proof. reflexivity. Qed.

Lemma starts_value_app (t u : string) :
  starts_value t = true -> starts_value (t +:+ u) = true.
Proof. destruct t; [discriminate|]. intros Hs. exact Hs. Qed.

Lemma concat_cons2 (sep t t' : string) (ts : list string) :
  String.concat sep (t :: t' :: ts) = t +:+ sep +:+ String.concat sep (t' :: ts).
Proof. reflexivity. Qed.

(** The elements of a non-empty array are read back one after the
    other. *)
Lemma elements_read_back (items : list PyVal) (texts : list string) :
  Forall2 reads_back items texts ->
  items <> [] ->
  starts_value (String.concat ", " texts) = true
  /\ (list_sum (map (fun x => S (size x)) items)
      <= S (String.length (String.concat ", " texts)))%nat
  /\ forall fuel rest,
      (list_sum (map (fun x => S (size x)) items) <= fuel)%nat ->
      elements fuel (String.concat ", " texts +:+ String "]" rest) = Some (items, rest).
Proof.
  induction 1 as [|v t vs ts [Hstart [Hsize Hread]] Hrest IH]; [congruence|]. intros _.
  destruct Hrest as [|v' t' vs' ts' Hv' Hrest'].
  - cbn [String.concat map list_sum]. split; [exact Hstart|].
    split; [unfold list_sum; cbn [map fold_right]; lia|].
    intros fuel rest Hfuel. unfold list_sum in *. cbn [map fold_right] in Hfuel.
    destruct fuel as [|fuel]; [lia|].
    cbn [elements]. rewrite Hread by (reflexivity || lia).
    reflexivity.
  - destruct IH as [IHstart [IHsize IHread]]; [discriminate|].
    rewrite concat_cons2. split; [apply starts_value_app, Hstart|].
    split.
    { rewrite !app_length. unfold list_sum in *. cbn [map fold_right] in *.
      cbn [String.length]. lia. }
    intros fuel rest Hfuel. unfold list_sum in *. cbn [map fold_right] in Hfuel.
    destruct fuel as [|fuel]; [lia|].
    cbn [elements]. rewrite !app_assoc.
    rewrite Hread by (reflexivity || lia).
    rewrite skip_ws_comma. cbn [Ascii.eqb Bool.eqb]. cbv beta iota.
    rewrite skip_ws_space, (skip_ws_starts _ (starts_value_app _ _ IHstart)).
    rewrite IHread by (cbn [map fold_right]; lia). reflexivity.
Qed.
Lemma encode_str_app (k rest : string) :
  encode_str k +:+ rest = String quote (escape_text k +:+ String quote rest).
Proof. unfold encode_str. rewrite app_cons, app_assoc. reflexivity. Qed.

Lemma member_starts (kv : PyVal * PyVal) (t : string) :
  member_reads_back kv t -> starts_value t = true.
Proof. intros [k [tv [_ [_ [_ ->]]]]]. reflexivity. Qed.

(** The members of a non-empty object are read back one after the
    other. *)
Lemma members_read_back (items : list (PyVal * PyVal)) (texts : list string) :
  Forall2 member_reads_back items texts ->
  items <> [] ->
  starts_value (String.concat ", " texts) = true
  /\ (list_sum (map (fun kv : PyVal * PyVal => let (_, x) := kv in S (size x)) items)
      <= S (String.length (String.concat ", " texts)))%nat
  /\ forall fuel rest,
      (list_sum (map (fun kv : PyVal * PyVal => let (_, x) := kv in S (size x)) items)
       <= fuel)%nat ->
      members fuel (String.concat ", " texts +:+ String "}" rest)
      = Some (map (fun kv => (str_key kv, kv.2)) items, rest).
Proof.
  induction 1 as [|kv t kvs ts Hkv Hrest IH]; [congruence|]. intros _.
  pose proof (member_starts kv t Hkv) as Hstart.
  destruct Hkv as [k [tv [Hk [Hascii [[Htv [Hsize Hread]] ->]]]]].
  destruct kv as [k0 v]. cbn [fst snd] in *. subst k0.
  destruct Hrest as [|kv' t' kvs' ts' Hkv' Hrest'].
  - cbn [String.concat]. split; [exact Hstart|].
    split; [rewrite !app_length; unfold list_sum; cbn [map fold_right]; lia|].
    intros fuel rest Hfuel. unfold list_sum in *. cbn [map fold_right] in Hfuel.
    destruct fuel as [|fuel]; [lia|].
    rewrite !app_assoc, encode_str_app. cbn [members].
    change (Ascii.eqb quote quote) with true. cbv beta iota.
    rewrite (scanstring_escape_exact k _ Hascii), skip_ws_colon.
    cbn [Ascii.eqb Bool.eqb]. cbv beta iota.
    rewrite skip_ws_space, (skip_ws_starts _ (starts_value_app _ _ Htv)).
    rewrite Hread by (reflexivity || lia). reflexivity.
  - destruct IH as [IHstart [IHsize IHread]]; [discriminate|].
    rewrite concat_cons2. split; [apply starts_value_app, Hstart|].
    split.
    { rewrite !app_length. unfold list_sum in *. cbn [map fold_right] in *.
      cbn [String.length]. lia. }
    intros fuel rest Hfuel. unfold list_sum in *. cbn [map fold_right] in Hfuel.
    destruct fuel as [|fuel]; [lia|].
    rewrite !app_assoc, encode_str_app. cbn [members].
    change (Ascii.eqb quote quote) with true. cbv beta iota.
    rewrite (scanstring_escape_exact k _ Hascii), skip_ws_colon.
    cbn [Ascii.eqb Bool.eqb]. cbv beta iota.
    rewrite skip_ws_space, (skip_ws_starts _ (starts_value_app _ _ Htv)).
    rewrite Hread by (reflexivity || lia).
    rewrite skip_ws_comma. cbn [Ascii.eqb Bool.eqb]. cbv beta iota.
    rewrite skip_ws_space, (skip_ws_starts _ (starts_value_app _ _ IHstart)).
    rewrite IHread by (cbn [map fold_right]; lia). reflexivity.
Qed.

(** ** Dicts *)

Lemma dict_set_fresh (acc : list (PyVal * PyVal)) (k : string) (v : PyVal) :
  existsb (String.eqb k) (map str_key acc) = false ->
  dict_set acc k v = (acc ++ [(PyStr k, v)])%list.
Proof.
  induction acc as [|[k' v'] acc IH]; [reflexivity|].
  cbn [map existsb dict_set app]. intros Hf. apply orb_false_elim in Hf as [Hk Hf].
  rewrite IH by exact Hf.
  destruct k'; try reflexivity. unfold str_key in Hk. cbn [fst] in Hk.
  rewrite String.eqb_sym, Hk. reflexivity.
Qed.

Lemma distinct_app_fresh (l1 l2 : list string) (x : string) :
  distinct (l1 ++ x :: l2)%list = true -> existsb (String.eqb x) l1 = false.
Proof.
  induction l1 as [|y l1 IH]; [reflexivity|].
  cbn [app distinct existsb]. intros Hd. apply andb_prop in Hd as [Hy Hd].
  rewrite (IH Hd), orb_false_r. apply negb_true_iff in Hy.
  rewrite existsb_app in Hy. apply orb_false_elim in Hy as [_ Hy].
  cbn [existsb] in Hy. apply orb_false_elim in Hy as [Hy _].
  rewrite String.eqb_sym. exact Hy.
Qed.

Lemma dict_of_items (items acc : list (PyVal * PyVal)) :
  forallb (fun kv : PyVal * PyVal => exact_key kv.1) items = true ->
  distinct (map str_key (acc ++ items)%list) = true ->
  fold_left (fun d (kv : string * PyVal) => dict_set d kv.1 kv.2)
            (map (fun kv => (str_key kv, kv.2)) items) acc
  = (acc ++ items)%list.
Proof.
  revert acc. induction items as [|[k v] items IH]; intros acc Hkeys Hd.
  - cbn. now rewrite List.app_nil_r.
  - cbn [forallb fst] in Hkeys. apply andb_prop in Hkeys as [Hk Hkeys].
    destruct k; try discriminate. cbn [map fold_left fst snd]. unfold str_key at 1.
    cbn [fst]. rewrite map_app in Hd. cbn [map] in Hd.
    rewrite dict_set_fresh by (eapply distinct_app_fresh; exact Hd).
    rewrite IH; [now rewrite <- List.app_assoc|exact Hkeys|].
    rewrite <- List.app_assoc, map_app. exact Hd.
Qed.
(** ** Floats *)

Lemma delimited_not_digit (c : ascii) (r : string) :
  delimited (String c r) = true -> is_digit c = false.
Proof.
  intros Hd. apply delimited_cases in Hd as [Hd|[c' [r' [[= -> ->] [->|[->| ->]]]]]];
    [discriminate|reflexivity..].
Qed.

Lemma span_digits_app (s rest : string) :
  delimited rest = true ->
  span_digits (s +:+ rest) = ((span_digits s).1, (span_digits s).2 +:+ rest).
Proof.
  intros Hd. induction s as [|a s IH].
  - cbn [span_digits fst snd]. change (EmptyString +:+ rest) with rest.
    destruct rest as [|c r]; [reflexivity|]. cbn [span_digits].
    rewrite (delimited_not_digit c r Hd). reflexivity.
  - rewrite app_cons. cbn [span_digits]. destruct (is_digit a); [|reflexivity].
    rewrite IH. destruct (span_digits s). reflexivity.
Qed.

Lemma scan_uint_app (s rest digits r : string) :
  delimited rest = true ->
  scan_uint s = Some (digits, r) -> scan_uint (s +:+ rest) = Some (digits, r +:+ rest).
Proof.
  intros Hd. destruct s as [|a s]; [discriminate|]. rewrite app_cons. cbn [scan_uint].
  destruct (Ascii.eqb a "0"); [intros [= <- <-]; reflexivity|].
  destruct (is_digit a); [|discriminate].
  intros Hs. assert (Hs' : span_digits (String a s) = (digits, r)) by congruence.
  rewrite <- app_cons, span_digits_app by exact Hd.
  rewrite Hs'. reflexivity.
Qed.

Lemma scan_int_app (s rest digits r : string) :
  delimited rest = true ->
  scan_int s = Some (digits, r) -> scan_int (s +:+ rest) = Some (digits, r +:+ rest).
Proof.
  intros Hd. destruct s as [|a s]; [discriminate|]. rewrite app_cons. cbn [scan_int].
  destruct (Ascii.eqb a "-").
  - destruct (scan_uint s) as [[d r']|] eqn:Hs; [|discriminate].
    intros [= <- <-]. rewrite (scan_uint_app _ _ _ _ Hd Hs). reflexivity.
  - rewrite <- app_cons. apply scan_uint_app, Hd.
Qed.

Lemma scan_frac_app (s rest : string) :
  delimited rest = true ->
  scan_frac (s +:+ rest) = ((scan_frac s).1, (scan_frac s).2 +:+ rest).
Proof.
  intros Hd. destruct s as [|p [|d r]].
  - change (EmptyString +:+ rest) with rest. rewrite (scan_frac_delimited rest Hd).
    reflexivity.
  - rewrite app_cons. change (EmptyString +:+ rest) with rest.
    destruct rest as [|c r']; [reflexivity|]. cbn [scan_frac fst snd].
    rewrite (delimited_not_digit c r' Hd), andb_false_r. reflexivity.
  - rewrite !app_cons. cbn [scan_frac].
    destruct (Ascii.eqb p "." && is_digit d); [|reflexivity].
    rewrite <- app_cons, span_digits_app by exact Hd.
    destruct (span_digits (String d r)). reflexivity.
Qed.

Lemma scan_exp_app (s rest : string) :
  delimited rest = true ->
  scan_exp (s +:+ rest) = ((scan_exp s).1, (scan_exp s).2 +:+ rest).
Proof.
  intros Hd. destruct s as [|e [|x r]].
  - change (EmptyString +:+ rest) with rest. rewrite (scan_exp_delimited rest Hd).
    reflexivity.
  - rewrite app_cons. change (EmptyString +:+ rest) with rest.
    destruct rest as [|c r']; [reflexivity|]. cbn [scan_exp fst snd].
    pose proof (delimited_not_digit c r' Hd) as Hc. rewrite Hc.
    destruct (Ascii.eqb e "e" || Ascii.eqb e "E"); [|reflexivity].
    apply delimited_cases in Hd as [Hd|[c' [r'' [[= -> ->] [->|[->| ->]]]]]];
      [discriminate|reflexivity..].
  - rewrite !app_cons. cbn [scan_exp].
    destruct (Ascii.eqb e "e" || Ascii.eqb e "E"); [|reflexivity].
    destruct (is_digit x).
    { rewrite <- app_cons, span_digits_app by exact Hd.
      destruct (span_digits (String x r)). reflexivity. }
    destruct (Ascii.eqb x "+" || Ascii.eqb x "-"); [|reflexivity].
    destruct r as [|d r].
    + change (EmptyString +:+ rest) with rest.
      destruct rest as [|c r']; [reflexivity|].
      rewrite (delimited_not_digit c r' Hd). reflexivity.
    + rewrite app_cons. destruct (is_digit d); [|reflexivity].
      rewrite <- app_cons, span_digits_app by exact Hd.
      destruct (span_digits (String d r)). reflexivity.
Qed.

(** A number is read the same in front of a delimiter. *)
Lemma parse_number_app (s rest r : string) (v : PyVal) :
  delimited rest = true ->
  parse_number s = Some (v, r) -> parse_number (s +:+ rest) = Some (v, r +:+ rest).
Proof.
  intros Hd. unfold parse_number.
  destruct (scan_int s) as [[i r1]|] eqn:Hi; [|discriminate].
  rewrite (scan_int_app _ _ _ _ Hd Hi). cbv zeta.
  rewrite (scan_frac_app r1 rest Hd). cbn [fst snd].
  rewrite (scan_exp_app (scan_frac r1).2 rest Hd). cbn [fst snd].
  destruct ((scan_frac r1).1 +:+ (scan_exp (scan_frac r1).2).1);
    intros [= <- <-]; reflexivity.
Qed.

Lemma scan_int_head (s digits r : string) :
  scan_int s = Some (digits, r) ->
  exists a s', s = String a s' /\ (a = "-"%char \/ is_digit a = true).
Proof.
  destruct s as [|a s']; [discriminate|]. intros Hs. exists a, s'. split; [reflexivity|].
  cbn [scan_int] in Hs. destruct (Ascii.eqb_spec a "-"); [auto|].
  cbn [scan_uint] in Hs. destruct (Ascii.eqb_spec a "0"); [subst; auto|].
  destruct (is_digit a); [auto|discriminate].
Qed.

Lemma span_digits_drop (s : string) :
  (span_digits s).1 +:+ (span_digits s).2 = s /\ (span_digits s).2 = drop_digits s.
Proof.
  induction s as [|a s [IH1 IH2]]; [split; reflexivity|].
  cbn [span_digits drop_digits]. destruct (is_digit a); [|split; reflexivity].
  destruct (span_digits s) as [digits rest]. cbn [fst snd] in *.
  rewrite app_cons, IH1. auto.
Qed.

Lemma span_digits_all (s : string) :
  drop_digits s = EmptyString -> span_digits s = (s, EmptyString).
Proof.
  intros Hd. destruct (span_digits_drop s) as [H1 H2]. rewrite Hd in H2.
  destruct (span_digits s) as [digits rest]. cbn [fst snd] in *. subst rest.
  rewrite app_nil_r in H1. subst digits. reflexivity.
Qed.

Lemma drop_digits_head (s : string) (a : ascii) (r : string) :
  drop_digits s = String a r -> is_digit a = false.
Proof.
  induction s as [|b s IH]; [discriminate|]. cbn [drop_digits].
  destruct (is_digit b) eqn:Hb; [exact IH|]. intros [= <- <-]. exact Hb.
Qed.

(** An exponent up to the end of the text is scanned whole. *)
Lemma scan_exp_exponent (s : string) :
  exponent s = true -> scan_exp s = (s, EmptyString) /\ s <> EmptyString.
Proof.
  destruct s as [|e [|x r]]; try discriminate. cbn [exponent scan_exp].
  intros [He Hx]%andb_prop. rewrite He. split; [|discriminate].
  destruct (is_digit x) eqn:Hdx.
  - destruct (Ascii.eqb x "+" || Ascii.eqb x "-") eqn:Hs.
    { apply orb_prop in Hs as [Hs|Hs]; apply Ascii.eqb_eq in Hs; subst x; discriminate. }
    apply String.eqb_eq in Hx.
    assert (Hsp : span_digits (String x r) = (String x r, EmptyString)).
    { apply span_digits_all. cbn [drop_digits]. rewrite Hdx. exact Hx. }
    rewrite Hsp. reflexivity.
  - destruct (Ascii.eqb x "+" || Ascii.eqb x "-"); [|discriminate].
    destruct r as [|d r']; [discriminate|]. apply andb_prop in Hx as [Hd Hx].
    rewrite Hd. apply String.eqb_eq in Hx.
    assert (Hsp : span_digits (String d r') = (String d r', EmptyString)).
    { apply span_digits_all. cbn [drop_digits]. rewrite Hd. exact Hx. }
    rewrite Hsp. reflexivity.
Qed.

Lemma scan_frac_exp (s : string) :
  fraction_or_exponent s = true ->
  (scan_exp (scan_frac s).2).2 = EmptyString
  /\ (scan_frac s).1 +:+ (scan_exp (scan_frac s).2).1 = s
  /\ s <> EmptyString.
Proof.
  destruct s as [|p [|d r]]; try discriminate. cbn [fraction_or_exponent scan_frac].
  destruct (Ascii.eqb p ".") eqn:Hp.
  - intros [Hd Hrest]%andb_prop. rewrite Hd. cbn [andb].
    destruct (span_digits_drop (String d r)) as [H1 H2].
    cbn [drop_digits] in H2. rewrite Hd in H2.
    destruct (span_digits (String d r)) as [digits rest]. cbn [fst snd] in *.
    split; [|split; [|discriminate]].
    + apply orb_prop in Hrest as [Hrest|Hrest].
      * apply String.eqb_eq in Hrest. rewrite H2, Hrest. reflexivity.
      * rewrite H2. destruct (scan_exp_exponent _ Hrest) as [-> _]. reflexivity.
    + apply orb_prop in Hrest as [Hrest|Hrest].
      * apply String.eqb_eq in Hrest. rewrite H2, Hrest in *. cbn [scan_exp fst].
        rewrite app_nil_r in *. congruence.
      * rewrite H2 in *. destruct (scan_exp_exponent _ Hrest) as [-> _]. cbn [fst].
        rewrite app_cons. now f_equal.
  - cbn [andb]. intros He. change (exponent (String p (String d r)) = true) in He.
    destruct (scan_exp_exponent _ He) as [Hs _]. cbn [fst snd]. rewrite Hs.
    split; [reflexivity|]. split; [reflexivity|discriminate].
Qed.

Lemma parse_number_float (i r : string) :
  scan_int (i +:+ r) = Some (i, r) ->
  fraction_or_exponent r = true ->
  parse_number (i +:+ r) = Some (PyFloat (i +:+ r), EmptyString).
Proof.
  intros Hi Hr. unfold parse_number. rewrite Hi. cbv zeta.
  destruct (scan_frac_exp r Hr) as [Hend [Hparts Hne]]. rewrite Hend, Hparts.
  destruct r; [congruence|]. reflexivity.
Qed.

Lemma scan_uint_literal (a : ascii) (r : string) :
  (if Ascii.eqb a "0" then fraction_or_exponent r
   else is_digit a && fraction_or_exponent (drop_digits r)) = true ->
  exists i rest,
    String a r = i +:+ rest /\ scan_uint (String a r) = Some (i, rest)
    /\ fraction_or_exponent rest = true.
Proof.
  cbn [scan_uint]. destruct (Ascii.eqb a "0") eqn:H0.
  - apply Ascii.eqb_eq in H0. subst a. intros Hr. exists "0", r. repeat split; auto.
  - intros [Ha Hr]%andb_prop. rewrite Ha.
    destruct (span_digits_drop (String a r)) as [H1 H2].
    cbn [drop_digits] in H2. rewrite Ha in H2.
    destruct (span_digits (String a r)) as [digits rest]. cbn [fst snd] in *.
    exists digits, rest. subst rest. repeat split; auto.
Qed.

(** A literal of a float is read as the float, whole. *)
Lemma float_literal_parses (lit : string) :
  float_literal lit = true ->
  lit = "Infinity" \/ lit = "-Infinity"
  \/ parse_number lit = Some (PyFloat lit, EmptyString).
Proof.
  unfold float_literal. intros Hf.
  apply orb_prop in Hf as [Hf|Hf]; [apply orb_prop in Hf as [Hf|Hf]|].
  - left. apply String.eqb_eq, Hf.
  - right. left. apply String.eqb_eq, Hf.
  - right. right. destruct lit as [|a r]; [discriminate|].
    destruct (Ascii.eqb a "-") eqn:Hm.
    + apply Ascii.eqb_eq in Hm. subst a. destruct r as [|b r]; [discriminate|].
      destruct (scan_uint_literal b r Hf) as [i [rest [Heq [Hscan Hrest]]]].
      rewrite Heq. rewrite <- app_cons.
      apply parse_number_float; [|exact Hrest].
      rewrite app_cons, <- Heq. cbn [scan_int Ascii.eqb Bool.eqb]. rewrite Hscan.
      reflexivity.
    + destruct (scan_uint_literal a r Hf) as [i [rest [Heq [Hscan Hrest]]]].
      rewrite Heq. apply parse_number_float; [|exact Hrest].
      rewrite <- Heq. cbn [scan_int]. rewrite Hm. exact Hscan.
Qed.
(** The literal of a float is read back as the float. *)
Lemma float_reads_back (lit : string) :
  float_literal lit = true -> reads_back (PyFloat lit) lit.
Proof.
  intros Hf. destruct (float_literal_parses lit Hf) as [->|[->|Hp]].
  - split; [reflexivity|]. split; [cbn; lia|].
    intros [|fuel] rest Hfuel Hd; [cbn in Hfuel; lia|]. reflexivity.
  - split; [reflexivity|]. split; [cbn; lia|].
    intros [|fuel] rest Hfuel Hd; [cbn in Hfuel; lia|]. reflexivity.
  - assert (Hhead : exists a s', lit = String a s' /\ (a = "-"%char \/ is_digit a = true)).
    { unfold parse_number in Hp. destruct (scan_int lit) as [[i r1]|] eqn:Hi; [|discriminate].
      eapply scan_int_head, Hi. }
    destruct Hhead as [a [s' [-> Ha]]].
    assert (Hstart : starts_value (String a s') = true).
    { destruct Ha as [->|Ha]; [reflexivity|].
      apply digit_cases in Ha. decompose [or] Ha; subst; reflexivity. }
    split; [exact Hstart|]. split; [cbn; lia|].
    intros [|fuel] rest Hfuel Hd; [cbn in Hfuel; lia|].
    rewrite app_cons. apply scan_once_number; [exact Ha|].
    rewrite <- app_cons. apply (parse_number_app _ rest _ _ Hd Hp).
Qed.

Example float_literal_examples :
  float_literal "25.45" = true
  /\ float_literal "-0.0" = true
  /\ float_literal "1e+16" = true
  /\ float_literal "1.5e-07" = true
  /\ float_literal "1.7976931348623157e+308" = true
  /\ float_literal "5e-324" = true
  /\ float_literal "Infinity" = true
  /\ float_literal "-Infinity" = true
  /\ float_literal "NaN" = false
  /\ float_literal "25" = false
  /\ float_literal "1." = false
  /\ float_literal "01.5" = false
  /\ float_literal "1.5x" = false.
Proof. repeat split; vm_compute; reflexivity. Qed.

(** ** The round trip *)

Lemma starts_value_cases (t : string) :
  starts_value t = true ->
  exists c r, t = String c r /\ is_ws c = false /\ Ascii.eqb c "]" = false
              /\ Ascii.eqb c "}" = false.
Proof.
  destruct t as [|c r]; [discriminate|]. cbn [starts_value]. intros Hs.
  exists c, r. destruct (is_ws c), (Ascii.eqb c "]"), (Ascii.eqb c "}");
    try discriminate. auto.
Qed.

Lemma str_of_int_starts (n : Z) : starts_value (str_of_int n) = true.
Proof.
  destruct (str_of_int_head n) as [a [r [-> [->|Ha]]]]; [reflexivity|].
  apply digit_cases in Ha. decompose [or] Ha; subst; reflexivity.
Qed.

Lemma length_pos_starts (t : string) :
  starts_value t = true -> (1 <= String.length t)%nat.
Proof. destruct t; [discriminate|]. cbn. lia. Qed.

Lemma traverse_read_back (items : list PyVal) :
  Forall (fun v => json_exact v = true ->
                   exists t, encode v = Some t /\ reads_back v t) items ->
  forallb json_exact items = true ->
  exists texts, traverse encode items = Some texts /\ Forall2 reads_back items texts.
Proof.
  induction 1 as [|v vs Hv _ IH]; intros Hn.
  - exists []. split; [reflexivity|constructor].
  - cbn [forallb] in Hn. apply andb_prop in Hn as [Hnv Hn].
    destruct (Hv Hnv) as [t [Ht Hr]]. destruct (IH Hn) as [ts [Hts Hrs]].
    exists (t :: ts). cbn [traverse]. rewrite Ht, Hts. split; [reflexivity|].
    constructor; assumption.
Qed.

Lemma traverse_members_read_back (items : list (PyVal * PyVal)) :
  Forall (fun kv : PyVal * PyVal =>
            json_exact kv.2 = true ->
            exists t, encode kv.2 = Some t /\ reads_back kv.2 t) items ->
  forallb (fun kv : PyVal * PyVal => let (k, x) := kv in exact_key k && json_exact x)
          items = true ->
  exists texts,
    traverse (fun kv : PyVal * PyVal =>
                let (k, x) := kv in
                match key_text k, encode x with
                | Some kt, Some text => Some (encode_str kt +:+ ": " +:+ text)
                | _, _ => None
                end) items = Some texts
    /\ Forall2 member_reads_back items texts
    /\ forallb (fun kv : PyVal * PyVal => exact_key kv.1) items = true.
Proof.
  induction 1 as [|[k v] kvs Hv _ IH]; intros Hn.
  - exists []. split; [reflexivity|]. split; [constructor|reflexivity].
  - cbn [forallb] in Hn. apply andb_prop in Hn as [Hkv Hn].
    apply andb_prop in Hkv as [Hk Hnv]. cbn [snd] in Hv.
    destruct (Hv Hnv) as [t [Ht Hr]]. destruct (IH Hn) as [ts [Hts [Hrs Hks]]].
    destruct k; try discriminate. cbn [exact_key] in Hk.
    exists ((encode_str s +:+ ": " +:+ t) :: ts). cbn [traverse key_text].
    rewrite Ht, Hts. split; [reflexivity|]. split.
    + constructor; [|assumption]. exists s, t. auto.
    + cbn [forallb fst exact_key]. rewrite Hk, Hks. reflexivity.
Qed.

(** Every exact value has a JSON text, and the decoder reads the text
    back as the value. *)
Theorem encode_reads_back (v : PyVal) :
  json_exact v = true -> exists t, encode v = Some t /\ reads_back v t.
Proof.
  induction v as [|b|n|lit|s|b|items IH|items IH|items IH] using PyVal_values_ind;
    intros Hn; try discriminate Hn.
  - exists "null". split; [reflexivity|]. split; [reflexivity|]. split; [cbn; lia|].
    intros [|fuel] rest Hf Hd; [cbn in Hf; lia|]. reflexivity.
  - destruct b.
    + exists "true". split; [reflexivity|]. split; [reflexivity|]. split; [cbn; lia|].
      intros [|fuel] rest Hf Hd; [cbn in Hf; lia|]. reflexivity.
    + exists "false". split; [reflexivity|]. split; [reflexivity|]. split; [cbn; lia|].
      intros [|fuel] rest Hf Hd; [cbn in Hf; lia|]. reflexivity.
  - exists (str_of_int n). split; [reflexivity|]. split; [apply str_of_int_starts|].
    split; [apply length_pos_starts, str_of_int_starts|].
    intros [|fuel] rest Hf Hd; [cbn in Hf; lia|]. apply scan_once_int, Hd.
  - cbn [json_exact] in Hn. exists lit. split; [reflexivity|].
    apply float_reads_back, Hn.
  - cbn [json_exact] in Hn. exists (encode_str s). split; [reflexivity|].
    split; [reflexivity|]. split; [unfold encode_str; cbn [size String.length]; lia|].
    intros [|fuel] rest Hf Hd; [cbn in Hf; lia|].
    rewrite encode_str_app. cbn [scan_once].
    change (Ascii.eqb quote quote) with true. cbv beta iota.
    rewrite (scanstring_escape_exact s rest Hn). reflexivity.
  - cbn [json_exact] in Hn.
    destruct (traverse_read_back items IH Hn) as [texts [Htexts Hrs]].
    exists ("[" +:+ String.concat ", " texts +:+ "]"). cbn [encode]. rewrite Htexts.
    split; [reflexivity|]. split; [reflexivity|].
    destruct items as [|v vs].
    + inversion Hrs; subst. split; [vm_compute; lia|].
      intros [|fuel] rest Hf Hd; [cbn in Hf; lia|]. reflexivity.
    + destruct (elements_read_back _ _ Hrs) as [Hstart [Hsize Hread]]; [discriminate|].
      split.
      { cbn [size]. rewrite !app_length. cbn [String.length]. lia. }
      intros [|fuel] rest Hf Hd; [cbn in Hf; lia|]. cbn [size] in Hf.
      rewrite !app_assoc, !app_char. cbn [scan_once Ascii.eqb Bool.eqb]. cbv beta iota.
      rewrite (skip_ws_starts _ (starts_value_app _ _ Hstart)).
      rewrite Hread by lia.
      destruct (starts_value_cases _ (starts_value_app _ (String "]" rest) Hstart))
        as [c [r [-> [_ [Hc _]]]]].
      rewrite Hc. reflexivity.
  - cbn [json_exact] in Hn. apply andb_prop in Hn as [Hn Hdist].
    destruct (traverse_members_read_back items IH Hn) as [texts [Htexts [Hrs Hkeys]]].
    exists ("{" +:+ String.concat ", " texts +:+ "}"). cbn [encode]. rewrite Htexts.
    split; [reflexivity|]. split; [reflexivity|].
    destruct items as [|kv kvs].
    + inversion Hrs; subst. split; [vm_compute; lia|].
      intros [|fuel] rest Hf Hd; [cbn in Hf; lia|]. reflexivity.
    + destruct (members_read_back _ _ Hrs) as [Hstart [Hsize Hread]]; [discriminate|].
      split.
      { cbn [size]. rewrite !app_length. cbn [String.length]. lia. }
      intros [|fuel] rest Hf Hd; [cbn in Hf; lia|]. cbn [size] in Hf.
      rewrite !app_assoc, !app_char. cbn [scan_once Ascii.eqb Bool.eqb]. cbv beta iota.
      rewrite (skip_ws_starts _ (starts_value_app _ _ Hstart)).
      rewrite Hread by lia.
      destruct (starts_value_cases _ (starts_value_app _ (String "}" rest) Hstart))
        as [c [r [-> [_ [_ Hc]]]]].
      rewrite Hc. unfold dict_of.
      rewrite (dict_of_items (kv :: kvs) [] Hkeys Hdist). reflexivity.
Qed.

(** [json.loads(json.dumps(v))] is [v] for an exact value. *)
Theorem loads_dumps_exact (v : PyVal) :
  json_exact v = true ->
  exists t, dumps v = Returns t /\ loads t = Returns v.
Proof.
  intros Hn. destruct (encode_reads_back v Hn) as [t [Ht [Hstart [Hsize Hread]]]].
  exists t. unfold dumps, loads, decode. rewrite Ht. split; [reflexivity|].
  rewrite (skip_ws_starts t Hstart).
  specialize (Hread (S (String.length t)) EmptyString). rewrite app_nil_r in Hread.
  rewrite Hread by (reflexivity || lia). reflexivity.
Qed.

Lemma ascii_text_exact (s : string) : ascii_text s = true -> text_exact false s = true.
Proof.
  induction s as [|a s IH]; [reflexivity|]. cbn [ascii_text].
  intros [Ha Hs]%andb_prop.
  assert (Hb : byte_in 0 127 a = true).
  { unfold byte_in. apply andb_true_intro. apply N.ltb_lt in Ha.
    split; apply N.leb_le; lia. }
  cbn [text_exact]. rewrite Hb. auto.
Qed.

(** The native values are exact. *)
Lemma json_native_exact (v : PyVal) : json_native v = true -> json_exact v = true.
Proof.
  induction v as [|b|n|lit|s|b|items IH|items IH|items IH] using PyVal_values_ind;
    intros Hn; try discriminate Hn; try reflexivity.
  - apply ascii_text_exact, Hn.
  - cbn [json_native json_exact] in *. induction IH as [|v vs Hv _ IHvs]; [reflexivity|].
    cbn [forallb] in *. apply andb_prop in Hn as [Hnv Hn].
    rewrite (Hv Hnv), (IHvs Hn). reflexivity.
  - cbn [json_native json_exact] in *. apply andb_prop in Hn as [Hn ->].
    rewrite andb_true_r. induction IH as [|[k v] kvs Hv _ IHkvs]; [reflexivity|].
    cbn [forallb] in *. apply andb_prop in Hn as [Hkv Hn].
    apply andb_prop in Hkv as [Hk Hnv]. cbn [snd] in Hv.
    rewrite (Hv Hnv), (IHkvs Hn), andb_true_r.
    destruct k; try discriminate Hk. cbn [ascii_key exact_key] in *.
    rewrite (ascii_text_exact _ Hk). reflexivity.
Qed.

(** [json.loads(json.dumps(v))] is [v] for a native value. *)
Theorem loads_dumps (v : PyVal) :
  json_native v = true ->
  exists t, dumps v = Returns t /\ loads t = Returns v.
Proof. intros Hn. apply loads_dumps_exact, json_native_exact, Hn. Qed.
End PyJsonFacts.

(** * The runtime on Python's own [json] *)

(** The spec's scenario: the input key holds an object with [x] at 1, the
    handler returns the dict with [y] at 2; after one cycle the output
    key holds exactly the text of that dict and [last_execution] is
    set. *)
Example scenario_publish :
  cycle steady (fresh_loop (returning (PyDict [(PyStr "y", PyInt 2)]))) (world_with text_x1)
  = mkResult
      (Returns (mkLoop "metrics" "out" (returning (PyDict [(PyStr "y", PyInt 2)]))
                       (set_last_execution
                          (Context_init "localhost" 6379 "metrics" "out" 0) 1003)
                       (Some text_x1)))
      (mkWorld (<["out" := text_y2]> {[ "metrics" := text_x1 ]}) 5)
      [EvGet "metrics" (Returns (Some text_x1));
       EvParse (PyBytes text_x1);
       EvCall (PyDict [(PyStr "x", PyInt 1)])
              (Context_init "localhost" 6379 "metrics" "out" 0)
              (Returns (PyDict [(PyStr "y", PyInt 2)]));
       EvSet "out" text_y2 (Returns tt);
       EvTime 1003;
       EvLog "[info] Processed input and wrote output to key 'out'";
       EvSleep 5].
Proof. vm_compute. reflexivity. Qed.

Section AnyPublish.
Context `{PyStd}.
Context {St : Type}.
Variable E : Env.

End AnyPublish.




(** Strings with surrogates: alone they are read back, a high one
    directly before a low one is not. *)
Example text_exact_examples :
  text_exact false ("caf" +:+ e_acute) = true
  /\ text_exact false high_surrogate = true
  /\ text_exact false (low_surrogate +:+ high_surrogate) = true
  /\ text_exact false (high_surrogate +:+ "x" +:+ low_surrogate) = true
  /\ text_exact false (high_surrogate +:+ low_surrogate) = false
  /\ PyJson.loads (jstr (String PyJson.backslash "ud83d")) = Returns (PyStr high_surrogate)
  /\ json_exact (PyFloat "25.45") = true
  /\ json_exact (PyFloat "1e+16") = true
  /\ json_exact (PyFloat "-Infinity") = true
  /\ json_exact (PyFloat "NaN") = false.
Proof. repeat split; vm_compute; reflexivity. Qed.

(** C7, the case the code misses: the input key holds a JSON array;
    [parse_input] returns the list, which is not [None], and the handler
    is called with it, a payload that is not a dict. *)
Theorem C7_handler_is_called_with_a_list :
  In (EvCall (PyList [PyInt 1; PyInt 2])
             (Context_init "localhost" 6379 "metrics" "out" 0)
             (Returns (PyDict [])))
     (events (cycle steady (fresh_loop (returning (PyDict []))) (world_with text_array)))
  /\ isinstance_dict (PyList [PyInt 1; PyInt 2]) = false.
Proof. split; [vm_compute; auto 10|reflexivity]. Qed.

(** C8 as stated fails: with the same name configured for the input key
    and for the output key, the process reads the output key and writes
    the input key. *)
Lemma C8_same_key_is_read_and_written :
  environ (machine (returning (PyDict [(PyStr "y", PyInt 2)])) "k" "k")
    !! "REDIS_OUTPUT_KEY" = Some "k"
  /\ environ (machine (returning (PyDict [(PyStr "y", PyInt 2)])) "k" "k")
       !! "REDIS_INPUT_KEY" = Some "k"
  /\ In (EvGet "k" (Returns (Some text_x1)))
        (main steady (machine (returning (PyDict [(PyStr "y", PyInt 2)])) "k" "k") 1
              (mkWorld {[ "k" := text_x1 ]} 0)).1.1
  /\ In (EvSet "k" text_y2 (Returns tt))
        (main steady (machine (returning (PyDict [(PyStr "y", PyInt 2)])) "k" "k") 1
              (mkWorld {[ "k" := text_x1 ]} 0)).1.1.
Proof.
  split; [vm_compute; reflexivity|]. split; [vm_compute; reflexivity|].
  split; vm_compute; auto 10.
Qed.

(** After one cycle processed the input, the next cycle reads the same
    value and only sleeps. *)
Lemma C2_witness :
  exists evs w1 l,
    main steady (machine (returning (PyDict [(PyStr "y", PyInt 2)])) "metrics" "out") 1
         (world_with text_x1) = (evs, w1, Looping l)
    /\ cycle steady l (world (interfere steady w1))
       = mkResult (Returns l) (tick (tick (world (interfere steady w1))))
           [EvGet (loop_input_key l) (Returns (fold_left observe evs None));
            EvSleep POLL_INTERVAL_SECONDS].
Proof.
  eexists _, _, _.
  match goal with
  | |- ?A /\ _ => assert (Hmain : A) by (vm_compute; reflexivity)
  end.
  split; [exact Hmain|].
  apply (C2_unchanged_value_is_not_processed steady _ _ _ _ _ _ Hmain).
  - reflexivity.
  - vm_compute. reflexivity.
Defined.

(** The handler raises on the input: the value is recorded all the
    same. *)
Lemma C3_witness :
  exists l',
    outcome (cycle steady (fresh_loop (raising (Exn "KeyError" "x"))) (world_with text_x1))
    = Returns l'
    /\ last_raw_value l' = Some text_x1.
Proof.
  destruct (C3_observed_input_is_never_retried steady
              (fresh_loop (raising (Exn "KeyError" "x"))) (world_with text_x1)
              (Some text_x1))
    as [l' [Hl' [Hlast _]]].
  - reflexivity.
  - vm_compute. reflexivity.
  - discriminate.
  - exists l'. split; assumption.
Defined.


(** * More properties of the poll loop *)

(** Unfold the first iteration of a run. *)
Ltac unroll E n l w l1 w1 evs1 Hc Hl1 :=
  destruct (cycle E l (world (interfere E w))) as [o w1 evs1] eqn:Hc;
  destruct (cycle_returns E l (world (interfere E w))) as [l1 Hl1];
  rewrite Hc in Hl1; cbn [outcome] in Hl1; subst o;
  rewrite (run_S E n _ _ _ _ _ Hc); cbn [outcome world events].

Section Pacing.
Context `{PyStd}.
Variable E : Env.

Lemma count_app (kind : Event -> bool) (evs evs' : list Event) :
  count kind (evs ++ evs') = (count kind evs + count kind evs')%nat.
Proof. induction evs as [|ev evs IH]; cbn [count app]; [reflexivity|]. rewrite IH. lia. Qed.

Lemma changes_app (seen : option string) (evs evs' : list Event) :
  changes seen (evs ++ evs')
  = (changes seen evs + changes (fold_left observe evs seen) evs')%nat.
Proof.
  revert seen. induction evs as [|ev evs IH]; intros seen; cbn [changes app fold_left];
    [reflexivity|].
  rewrite IH. lia.
Qed.

(** What one iteration does, by kind of event. *)
Lemma cycle_counts (l : Loop) (w : World) :
  count is_get (events (cycle E l w)) = 1%nat
  /\ count is_sleep (events (cycle E l w)) = 1%nat
  /\ count is_parse (events (cycle E l w))
     = changes (last_raw_value l) (events (cycle E l w))
  /\ (count is_call (events (cycle E l w)) <= count is_parse (events (cycle E l w)))%nat
  /\ (count is_set (events (cycle E l w)) <= count is_call (events (cycle E l w)))%nat
  /\ (count is_time (events (cycle E l w)) <= count is_set (events (cycle E l w)))%nat.
Proof.
  paths; cbn [count changes observe is_get is_sleep is_parse is_call is_set is_time];
    repeat match goal with
           | |- context [decide ?P] => destruct (decide P); try contradiction
           end;
    repeat split; try reflexivity; try lia; congruence.
Qed.




(** X2: over any number of iterations, the decode stage runs exactly once
    per successful read that returned something else than the read before
    it (than the change marker, for the first); the handler is called at
    most once per decode, a SET is issued at most once per handler call,
    and the clock is read at most once per SET. *)
Theorem X2_work_is_bounded_by_observed_changes (n : nat) (l : Loop) (w : World) :
  count is_parse (events (run E n l w))
  = changes (last_raw_value l) (events (run E n l w))
  /\ (count is_call (events (run E n l w)) <= count is_parse (events (run E n l w)))%nat
  /\ (count is_set (events (run E n l w)) <= count is_call (events (run E n l w)))%nat
  /\ (count is_time (events (run E n l w)) <= count is_set (events (run E n l w)))%nat.
Proof.
  revert l w. induction n as [|n IH]; intros l w; [cbn; repeat split; lia|].
  destruct (cycle_counts l (world (interfere E w))) as [_ [_ [Hp [Hc' [Hs Ht]]]]].
  destruct (cycle_returns E l (world (interfere E w))) as [l0 Hl0].
  pose proof (cycle_observed E _ _ _ Hl0) as Hobs.
  unroll E n l w l1 w1 evs1 Hc Hl1.
  cbn [events outcome] in *. injection Hl0 as <-.
  destruct (IH l1 w1) as [IHp [IHc [IHs IHt]]].
  rewrite !count_app, changes_app, <- Hobs. repeat split; lia.
Qed.
End Pacing.

Section Stamps.
Context `{PyStd}.
Variable E : Env.

Lemma calls_with_app (c0 : Context) (seen : option Z) (evs evs' : list Event) :
  calls_with c0 seen (evs ++ evs')
  <-> calls_with c0 seen evs /\ calls_with c0 (fold_left stamp evs seen) evs'.
Proof.
  revert seen. induction evs as [|ev evs IH]; intros seen; cbn [calls_with app fold_left];
    [tauto|].
  rewrite IH. tauto.
Qed.

Lemma with_last_execution_same (c : Context) :
  with_last_execution c (last_execution c) = c.
Proof. destruct c; reflexivity. Qed.

Lemma calls_with_base (c : Context) (s seen : option Z) (evs : list Event) :
  calls_with (with_last_execution c s) seen evs -> calls_with c seen evs.
Proof.
  revert seen. induction evs as [|ev evs IH]; intros seen; cbn [calls_with]; [tauto|].
  intros [Hev Hrest]. split; [|apply IH, Hrest]. destruct ev; auto.
Qed.

(** In one iteration the handler is given the context of the loop, and
    the context afterwards carries the latest clock reading. *)
Lemma cycle_stamps (l l' : Loop) (w : World) :
  outcome (cycle E l w) = Returns l' ->
  context l'
  = with_last_execution (context l)
      (fold_left stamp (events (cycle E l w)) (last_execution (context l)))
  /\ calls_with (context l) (last_execution (context l)) (events (cycle E l w)).
Proof.
  paths; intros [= <-];
    cbn [context with_context with_last_raw_value fold_left stamp calls_with];
    rewrite ?with_last_execution_same; repeat split; reflexivity.
Qed.

Lemma run_stamps (n : nat) (l l' : Loop) (w : World) :
  outcome (run E n l w) = Returns l' ->
  context l'
  = with_last_execution (context l)
      (fold_left stamp (events (run E n l w)) (last_execution (context l)))
  /\ calls_with (context l) (last_execution (context l)) (events (run E n l w)).
Proof.
  revert l w. induction n as [|n IH]; intros l w.
  - cbn. intros [= <-]. rewrite with_last_execution_same. auto.
  - destruct (cycle_returns E l (world (interfere E w))) as [l0 Hl0].
    destruct (cycle_stamps _ _ _ Hl0) as [Hctx Hcalls].
    unroll E n l w l1 w1 evs1 Hc Hl1. cbn [events outcome] in *. injection Hl0 as <-.
    intros Hr. destruct (IH _ _ Hr) as [IHctx IHcalls].
    rewrite fold_left_app, calls_with_app. split; [|split; [exact Hcalls|]].
    + rewrite IHctx, Hctx. reflexivity.
    + rewrite Hctx in IHcalls. cbn [with_last_execution last_execution] in IHcalls.
      apply (calls_with_base (context l)) in IHcalls. exact IHcalls.
Qed.

(** A failed read: the error is logged with its traceback, the loop
    sleeps, and its variables are as before. *)
Lemma cycle_read_failure (l : Loop) (w : World) (e : PyExn) :
  get_fault E (instant w) = Some e ->
  cycle E l w
  = mkResult (Returns l) (tick (tick w))
      [EvGet (loop_input_key l) (Raises e);
       EvLog "[error] Failed to read from Redis; retrying after delay";
       EvTraceback e;
       EvSleep POLL_INTERVAL_SECONDS].
Proof. intros Hg. step. rewrite Hg. reflexivity. Qed.

(** X4: while the transport is down (every GET raises), the loop goes on
    polling: each iteration ends normally, the loop variables (change
    marker and context) stay as they were, and all that happens is the
    failed GET of the input key, the error line with the traceback, and
    the sleep of [POLL_INTERVAL_SECONDS]: no decode, no handler call, no
    SET. *)
Theorem X4_outage_is_polled_through (n : nat) (l : Loop) (w : World) :
  (forall i, get_fault E i <> None) ->
  outcome (run E n l w) = Returns l
  /\ forall ev, In ev (events (run E n l w)) -> outage_event (loop_input_key l) ev.
Proof.
  intros Hdown. revert w. induction n as [|n IH]; intros w.
  - cbn. tauto.
  - destruct (get_fault E (instant (world (interfere E w)))) as [e|] eqn:Hg;
      [|exfalso; eapply Hdown, Hg].
    rewrite (run_S E n l l _ _ _ (cycle_read_failure l _ e Hg)). cbn [outcome events].
    destruct (IH (tick (tick (world (interfere E w))))) as [IHo IHe].
    split; [exact IHo|]. intros ev Hin. apply in_app_or in Hin as [Hin|Hin]; [|auto].
    members; cbn; auto.
Qed.
End Stamps.

Lemma X4_witness :
  outcome (run down 3 (fresh_loop (returning (PyDict []))) (world_with text_x1))
  = Returns (fresh_loop (returning (PyDict [])))
  /\ forall ev,
       In ev (events (run down 3 (fresh_loop (returning (PyDict []))) (world_with text_x1))) ->
       outage_event "metrics" ev.
Proof.
  apply (X4_outage_is_polled_through down 3 (fresh_loop (returning (PyDict [])))
           (world_with text_x1)).
  intros i. discriminate.
Defined.

Section Failures.
Context `{PyStd}.
Variable E : Env.



(** X8: in an iteration whose read goes through, the handler is called
    exactly when the value read differs from the change marker and
    [parse_input] makes something else than [None] of it; it is then
    called once, right after the decode, with that payload and the
    loop's context.  Otherwise it is not called. *)
Theorem X8_handler_runs_exactly_on_a_changed_decodable_value (l : Loop) (w : World) :
  get_fault E (instant w) = None ->
  (store w !! loop_input_key l <> last_raw_value l
   /\ is_None (parsed (raw_of (store w !! loop_input_key l))) = false ->
   exists post,
     events (cycle E l w) =
     EvGet (loop_input_key l) (Returns (store w !! loop_input_key l))
     :: EvParse (raw_of (store w !! loop_input_key l))
     :: EvCall (parsed (raw_of (store w !! loop_input_key l))) (context l)
               (handler l (parsed (raw_of (store w !! loop_input_key l))) (context l))
     :: post
     /\ count is_call post = 0%nat)
  /\ (store w !! loop_input_key l = last_raw_value l
      \/ is_None (parsed (raw_of (store w !! loop_input_key l))) = true ->
      count is_call (events (cycle E l w)) = 0%nat).
Proof.
  intros Hg.
  remember (parsed (raw_of (store w !! loop_input_key l))) as payload eqn:Hp.
  revert Hp Hg. paths; intros Hp Hg; try discriminate; cbn [parsed] in Hp;
    repeat match goal with
           | Hx : utf8_valid _ = _ |- _ => rewrite Hx in Hp; clear Hx
           | Hx : json_loads _ = _ |- _ => rewrite Hx in Hp; clear Hx
           end;
    try (subst payload; cbn [is_None] in *; try congruence);
    repeat match goal with
           | Hx : handler _ _ _ = _ |- _ => rewrite Hx; clear Hx
           end.
  all: split;
    [ intros [Hne Hsome]; try contradiction; try congruence;
      eexists; split; reflexivity
    | intros [Heq|Hnone]; try contradiction; try congruence; reflexivity ].
Qed.

(** X9: [parse_input] is silent on [None] and on a value it decodes; on
    any other value it logs the warning and the traceback of the
    exception that was raised, once, and returns [None]. *)
Theorem X9_decode_failure_is_logged_once (raw_value : PyVal) (w : World) :
  ((raw_value = PyNone \/ decodes raw_value)
   /\ events (parse_input raw_value w) = [EvParse raw_value])
  \/ (raw_value <> PyNone /\ ~ decodes raw_value
      /\ outcome (parse_input raw_value w) = Returns PyNone
      /\ exists e,
          events (parse_input raw_value w)
          = [EvParse raw_value;
             EvLog "[warn] Failed to parse JSON input from Redis";
             EvTraceback e]).
Proof.
  unfold decodes. step.
  destruct raw_value as [|b|n|lit|s|b|items|items|items]; cbn [is_None]; step.
  - left. auto.
  - right. split; [discriminate|]. split; [|split; [reflexivity|eexists; reflexivity]].
    intros [text [v [[Hs|[Hb Hv]] Hl]]]; discriminate.
  - right. split; [discriminate|]. split; [|split; [reflexivity|eexists; reflexivity]].
    intros [text [v [[Hs|[Hb Hv]] Hl]]]; discriminate.
  - right. split; [discriminate|]. split; [|split; [reflexivity|eexists; reflexivity]].
    intros [text [v [[Hs|[Hb Hv]] Hl]]]; discriminate.
  - destruct (json_loads s) as [v|e] eqn:Hj; step.
    + left. split; [right; exists s, v; auto|reflexivity].
    + right. split; [discriminate|]. split; [|split; [reflexivity|eexists; reflexivity]].
      intros [text [v [[Hs|[Hb Hv]] Hl]]]; [|discriminate]. injection Hs as <-. congruence.
  - destruct (utf8_valid b) eqn:Hu; step.
    + destruct (json_loads b) as [v|e] eqn:Hj; step.
      * left. split; [right; exists b, v; auto|reflexivity].
      * right. split; [discriminate|]. split; [|split; [reflexivity|eexists; reflexivity]].
        intros [text [v [[Hs|[Hb Hv]] Hl]]]; [discriminate|]. injection Hb as <-. congruence.
    + right. split; [discriminate|]. split; [|split; [reflexivity|eexists; reflexivity]].
      intros [text [v [[Hs|[Hb Hv]] Hl]]]; [discriminate|]. injection Hb as <-. congruence.
  - right. split; [discriminate|]. split; [|split; [reflexivity|eexists; reflexivity]].
    intros [text [v [[Hs|[Hb Hv]] Hl]]]; discriminate.
  - right. split; [discriminate|]. split; [|split; [reflexivity|eexists; reflexivity]].
    intros [text [v [[Hs|[Hb Hv]] Hl]]]; discriminate.
  - right. split; [discriminate|]. split; [|split; [reflexivity|eexists; reflexivity]].
    intros [text [v [[Hs|[Hb Hv]] Hl]]]; discriminate.
Qed.

Lemma cycle_store (l : Loop) (w : World) (k : string) :
  k <> loop_output_key l ->
  store (world (cycle E l w)) !! k = store w !! k.
Proof.
  paths; intros Hk; try reflexivity. apply lookup_insert_ne. congruence.
Qed.

(** X13: a key other than the output key that the other clients of the
    store leave alone holds after any number of iterations what it held
    before: the runtime neither writes nor deletes it.  With an input key
    that is not the output key, the runtime never consumes its input. *)
Theorem X13_other_keys_are_left_alone (n : nat) (l : Loop) (w : World) (k : string) :
  k <> loop_output_key l ->
  (forall i st, producer E i st !! k = st !! k) ->
  store (world (run E n l w)) !! k = store w !! k.
Proof.
  intros Hk Hq. revert l w Hk. induction n as [|n IH]; intros l w Hk; [reflexivity|].
  pose proof (cycle_store l (world (interfere E w)) k Hk) as Hs.
  destruct (cycle_returns E l (world (interfere E w))) as [l0 Hl0].
  destruct (cycle_frame E _ _ _ Hl0) as [_ [Hout _]].
  unroll E n l w l1 w1 evs1 Hc Hl1. cbn [outcome world] in *. injection Hl0 as <-.
  rewrite IH by congruence. rewrite Hs. cbn [interfere world store]. apply Hq.
Qed.
End Failures.

(** * More properties of startup and of the whole process *)

Section Startup_properties.
Context `{PyStd}.

(** Where the loop variables of a successful startup come from. *)
Lemma startup_goes (h : Host) (l : Loop) :
  (startup h).2 = Goes l ->
  exists module mtime f port_number output,
    files h !! USER_MODULE_PATH = Some (RegularFile (Returns module) mtime)
    /\ module !! "handler" = Some (Function f)
    /\ py_int (default "6379" (environ h !! "REDIS_PORT")) = Some port_number
    /\ environ h !! "REDIS_OUTPUT_KEY" = Some output
    /\ l = mkLoop (default "metrics" (environ h !! "REDIS_INPUT_KEY")) output f
                  (Context_init (default "localhost" (environ h !! "REDIS_HOST"))
                                port_number
                                (default "metrics" (environ h !! "REDIS_INPUT_KEY"))
                                output mtime)
                  None
    /\ (startup h).1
       = [EvLog ("Runtime started with host="
                   +:+ default "localhost" (environ h !! "REDIS_HOST")
                   +:+ ", port=" +:+ str_of_int port_number
                   +:+ ", input_key=" +:+ default "metrics" (environ h !! "REDIS_INPUT_KEY")
                   +:+ ", output_key=" +:+ output)].
Proof.
  boot. rewrite spec_user_module.
  destruct (environ h !! "REDIS_OUTPUT_KEY") as [output|] eqn:Hout; boot; [|discriminate].
  destruct (py_int (default "6379" (environ h !! "REDIS_PORT"))) as [p|] eqn:Hport; boot;
    [|discriminate].
  destruct (files h !! USER_MODULE_PATH) as [[[module|e] mtime|mtime]|] eqn:Hf; boot;
    try discriminate.
  destruct (module !! "handler") as [[f|v]|] eqn:Hh; boot; try discriminate.
  intros [= <-]. exists module, mtime, f, p, output. repeat split; auto.
Qed.


Lemma cycle_calls (E : Env) (l : Loop) (w : World) (payload : PyVal) (c : Context)
    (res : Outcome PyVal) :
  In (EvCall payload c res) (events (cycle E l w)) ->
  c = context l /\ res = handler l payload c.
Proof. paths; intros Hin; members; auto. Qed.

Lemma run_calls (E : Env) (n : nat) (l : Loop) (w : World) (payload : PyVal) (c : Context)
    (res : Outcome PyVal) :
  In (EvCall payload c res) (events (run E n l w)) ->
  same_config (context l) c /\ res = handler l payload c.
Proof.
  revert l w. induction n as [|n IH]; intros l w; [cbn; tauto|].
  destruct (cycle_returns E l (world (interfere E w))) as [l0 Hl0].
  destruct (cycle_frame E _ _ _ Hl0) as [_ [_ Hh]].
  pose proof (cycle_same_config E _ _ _ Hl0) as Hcfg.
  pose proof (cycle_calls E l (world (interfere E w)) payload c res) as Hcall.
  destruct (cycle E l (world (interfere E w))) as [o w1 evs1] eqn:Hc.
  cbn [outcome events] in *. subst o.
  rewrite (run_S E n _ _ _ _ _ Hc). cbn [events]. intros Hin.
  apply in_app_or in Hin as [Hin|Hin].
  - destruct (Hcall Hin) as [-> ->]. split; [repeat split|reflexivity].
  - destruct (IH _ _ Hin) as [Hcfg' ->]. rewrite Hh. split; [|reflexivity].
    unfold same_config in *. intuition congruence.
Qed.

Lemma cycle_logs (E : Env) (l : Loop) (w : World) (msg : string) :
  In (EvLog msg) (events (cycle E l w)) ->
  msg <> "[error] Failed to create module spec for usermodule".
Proof. paths; intros Hin; members; discriminate. Qed.

Lemma run_logs (E : Env) (n : nat) (l : Loop) (w : World) (msg : string) :
  In (EvLog msg) (events (run E n l w)) ->
  msg <> "[error] Failed to create module spec for usermodule".
Proof.
  revert l w. induction n as [|n IH]; intros l w; [cbn; tauto|].
  destruct (cycle_returns E l (world (interfere E w))) as [l0 Hl0].
  pose proof (cycle_logs E l (world (interfere E w)) msg) as Hlog.
  destruct (cycle E l (world (interfere E w))) as [o w1 evs1] eqn:Hc.
  cbn [outcome events] in *. subst o.
  rewrite (run_S E n _ _ _ _ _ Hc). cbn [events]. intros Hin.
  apply in_app_or in Hin as [Hin|Hin]; [auto|eapply IH, Hin].
Qed.

(** X12: the process never reports that no module spec could be made for
    the user module: [main] loads the handler from [USER_MODULE_PATH],
    whose suffix [.py] always has a loader, so that this exit of
    [load_user_handler] is never taken; a file at a path for which no
    spec is made does take it, whatever the file holds. *)
Theorem X12_module_spec_failure_is_unreachable_from_main (E : Env) (h : Host) (n : nat)
    (w : World) :
  ~ In (EvLog "[error] Failed to create module spec for usermodule") (main E h n w).1.1
  /\ spec_from_file_location "usermodule" USER_MODULE_PATH <> None
  /\ forall (h' : Host) (path : string) (exec_module : Outcome (gmap string PyObj))
        (mtime : Z),
       files h' !! path = Some (RegularFile exec_module mtime) ->
       spec_from_file_location "usermodule" path = None ->
       load_user_handler h' path
       = ([EvLog "[error] Failed to create module spec for usermodule"], Exits 1).
Proof.
  split.
  - unfold main. destruct (startup h) as [evs0 e] eqn:Hs.
    assert (Hstart : ~ In (EvLog "[error] Failed to create module spec for usermodule") evs0).
    { revert Hs. boot. rewrite spec_user_module.
      destruct (environ h !! "REDIS_OUTPUT_KEY") as [output|]; boot;
        [|intros [= <- <-] Hin; members; discriminate].
      destruct (py_int (default "6379" (environ h !! "REDIS_PORT"))) as [p|]; boot;
        [|intros [= <- <-] Hin; members; discriminate].
      destruct (files h !! USER_MODULE_PATH) as [[[module|e'] mtime|mtime]|]; boot;
        try (intros [= <- <-] Hin; members; discriminate).
      destruct (module !! "handler") as [[f|v]|]; boot;
        intros [= <- <-] Hin; members; discriminate. }
    destruct e as [l0|code|e']; cbn [fst]; try exact Hstart.
    intros [Hin|Hin]%in_app_or; [auto|]. eapply run_logs; [exact Hin|reflexivity].
  - split; [rewrite spec_user_module; discriminate|].
    intros h' path exec_module mtime Hf Hspec. unfold load_user_handler, os_path_isfile.
    rewrite Hf, Hspec. reflexivity.
Qed.
End Startup_properties.

(** * [int] reads back what [str] writes *)

Module PyIntFacts.
Import PyJson PyJsonFacts.

Lemma rev_app_twice (s acc acc' : string) :
  String.rev_app (String.rev_app s acc) acc' = String.rev_app acc (s +:+ acc').
Proof.
  revert acc acc'. induction s as [|a s IH]; intros acc acc'; [reflexivity|].
  cbn [String.rev_app]. rewrite IH. reflexivity.
Qed.

Lemma rev_involutive (s : string) : String.rev (String.rev s) = s.
Proof. unfold String.rev. rewrite rev_app_twice. cbn. apply app_nil_r. Qed.

Lemma no_space_rev_app (s acc : string) :
  no_space s = true -> no_space acc = true -> no_space (String.rev_app s acc) = true.
Proof.
  revert acc. induction s as [|a s IH]; intros acc Hs Hacc; [exact Hacc|].
  cbn [no_space] in Hs. apply andb_prop in Hs as [Ha Hs].
  cbn [String.rev_app]. apply IH; [exact Hs|]. cbn [no_space]. rewrite Ha, Hacc. reflexivity.
Qed.

Lemma lstrip_no_space (s : string) : no_space s = true -> lstrip s = s.
Proof.
  destruct s as [|a s]; [reflexivity|]. cbn [no_space lstrip].
  destruct (is_space a); [discriminate|reflexivity].
Qed.

(** [strip] leaves a text without white space as it is. *)
Lemma strip_no_space (s : string) : no_space s = true -> strip s = s.
Proof.
  intros Hs. unfold strip. rewrite (lstrip_no_space s Hs).
  rewrite lstrip_no_space by (apply no_space_rev_app; [exact Hs|reflexivity]).
  apply rev_involutive.
Qed.

Lemma digits_no_space (d : Decimal.uint) : no_space (NilEmpty.string_of_uint d) = true.
Proof. induction d; cbn [NilEmpty.string_of_uint no_space]; auto. Qed.

Lemma digit_groups_digits (d : Decimal.uint) :
  digit_groups true (NilEmpty.string_of_uint d) = Some (NilEmpty.string_of_uint d).
Proof.
  induction d; cbn [NilEmpty.string_of_uint]; [reflexivity|..];
    cbn -[NilEmpty.string_of_uint]; rewrite IHd; reflexivity.
Qed.

Lemma digit_groups_number (p : positive) :
  digit_groups false (NilEmpty.string_of_uint (Pos.to_uint p))
  = Some (NilEmpty.string_of_uint (Pos.to_uint p)).
Proof.
  pose proof (DecimalPos.Unsigned.to_uint_nonnil p) as Hn.
  destruct (Pos.to_uint p) as [|d|d|d|d|d|d|d|d|d|d]; [contradiction|..];
    cbn [NilEmpty.string_of_uint]; cbn -[NilEmpty.string_of_uint];
    rewrite digit_groups_digits; reflexivity.
Qed.

Lemma digit_not_plus (a : ascii) : is_digit a = true -> Ascii.eqb a "+" = false.
Proof. intros Hd. apply digit_cases in Hd. decompose [or] Hd; subst; reflexivity. Qed.

(** [int(str(n)) == n] *)
Lemma int_str_of_int (n : Z) : int (str_of_int n) = Some n.
Proof.
  destruct n as [|p|p].
  - reflexivity.
  - rewrite str_of_int_pos. unfold int.
    rewrite strip_no_space by apply digits_no_space.
    pose proof (digit_groups_number p) as Hg. pose proof (uint_value_to_uint p) as Hv.
    destruct (to_uint_head p) as [a [r [Hs [Hdig Hz]]]]. rewrite Hs in *.
    rewrite (digit_not_minus a Hdig), (digit_not_plus a Hdig), Hg, Hv. reflexivity.
  - rewrite str_of_int_neg. unfold int.
    rewrite strip_no_space
      by (cbn [no_space]; rewrite digits_no_space; reflexivity).
    cbn [Ascii.eqb Bool.eqb]. rewrite digit_groups_number, uint_value_to_uint. reflexivity.
Qed.
End PyIntFacts.

(** * More of the runtime on Python's own [json] and [int] *)

Section Published.
Context `{PyStd}.
Variable E : Env.

Lemma cycle_set_origin (l : Loop) (w : World) (k v : string) (res : Outcome unit) :
  In (EvSet k v res) (events (cycle E l w)) ->
  exists payload c items,
    In (EvCall payload c (Returns (PyDict items))) (events (cycle E l w))
    /\ json_dumps (PyDict items) = Returns v.
Proof.
  paths; intros Hin; members.
  all: match goal with
       | Hd : isinstance_dict ?r = true |- _ => destruct r; try discriminate Hd
       end.
  all: eexists _, _, _; split; [cbn [In]; eauto 6|assumption].
Qed.

Lemma run_set_origin (n : nat) (l : Loop) (w : World) (k v : string) (res : Outcome unit) :
  In (EvSet k v res) (events (run E n l w)) ->
  exists payload c items,
    In (EvCall payload c (Returns (PyDict items))) (events (run E n l w))
    /\ json_dumps (PyDict items) = Returns v.
Proof.
  revert l w. induction n as [|n IH]; intros l w; [cbn; tauto|].
  destruct (cycle_returns E l (world (interfere E w))) as [l0 Hl0].
  pose proof (cycle_set_origin l (world (interfere E w)) k v res) as Hset.
  destruct (cycle E l (world (interfere E w))) as [o w1 evs1] eqn:Hc.
  cbn [outcome events] in *. subst o.
  rewrite (run_S E n _ _ _ _ _ Hc). cbn [events]. intros Hin.
  apply in_app_or in Hin as [Hin|Hin].
  - destruct (Hset Hin) as [payload [c [items [Hcall Hd]]]].
    exists payload, c, items. split; [apply in_or_app; auto|exact Hd].
  - destruct (IH _ _ Hin) as [payload [c [items [Hcall Hd]]]].
    exists payload, c, items. split; [apply in_or_app; auto|exact Hd].
Qed.
End Published.

(** X7: whatever the process sends to the store under the output key is
    the text [json.dumps] gives for a dict the handler returned, and so a
    JSON object text, from its opening to its closing brace: the runtime
    never publishes a list, a number, a string or [null]. *)
Theorem X7_published_text_is_a_json_object (E : Env) (h : Host) (n : nat) (w : World)
    (k v : string) (res : Outcome unit) :
  In (EvSet k v res) (main E h n w).1.1 ->
  exists payload c items body,
    In (EvCall payload c (Returns (PyDict items))) (main E h n w).1.1
    /\ PyJson.dumps (PyDict items) = Returns v
    /\ v = "{" +:+ body +:+ "}".
Proof.
  unfold main. destruct (startup_cases h) as [[_ [Hend Hlog]]|[_ [? [? [? [? [_ [Hend Hlog]]]]]]]];
    destruct (startup h) as [evs0 e]; cbn [fst snd] in *; subst e; cbn [fst].
  - intros Hin. apply Hlog in Hin. discriminate.
  - intros [Hin|Hin]%in_app_or; [apply Hlog in Hin; discriminate|].
    apply run_set_origin in Hin as [payload [c [items [Hcall Hd]]]].
    cbn [json_dumps python] in Hd. pose proof Hd as Hd'.
    unfold PyJson.dumps in Hd'. cbn [PyJson.encode] in Hd'.
    match type of Hd' with
    | context [PyJson.traverse ?f items] => destruct (PyJson.traverse f items) as [texts|]
    end; [|discriminate].
    injection Hd' as <-.
    exists payload, c, items, (String.concat ", " texts).
    split; [apply in_or_app; auto|]. split; [exact Hd|reflexivity].
Qed.

Lemma X7_witness :
  exists payload c items body,
    In (EvCall payload c (Returns (PyDict items)))
       (main steady (machine (returning (PyDict [(PyStr "y", PyInt 2)])) "metrics" "out") 1
             (world_with text_x1)).1.1
    /\ PyJson.dumps (PyDict items) = Returns text_y2
    /\ text_y2 = "{" +:+ body +:+ "}".
Proof.
  apply (X7_published_text_is_a_json_object steady
           (machine (returning (PyDict [(PyStr "y", PyInt 2)])) "metrics" "out") 1
           (world_with text_x1) "out" text_y2 (Returns tt)).
  vm_compute. auto 10.
Defined.

(** X10: with only [REDIS_OUTPUT_KEY] set, and the handler file in place,
    startup goes through on the defaults: host [localhost], port 6379,
    input key [metrics]; the context has no [last_execution] and an empty
    [env], the change marker is [None], and the one line logged is the
    start banner. *)
Theorem X10_startup_defaults (h : Host) (output : string) (module : gmap string PyObj)
    (mtime : Z) (f : Handler) :
  environ h !! "REDIS_OUTPUT_KEY" = Some output ->
  environ h !! "REDIS_HOST" = None ->
  environ h !! "REDIS_PORT" = None ->
  environ h !! "REDIS_INPUT_KEY" = None ->
  files h !! USER_MODULE_PATH = Some (RegularFile (Returns module) mtime) ->
  module !! "handler" = Some (Function f) ->
  startup h
  = ([EvLog ("Runtime started with host=localhost, port=6379, input_key=metrics, output_key="
               +:+ output)],
     Goes (mkLoop "metrics" output f
                  {| host := "localhost"; port := 6379; input_key := "metrics";
                     output_key := output; function_getmtime := mtime;
                     last_execution := None; env := ∅ |}
                  None)).
Proof.
  intros Hout Hhost Hport Hin Hf Hh. boot. rewrite spec_user_module.
  rewrite Hout, Hhost, Hport, Hin, Hf. boot.
  change (py_int "6379") with (Some 6379). boot. rewrite Hh. reflexivity.
Qed.

Lemma X10_witness :
  startup {| environ := {[ "REDIS_OUTPUT_KEY" := "out" ]};
             files := {[ USER_MODULE_PATH :=
                           RegularFile (Returns {[ "handler" := Function (returning PyNone) ]})
                                       7 ]} |}
  = ([EvLog ("Runtime started with host=localhost, port=6379, input_key=metrics, output_key="
               +:+ "out")],
     Goes (mkLoop "metrics" "out" (returning PyNone)
                  {| host := "localhost"; port := 6379; input_key := "metrics";
                     output_key := "out"; function_getmtime := 7;
                     last_execution := None; env := ∅ |}
                  None)).
Proof.
  apply (X10_startup_defaults _ "out" {[ "handler" := Function (returning PyNone) ]} 7
           (returning PyNone)); reflexivity.
Defined.

(** X11: [REDIS_PORT] is only required to be the text of an integer: the
    text [str(n)] of any integer [n] of at most 4300 digits is accepted
    and [n] becomes the port of the context, be it negative, zero or
    above 65535; no range is checked at startup. *)
Theorem X11_any_integer_is_accepted_as_port (h : Host) (n : Z) (output : string)
    (module : gmap string PyObj) (mtime : Z) (f : Handler) :
  Z.abs n < 10 ^ 4300 ->
  environ h !! "REDIS_PORT" = Some (str_of_int n) ->
  environ h !! "REDIS_OUTPUT_KEY" = Some output ->
  files h !! USER_MODULE_PATH = Some (RegularFile (Returns module) mtime) ->
  module !! "handler" = Some (Function f) ->
  exists l, (startup h).2 = Goes l /\ port (context l) = n /\ handler l = f.
Proof.
  intros _ Hport Hout Hf Hh. boot. rewrite spec_user_module.
  rewrite Hport, Hout, Hf. boot. cbn [py_int python].
  rewrite PyIntFacts.int_str_of_int. boot. rewrite Hh. boot.
  eexists. split; [reflexivity|]. split; reflexivity.
Qed.

Lemma X11_witness :
  exists l,
    (startup (machine_on_port (returning PyNone) "out" "-1")).2 = Goes l
    /\ port (context l) = -1 /\ handler l = returning PyNone.
Proof.
  apply (X11_any_integer_is_accepted_as_port
           (machine_on_port (returning PyNone) "out" "-1") (-1) "out"
           {[ "handler" := Function (returning PyNone) ]} 0 (returning PyNone)).
  - apply Z.lt_le_trans with (m := 10 ^ 1); [reflexivity|].
    apply Z.pow_le_mono_r; lia.
  - reflexivity.
  - reflexivity.
  - reflexivity.
  - reflexivity.
Defined.



Lemma X8_witness :
  count is_call
    (events (cycle steady (with_last_raw_value (fresh_loop (returning (PyDict [])))
                                               (Some text_x1))
                   (world_with text_x1))) = 0%nat.
Proof.
  destruct (X8_handler_runs_exactly_on_a_changed_decodable_value steady
              (with_last_raw_value (fresh_loop (returning (PyDict []))) (Some text_x1))
              (world_with text_x1))
    as [_ Hquiet].
  - reflexivity.
  - apply Hquiet. left. vm_compute. reflexivity.
Defined.

(** The input key keeps its value through three iterations that publish
    under another key. *)
Lemma X13_witness :
  store (world (run steady 3 (fresh_loop (returning (PyDict [(PyStr "y", PyInt 2)])))
                    (world_with text_x1))) !! "metrics"
  = store (world_with text_x1) !! "metrics".
Proof.
  apply (X13_other_keys_are_left_alone steady 3
           (fresh_loop (returning (PyDict [(PyStr "y", PyInt 2)]))) (world_with text_x1)
           "metrics").
  - discriminate.
  - reflexivity.
Defined.

Section Restart.
Context `{PyStd}.

(** One iteration on a value that is there, differs from the change
    marker and decodes to something else than [None]. *)
Lemma cycle_handles (E : Env) (l : Loop) (w : World) (raw : string) :
  get_fault E (instant w) = None ->
  store w !! loop_input_key l = Some raw ->
  Some raw <> last_raw_value l ->
  is_None (parsed (PyBytes raw)) = false ->
  exists post,
    events (cycle E l w)
    = EvGet (loop_input_key l) (Returns (Some raw))
      :: EvParse (PyBytes raw)
      :: EvCall (parsed (PyBytes raw)) (context l)
                (handler l (parsed (PyBytes raw)) (context l))
      :: post.
Proof.
  intros Hg Hs Hne Hp. remember (parsed (PyBytes raw)) as payload eqn:Hpay.
  revert Hpay. step. rewrite Hg, Hs. step.
  destruct (decide (Some raw = last_raw_value l)) as [Heq|_]; [contradiction|]. step.
  cbn [parsed].
  destruct (utf8_valid raw); step; [|intros ->; discriminate].
  destruct (json_loads raw) as [v|e]; step; [|intros ->; discriminate].
  intros ->. rewrite Hp. step.
  destruct (handler l v (context l)) as [result|e]; step; [|eexists; reflexivity].
  destruct (isinstance_dict result); step; [|eexists; reflexivity].
  destruct (json_dumps result); step; [|eexists; reflexivity].
  destruct (set_fault E _); step; eexists; reflexivity.
Qed.

(** X15: the change marker starts at [None] with each process: a value
    that is under the input key at the first poll and decodes to
    something else than [None] is handed to the handler in the first
    iteration, whether or not an earlier run of the process has handled
    it already. *)
Theorem X15_first_poll_handles_the_value_present (E : Env) (h : Host) (w : World)
    (l0 : Loop) (raw : string) :
  (startup h).2 = Goes l0 ->
  get_fault E (instant w) = None ->
  producer E (instant w) (store w) !! default "metrics" (environ h !! "REDIS_INPUT_KEY")
  = Some raw ->
  is_None (parsed (PyBytes raw)) = false ->
  last_raw_value l0 = None
  /\ exists post,
       (main E h 1 w).1.1
       = ((startup h).1
            ++ EvGet (default "metrics" (environ h !! "REDIS_INPUT_KEY")) (Returns (Some raw))
            :: EvParse (PyBytes raw)
            :: EvCall (parsed (PyBytes raw)) (context l0)
                      (handler l0 (parsed (PyBytes raw)) (context l0))
            :: post)%list.
Proof.
  intros Hs Hg Hstore Hp.
  destruct (startup_goes h l0 Hs) as [module [mtime [f [p [out [_ [_ [_ [_ [Hl _]]]]]]]]]].
  assert (Hkey : loop_input_key l0 = default "metrics" (environ h !! "REDIS_INPUT_KEY"))
    by (subst l0; reflexivity).
  assert (Hlast : last_raw_value l0 = None) by (subst l0; reflexivity).
  split; [exact Hlast|].
  unfold main. destruct (startup h) as [evs0 e]. cbn [snd fst] in *. subst e.
  destruct (cycle_handles E l0 (world (interfere E w)) raw) as [post Hev].
  { exact Hg. }
  { rewrite Hkey. exact Hstore. }
  { rewrite Hlast. discriminate. }
  { exact Hp. }
  destruct (cycle_returns E l0 (world (interfere E w))) as [l1 Hl1].
  destruct (cycle E l0 (world (interfere E w))) as [o w1 evs1] eqn:Hc.
  cbn [outcome events] in *. subst o evs1.
  rewrite (run_S E 0 _ _ _ _ _ Hc). cbn [events run fst]. unfold mret, M_ret.
  cbn [events]. rewrite app_nil_r, Hkey. eexists. reflexivity.
Qed.
End Restart.

Lemma X15_witness :
  exists post,
    (main steady (machine (returning (PyDict [(PyStr "y", PyInt 2)])) "metrics" "out") 1
          (world_with text_x1)).1.1
    = ((startup (machine (returning (PyDict [(PyStr "y", PyInt 2)])) "metrics" "out")).1
         ++ EvGet "metrics" (Returns (Some text_x1))
         :: EvParse (PyBytes text_x1)
         :: EvCall (PyDict [(PyStr "x", PyInt 1)])
                   (Context_init "localhost" 6379 "metrics" "out" 0)
                   (Returns (PyDict [(PyStr "y", PyInt 2)]))
         :: post)%list.
Proof.
  destruct (X15_first_poll_handles_the_value_present steady
              (machine (returning (PyDict [(PyStr "y", PyInt 2)])) "metrics" "out")
              (world_with text_x1)
              (mkLoop "metrics" "out" (returning (PyDict [(PyStr "y", PyInt 2)]))
                      (Context_init "localhost" 6379 "metrics" "out" 0) None)
              text_x1)
    as [_ Hev].
  - vm_compute. reflexivity.
  - reflexivity.
  - vm_compute. reflexivity.
  - vm_compute. reflexivity.
  - exact Hev.
Defined.

Section Quiescence.
Context `{PyStd}.
Variable E : Env.
Hypothesis reads_go_through : forall i, get_fault E i = None.
Hypothesis store_is_left_alone : forall i st, producer E i st = st.

(** With the marker at the value of the input key, and nobody writing,
    any number of iterations only poll and sleep. *)
Lemma run_idle (n : nat) (l : Loop) (w : World) :
  store w !! loop_input_key l = last_raw_value l ->
  outcome (run E n l w) = Returns l
  /\ store (world (run E n l w)) = store w
  /\ count is_call (events (run E n l w)) = 0%nat
  /\ count is_set (events (run E n l w)) = 0%nat.
Proof.
  revert w. induction n as [|n IH]; intros w Hs; [cbn; auto|].
  assert (Hw : world (interfere E w) = w).
  { destruct w as [st i]. cbn [interfere world store instant].
    rewrite store_is_left_alone. reflexivity. }
  rewrite (run_S E n l l w _ _
             ltac:(rewrite Hw; apply cycle_unchanged; [apply reads_go_through|exact Hs])).
  cbn [outcome world events].
  destruct (IH (tick (tick w)) Hs) as [IHo [IHs [IHc IHw]]].
  rewrite IHo, IHs, !count_app, IHc, IHw. auto.
Qed.

(** The iteration that publishes: the value read is new and decodes, the
    handler returns a dict that is encoded, the SET goes through. *)
Lemma cycle_publishing (l : Loop) (w : World) (raw : string) (items : list (PyVal * PyVal))
    (text : string) :
  set_fault E (2 + instant w) = None ->
  store w !! loop_input_key l = Some raw ->
  Some raw <> last_raw_value l ->
  is_None (parsed (PyBytes raw)) = false ->
  handler l (parsed (PyBytes raw)) (context l) = Returns (PyDict items) ->
  json_dumps (PyDict items) = Returns text ->
  cycle E l w
  = mkResult
      (Returns (with_context (with_last_raw_value l (Some raw))
                  (set_last_execution (context l) (clock E (3 + instant w)))))
      (mkWorld (<[loop_output_key l := text]> (store w)) (5 + instant w))
      [EvGet (loop_input_key l) (Returns (Some raw));
       EvParse (PyBytes raw);
       EvCall (parsed (PyBytes raw)) (context l) (Returns (PyDict items));
       EvSet (loop_output_key l) text (Returns tt);
       EvTime (clock E (3 + instant w));
       EvLog ("[info] Processed input and wrote output to key '"
                +:+ loop_output_key l +:+ "'");
       EvSleep POLL_INTERVAL_SECONDS].
Proof.
  intros Hset Hs Hne Hp Hh Hd. remember (parsed (PyBytes raw)) as payload eqn:Hpay.
  revert Hpay Hh. step. rewrite (reads_go_through (instant w)), Hs. step.
  destruct (decide (Some raw = last_raw_value l)) as [Heq|_]; [contradiction|]. step.
  cbn [parsed].
  destruct (utf8_valid raw); step; [|intros ->; discriminate].
  destruct (json_loads raw) as [v|e]; step; [|intros ->; discriminate].
  intros -> Hh. rewrite Hp. step. rewrite Hh. step. rewrite Hd. step.
  cbn [Nat.add] in Hset. rewrite Hset. reflexivity.
Qed.

(** X20: with a store that takes every command and that nobody else
    writes to, and an output key that is not the input key: a new value
    under the input key that decodes, on which the handler returns a dict
    that [json.dumps] encodes, is handled exactly once however many
    iterations follow: one handler call, one SET, and from the first
    iteration on the store is the one of the start with the encoding
    under the output key. *)
Theorem X20_stable_input_is_handled_exactly_once (n : nat) (l : Loop) (w : World)
    (raw : string) (items : list (PyVal * PyVal)) (text : string) :
  (forall i, set_fault E i = None) ->
  loop_input_key l <> loop_output_key l ->
  store w !! loop_input_key l = Some raw ->
  Some raw <> last_raw_value l ->
  is_None (parsed (PyBytes raw)) = false ->
  handler l (parsed (PyBytes raw)) (context l) = Returns (PyDict items) ->
  json_dumps (PyDict items) = Returns text ->
  store (world (run E (S n) l w)) = <[loop_output_key l := text]> (store w)
  /\ count is_call (events (run E (S n) l w)) = 1%nat
  /\ count is_set (events (run E (S n) l w)) = 1%nat
  /\ exists l', outcome (run E (S n) l w) = Returns l'
                /\ last_raw_value l' = Some raw
                /\ last_execution (context l') = Some (clock E (3 + instant w)).
Proof.
  intros Hset Hkeys Hs Hne Hp Hh Hd.
  assert (Hw : world (interfere E w) = w).
  { destruct w as [st i]. cbn [interfere world store instant].
    rewrite store_is_left_alone. reflexivity. }
  pose proof (cycle_publishing l w raw items text (Hset _) Hs Hne Hp Hh Hd) as Hc.
  rewrite <- Hw in Hc at 1. rewrite (run_S E n _ _ _ _ _ Hc). cbn [outcome world events].
  match goal with
  | |- context [run E n ?l1 ?w1] =>
    destruct (run_idle n l1 w1) as [Ho [Hst [Hcalls Hsets]]]
  end.
  { cbn [store loop_input_key with_context with_last_raw_value last_raw_value].
    rewrite lookup_insert_ne by congruence. exact Hs. }
  rewrite Ho, Hst, !count_app, Hcalls, Hsets. cbn [store]. repeat split.
  eexists. split; [reflexivity|]. split; reflexivity.
Qed.
End Quiescence.

Lemma X20_witness :
  store (world (run steady 3 (fresh_loop (returning (PyDict [(PyStr "y", PyInt 2)])))
                    (world_with text_x1)))
  = <["out" := text_y2]> (store (world_with text_x1))
  /\ count is_call
       (events (run steady 3 (fresh_loop (returning (PyDict [(PyStr "y", PyInt 2)])))
                    (world_with text_x1))) = 1%nat
  /\ count is_set
       (events (run steady 3 (fresh_loop (returning (PyDict [(PyStr "y", PyInt 2)])))
                    (world_with text_x1))) = 1%nat.
Proof.
  destruct (X20_stable_input_is_handled_exactly_once steady
              (fun _ => eq_refl) (fun _ _ => eq_refl) 2
              (fresh_loop (returning (PyDict [(PyStr "y", PyInt 2)]))) (world_with text_x1)
              text_x1 [(PyStr "y", PyInt 2)] text_y2)
    as [Hstore [Hcalls [Hsets _]]].
  - reflexivity.
  - discriminate.
  - reflexivity.
  - discriminate.
  - vm_compute. reflexivity.
  - vm_compute. reflexivity.
  - vm_compute. reflexivity.
  - repeat split; assumption.
Defined.

(** * What [json.dumps] writes is ASCII *)

Module PyAsciiFacts.
Import PyJson PyJsonFacts.

Lemma ascii_text_app (s t : string) :
  ascii_text (s +:+ t) = ascii_text s && ascii_text t.
Proof.
  induction s as [|a s IH]; [reflexivity|]. rewrite app_cons. cbn [ascii_text].
  rewrite IH. apply andb_assoc.
Qed.

Lemma ascii_text_utf8_valid (s : string) : ascii_text s = true -> utf8_valid s = true.
Proof.
  induction s as [|a s IH]; [reflexivity|]. cbn [ascii_text].
  intros [Ha Hs]%andb_prop.
  assert (Hb : byte_in 0 127 a = true).
  { unfold byte_in. apply andb_true_intro. apply N.ltb_lt in Ha.
    split; apply N.leb_le; lia. }
  cbn [utf8_valid]. rewrite Hb. auto.
Qed.

Lemma hex_digit_ascii (n : N) : (N_of_ascii (hex_digit n) <? 128)%N = true.
Proof.
  unfold hex_digit. destruct n as [|p]; [reflexivity|].
  destruct p as [p|p|]; try reflexivity;
    destruct p as [p|p|]; try reflexivity;
    destruct p as [p|p|]; try reflexivity;
    destruct p as [p|p|]; reflexivity.
Qed.

Lemma escape_u_ascii (n : N) : ascii_text (escape_u n) = true.
Proof. unfold escape_u. cbn [ascii_text]. rewrite !hex_digit_ascii. reflexivity. Qed.

Lemma escape_code_point_ascii (n : N) : ascii_text (escape_code_point n) = true.
Proof.
  unfold escape_code_point. destruct (n <? 65536)%N; [apply escape_u_ascii|].
  rewrite ascii_text_app, !escape_u_ascii. reflexivity.
Qed.

Lemma escape_ascii_ascii (a : ascii) :
  (N_of_ascii a <? 128)%N = true -> ascii_text (escape_ascii a) = true.
Proof.
  intros Ha. unfold escape_ascii.
  repeat match goal with
         | |- context [if ?c then _ else _] => destruct c; [try reflexivity|]
         end; try apply escape_u_ascii.
  cbn [ascii_text]. rewrite Ha. reflexivity.
Qed.

(** The escaped form of any text, ASCII or not, is ASCII. *)
Lemma escape_text_is_ascii (s : string) : ascii_text (escape_text s) = true.
Proof.
  assert (Hall : forall n s, (String.length s <= n)%nat -> ascii_text (escape_text s) = true).
  { clear s. induction n as [|n IH]; intros s Hlen.
    - destruct s; [reflexivity|cbn in Hlen; lia].
    - destruct s as [|a rest]; [reflexivity|]. cbn [String.length] in Hlen.
      cbn [escape_text]. cbv zeta.
      destruct (N_of_ascii a <? 128)%N eqn:Ha.
      { rewrite ascii_text_app, (escape_ascii_ascii a Ha). apply IH. lia. }
      destruct (N_of_ascii a <? 224)%N.
      { destruct rest as [|b r1]; rewrite ascii_text_app, escape_code_point_ascii;
          apply IH; cbn [String.length] in *; lia. }
      destruct (N_of_ascii a <? 240)%N.
      { destruct rest as [|b [|c r2]]; rewrite ascii_text_app, escape_code_point_ascii;
          apply IH; cbn [String.length] in *; lia. }
      destruct rest as [|b [|c [|d r3]]]; rewrite ascii_text_app, escape_code_point_ascii;
        apply IH; cbn [String.length] in *; lia. }
  apply (Hall (String.length s)). lia.
Qed.

Lemma encode_str_ascii (s : string) : ascii_text (encode_str s) = true.
Proof.
  unfold encode_str. cbn [ascii_text]. rewrite ascii_text_app, escape_text_is_ascii.
  reflexivity.
Qed.

Lemma digits_ascii (d : Decimal.uint) : ascii_text (NilEmpty.string_of_uint d) = true.
Proof. induction d; cbn [NilEmpty.string_of_uint ascii_text]; auto. Qed.

Lemma str_of_int_ascii (n : Z) : ascii_text (str_of_int n) = true.
Proof.
  destruct n as [|p|p]; [reflexivity|..].
  - rewrite str_of_int_pos. apply digits_ascii.
  - rewrite str_of_int_neg. cbn [ascii_text]. rewrite digits_ascii. reflexivity.
Qed.

Lemma concat_ascii (texts : list string) :
  forallb ascii_text texts = true -> ascii_text (String.concat ", " texts) = true.
Proof.
  induction texts as [|t ts IH]; [reflexivity|]. cbn [forallb].
  intros [Ht Hts]%andb_prop. destruct ts as [|t' ts']; [exact Ht|].
  change (String.concat ", " (t :: t' :: ts'))
    with (t +:+ ", " +:+ String.concat ", " (t' :: ts')).
  rewrite !ascii_text_app, Ht, (IH Hts). reflexivity.
Qed.

(** [json.dumps] of a native value is made of ASCII characters only. *)
Theorem encode_ascii (v : PyVal) (t : string) :
  json_native v = true -> encode v = Some t -> ascii_text t = true.
Proof.
  revert t.
  induction v as [|b|n|lit|s|b|items IH|items IH|items IH] using PyVal_values_ind;
    intros t Hn He; try discriminate Hn.
  - injection He as <-. reflexivity.
  - destruct b; injection He as <-; reflexivity.
  - injection He as <-. apply str_of_int_ascii.
  - injection He as <-. apply encode_str_ascii.
  - cbn [json_native encode] in *.
    assert (Hts : forall texts, traverse encode items = Some texts ->
                                forallb ascii_text texts = true).
    { clear He. induction IH as [|v vs Hv _ IHvs]; intros texts Ht.
      - injection Ht as <-. reflexivity.
      - cbn [forallb] in Hn. apply andb_prop in Hn as [Hnv Hn].
        cbn [traverse] in Ht.
        destruct (encode v) as [tv|] eqn:Hev; [|discriminate].
        destruct (traverse encode vs) as [tvs|]; [|discriminate].
        injection Ht as <-. cbn [forallb]. rewrite (Hv tv Hnv eq_refl), (IHvs Hn tvs eq_refl).
        reflexivity. }
    destruct (traverse encode items) as [texts|]; [|discriminate].
    injection He as <-. rewrite !ascii_text_app, (concat_ascii _ (Hts _ eq_refl)).
    reflexivity.
  - cbn [json_native encode] in *. apply andb_prop in Hn as [Hn _].
    match type of He with
    | context [traverse ?f items] => set (member := f) in *
    end.
    assert (Hts : forall texts, traverse member items = Some texts ->
                                forallb ascii_text texts = true).
    { clear He. induction IH as [|[k v] kvs Hv _ IHkvs]; intros texts Ht.
      - injection Ht as <-. reflexivity.
      - cbn [forallb] in Hn. apply andb_prop in Hn as [Hkv Hn].
        apply andb_prop in Hkv as [_ Hnv]. cbn [snd] in Hv.
        cbn [traverse] in Ht. unfold member at 1 in Ht.
        destruct (key_text k) as [kt|]; [|discriminate].
        destruct (encode v) as [tv|] eqn:Hev; [|discriminate].
        destruct (traverse member kvs) as [tvs|]; [|discriminate].
        injection Ht as <-. cbn [forallb].
        rewrite !ascii_text_app, encode_str_ascii, (Hv tv Hnv eq_refl),
          (IHkvs Hn tvs eq_refl).
        reflexivity. }
    destruct (traverse member items) as [texts|]; [|discriminate].
    injection He as <-. rewrite !ascii_text_app, (concat_ascii _ (Hts _ eq_refl)).
    reflexivity.
Qed.
End PyAsciiFacts.

(** * The dashboard: its history and its read of the output key *)

Module DashboardFacts.
Import Dashboard.
Section History.
Context {V : Type}.
Implicit Types (st : option (gmap string (list (Point V)))) (key : string).

Lemma last_n_short {A : Type} (n : nat) (l : list A) :
  (length l <= n)%nat -> last_n n l = l.
Proof. intros Hl. unfold last_n. replace (length l - n)%nat with 0%nat by lia. reflexivity. Qed.

Lemma last_n_length {A : Type} (n : nat) (l : list A) :
  length (last_n n l) = Nat.min n (length l).
Proof. unfold last_n. rewrite length_drop. lia. Qed.

Lemma last_n_app {A : Type} (n : nat) (l r : list A) :
  last_n n (last_n n l ++ r) = last_n n (l ++ r).
Proof.
  destruct (Nat.le_gt_cases (length l) n) as [Hle|Hgt].
  - rewrite (last_n_short n l Hle). reflexivity.
  - unfold last_n at 1 3. rewrite !length_app, last_n_length.
    replace (Nat.min n (length l) + length r - n)%nat with (length r) by lia.
    replace (length l + length r - n)%nat with ((length l - n) + length r)%nat by lia.
    rewrite <- drop_drop. f_equal. unfold last_n.
    rewrite drop_app_le by lia. reflexivity.
Qed.

(** What one call makes of each series. *)
Lemma update_history_series (utcnow : Z) key (value : option V) st (k : string) :
  series (update_history utcnow key value st) k
  = if String.eqb key k then
      match value with
      | Some v => last_n 500 (series st key ++ [mkPoint utcnow v])
      | None => series st key
      end
    else series st k.
Proof.
  unfold update_history, series.
  destruct (String.eqb_spec key k) as [<-|Hne].
  - destruct value as [v|]; cbn [default from_option id].
    + destruct (500 <? length _)%nat eqn:Hlen; cbn [default from_option id];
        rewrite lookup_insert_eq; cbn [default from_option id]; [reflexivity|].
      apply Nat.ltb_ge in Hlen. symmetry. apply last_n_short, Hlen.
    + rewrite lookup_insert_eq. reflexivity.
  - destruct value as [v|]; cbn [default from_option id].
    + destruct (500 <? length _)%nat; cbn [default from_option id];
        rewrite !lookup_insert_ne by exact Hne; reflexivity.
    + rewrite lookup_insert_ne by exact Hne. reflexivity.
Qed.

Lemma last_n_last {A : Type} (n : nat) (l : list A) (x : A) :
  (0 < n)%nat -> last (last_n n (l ++ [x])) = Some x.
Proof.
  intros Hn. unfold last_n. rewrite length_app. cbn [length].
  destruct (Nat.le_gt_cases (length l + 1) n) as [Hle|Hgt].
  - replace (length l + 1 - n)%nat with 0%nat by lia. apply last_snoc.
  - rewrite drop_app_le by lia. apply last_snoc.
Qed.

Lemma update_all_series (updates : list (Update V)) st key :
  (length (series st key) <= 500)%nat ->
  series (update_all updates st) key = last_n 500 (series st key ++ pushed key updates).
Proof.
  revert st. induction updates as [|[[utcnow k] value] updates IH]; intros st Hlen.
  - cbn [update_all fold_left pushed]. rewrite app_nil_r. symmetry.
    apply last_n_short, Hlen.
  - unfold update_all in *. cbn [fold_left fst snd pushed].
    pose proof (update_history_series utcnow k value st key) as Hs.
    rewrite IH.
    + rewrite Hs. destruct value as [v|]; destruct (String.eqb_spec k key) as [->|Hne];
        try reflexivity.
      rewrite last_n_app, <- app_assoc. reflexivity.
    + rewrite Hs. destruct (String.eqb_spec k key) as [->|Hne]; [|exact Hlen].
      destruct value; [|exact Hlen]. rewrite last_n_length. lia.
Qed.

(** X18: a call of [update_history] with a value appends the point made
    of the current time and the value to the series of the key and keeps
    the last 500 points of it: the series then ends with the new point
    and has at most 500 points, whatever it held before; the other series
    are as they were.  A call without a value changes no series. *)
Theorem X18_update_history_appends_and_keeps_the_last_500 (utcnow : Z) key (v : V) st :
  series (update_history utcnow key (Some v) st) key
  = last_n 500 (series st key ++ [mkPoint utcnow v])
  /\ (length (series (update_history utcnow key (Some v) st) key) <= 500)%nat
  /\ last (series (update_history utcnow key (Some v) st) key) = Some (mkPoint utcnow v)
  /\ (forall k, k <> key ->
        series (update_history utcnow key (Some v) st) k = series st k)
  /\ forall k, series (update_history utcnow key None st) k = series st k.
Proof.
  pose proof (update_history_series utcnow key (Some v) st key) as Hs.
  rewrite String.eqb_refl in Hs. rewrite Hs.
  split; [reflexivity|]. split; [rewrite last_n_length; lia|].
  split; [apply last_n_last; lia|]. split.
  - intros k Hk. rewrite update_history_series.
    destruct (String.eqb_spec key k); [congruence|reflexivity].
  - intros k. rewrite update_history_series.
    destruct (String.eqb_spec key k) as [->|]; reflexivity.
Qed.

(** X19: over any run of page refreshes of a session, each series holds
    the latest 500 of the points given to its key, in the order they
    came, and so never more than 500 points. *)
Theorem X19_history_holds_the_latest_500_points (updates : list (Update V)) key :
  series (update_all updates None) key = last_n 500 (pushed key updates)
  /\ (length (series (update_all updates None) key) <= 500)%nat.
Proof.
  assert (Hnone : series (None : option (gmap string (list (Point V)))) key = [])
    by (unfold series; cbn [default from_option id]; rewrite lookup_empty; reflexivity).
  pose proof (update_all_series updates None key) as Hs. rewrite Hnone in Hs.
  assert (Heq : series (update_all updates None) key = last_n 500 (pushed key updates))
    by (apply Hs; cbn; lia).
  split; [exact Heq|]. rewrite Heq, last_n_length. lia.
Qed.
End History.

(** ** Reading the output key *)

Section Reading.
Context `{PyStd}.

(** X21: once the client is made, [read_metrics_from_redis] never raises:
    it returns [None] when the key is missing, when the GET fails, when
    the bytes are not UTF-8 and when the text is not JSON, and otherwise
    the value [json.loads] makes of the text under the key, whatever its
    type.  It raises only what making the client raises, before the
    [try]: the [ValueError] of [int] on a [REDIS_PORT] or [REDIS_DB] that
    is not an integer. *)
Theorem X21_read_metrics_returns_none_on_read_errors (environ : gmap string string)
    (server : Server) (key : string) :
  (forall client,
     get_redis_client environ = Returns client ->
     exists data,
       read_metrics_from_redis environ server key = Returns data
       /\ (data = PyNone
           \/ exists text,
                server client key = Returns (Some text)
                /\ utf8_valid text = true
                /\ json_loads text = Returns data)
       /\ (server client key = Returns None -> data = PyNone)
       /\ (forall e, server client key = Raises e -> data = PyNone)
       /\ (forall b, server client key = Returns (Some b) ->
             utf8_valid b = false \/ (exists e, json_loads b = Raises e) ->
             data = PyNone))
  /\ (forall e, get_redis_client environ = Raises e ->
        read_metrics_from_redis environ server key = Raises e)
  /\ ((exists e, get_redis_client environ = Raises e)
      <-> py_int (default "6379" (environ !! "REDIS_PORT")) = None
          \/ py_int (default "0" (environ !! "REDIS_DB")) = None).
Proof.
  unfold read_metrics_from_redis, client_get_decoded. split; [|split].
  - intros client ->. destruct (server client key) as [[b|]|e] eqn:Hs.
    + destruct (utf8_valid b) eqn:Hu.
      * destruct (json_loads b) as [data|e] eqn:Hj.
        -- exists data. split; [reflexivity|]. split; [right; exists b; auto|].
           split; [discriminate|]. split; [discriminate|].
           intros b' [= <-] [Hc|[e Hc]]; congruence.
        -- exists PyNone. repeat split; auto.
      * exists PyNone. repeat split; auto.
    + exists PyNone. repeat split; auto.
    + exists PyNone. repeat split; auto.
  - intros e ->. reflexivity.
  - unfold get_redis_client.
    destruct (py_int (default "6379" (environ !! "REDIS_PORT"))) as [p|].
    + destruct (py_int (default "0" (environ !! "REDIS_DB"))) as [d|].
      * split; [intros [e He]; discriminate|intros [Hc|Hc]; discriminate].
      * split; [auto|]. intros _. eexists. reflexivity.
    + split; [auto|]. intros _. eexists. reflexivity.
Qed.

Lemma cycle_set_text (E : Env) (l : Loop) (w : World) (payload result : PyVal)
    (c : Context) (k text : string) (res : Outcome unit) :
  In (EvCall payload c (Returns result)) (events (cycle E l w)) ->
  In (EvSet k text res) (events (cycle E l w)) ->
  k = loop_output_key l /\ json_dumps result = Returns text.
Proof. paths; intros Hcall Hset; members; auto. Qed.
End Reading.

(** X22: what the runtime publishes, the dashboard reads back: after an
    iteration in which the handler returned a dict of [None], booleans,
    integers, ASCII strings, lists and dicts with distinct ASCII string
    keys and the SET went through, [read_metrics_from_redis] on the
    output key, from a client whose server holds the runtime's store,
    returns that dict; the text in the store is ASCII, so that decoding
    it as UTF-8 cannot fail. *)
Theorem X22_dashboard_reads_back_what_the_runtime_published (E : Env) (l : Loop) (w : World)
    (payload : PyVal) (c : Context) (items : list (PyVal * PyVal)) (text : string)
    (environ : gmap string string) (server : Server) (client : Client) :
  In (EvCall payload c (Returns (PyDict items))) (events (cycle E l w)) ->
  In (EvSet (loop_output_key l) text (Returns tt)) (events (cycle E l w)) ->
  json_native (PyDict items) = true ->
  get_redis_client environ = Returns client ->
  server client (loop_output_key l)
  = Returns (store (world (cycle E l w)) !! loop_output_key l) ->
  ascii_text text = true
  /\ read_metrics_from_redis environ server (loop_output_key l) = Returns (PyDict items).
Proof.
  intros Hcall Hset Hn Hclient Hserver.
  destruct (cycle_set_text E l w _ _ _ _ _ _ Hcall Hset) as [_ Hd].
  destruct (cycle_publishes E l w _ _ _ _ Hcall Hd Hset) as [l' [_ [Hstore _]]].
  destruct (PyJsonFacts.loads_dumps _ Hn) as [t [Ht Hl]].
  cbn [json_dumps python] in Hd. rewrite Ht in Hd. injection Hd as ->.
  assert (Ha : ascii_text text = true).
  { unfold PyJson.dumps in Ht. destruct (PyJson.encode (PyDict items)) as [t'|] eqn:He;
      [|discriminate]. injection Ht as ->. exact (PyAsciiFacts.encode_ascii _ _ Hn He). }
  split; [exact Ha|].
  unfold read_metrics_from_redis, client_get_decoded.
  rewrite Hclient, Hserver, Hstore, (PyAsciiFacts.ascii_text_utf8_valid _ Ha).
  cbn [json_loads python]. rewrite Hl. reflexivity.
Qed.

Lemma X22_witness :
  ascii_text text_y2 = true
  /\ read_metrics_from_redis ∅
       (fun _ key =>
          Returns (store (world (cycle steady
                                   (fresh_loop (returning (PyDict [(PyStr "y", PyInt 2)])))
                                   (world_with text_x1))) !! key))
       "out"
     = Returns (PyDict [(PyStr "y", PyInt 2)]).
Proof.
  apply (X22_dashboard_reads_back_what_the_runtime_published steady
           (fresh_loop (returning (PyDict [(PyStr "y", PyInt 2)]))) (world_with text_x1)
           (PyDict [(PyStr "x", PyInt 1)])
           (Context_init "localhost" 6379 "metrics" "out" 0)
           [(PyStr "y", PyInt 2)] text_y2 ∅ _ (mkClient "localhost" 6379 0)).
  - vm_compute. auto 10.
  - vm_compute. auto 10.
  - reflexivity.
  - vm_compute. reflexivity.
  - reflexivity.
Defined.
End DashboardFacts.
